(** * Retail data EDA: a shallow embedding of [analyze_retail.py]

    The script loads a delimited table into a pandas [DataFrame], derives
    calendar columns from [InvoiceDate] and prints a report made of
    group-by aggregates, while saving a chart per analysis step.

    Modelling choices.
    - A [DataFrame] is an ordered list of named columns; a column carries
      its dtype ([Numeric], [Object] or [Datetime]) and one cell per row,
      [None] standing for the missing value (NaN / NaT).
    - Numeric cells are integers: an int64 column, or a float64 column
      that holds integers and NaN.  Sums are written as integer sums.
      int64 and float64 additions of integers are exact, in whatever
      order they are done, as long as the absolute values add up to at
      most 2^53; beyond that int64 wraps around and float64 rounds,
      which the sums here do not follow.  The theorems that state the
      value of a sum assume the exact range ([exact_amounts]).
    - The quotient and the product of the 80/20 test are float64
      operations: [float64] rounds a rational to the nearest binary64
      value, ties to even.
    - The correlation coefficients are float64 values, computed row by
      row with the update rule of pandas' [nancorr].
    - [print] and [plt.savefig] are recorded as a trace of events; a
      raised exception ends the run and keeps the trace printed so far.
      A bar plot of a series without rows raises; drawing the other
      charts and writing the image files is left to the environment
      ([renders]).
    - pandas operations ([groupby], [sum], [sort_index], [sort_values],
      [cumsum], [value_counts], [nunique], [idxmax], [corr], [describe],
      the [.dt] accessors) are modelled after their behaviour in
      pandas 2 with the default arguments the script relies on
      ([dropna=True], [skipna=True], [min_count=0], [sort=True]). *)

From Stdlib Require Import String Ascii.
From Stdlib Require Import ZArith List Bool Lia Arith.
From Stdlib Require Import Sorting.Sorted Sorting.Permutation.
From Stdlib Require Import QArith Qround Qpower.
From Stdlib Require Import Psatz.
Import ListNotations.

Local Open Scope string_scope.
Local Open Scope list_scope.
Local Open Scope Z_scope.

(* ================================================================= *)
(** ** Data model *)

(** A pandas column with its dtype.  [Numeric] covers int64 and float64
    columns, [Object] the string columns [read_csv] produces, [Datetime]
    holds nanoseconds since the epoch (datetime64[ns]). *)
Inductive series : Type :=
| Numeric (xs : list (option Z))
| Object (xs : list (option string))
| Datetime (xs : list (option Z)).

Definition DataFrame : Type := list (string * series).

(** Index labels and group keys. *)
Inductive label : Type :=
| LInt (z : Z)
| LStr (s : string)
| LTime (ns : Z).

Definition columns (df : DataFrame) : list string := map fst df.

(** ['name' in df.columns] *)
Definition has_column (name : string) (df : DataFrame) : bool :=
  existsb (String.eqb name) (columns df).

(** [df[name]] *)
Fixpoint get_column (name : string) (df : DataFrame) : option series :=
  match df with
  | [] => None
  | (n, s) :: rest => if String.eqb name n then Some s else get_column name rest
  end.

(** [df[name] = s]: an existing column is replaced in place, a new one
    is appended after the last column. *)
Fixpoint set_column (name : string) (s : series) (df : DataFrame) : DataFrame :=
  match df with
  | [] => [(name, s)]
  | (n, s0) :: rest =>
      if String.eqb name n then (n, s) :: rest
      else (n, s0) :: set_column name s rest
  end.

Definition series_length (s : series) : nat :=
  match s with
  | Numeric xs => length xs
  | Object xs => length xs
  | Datetime xs => length xs
  end.

(** The cells of a column seen as group keys ([None] is a null key). *)
Definition keys_of (s : series) : list (option label) :=
  match s with
  | Numeric xs => map (option_map LInt) xs
  | Object xs => map (option_map LStr) xs
  | Datetime xs => map (option_map LTime) xs
  end.


(** Equality and order on labels.  Labels of one column share a
    constructor; across constructors the order is by kind. *)
Definition label_eqb (a b : label) : bool :=
  match a, b with
  | LInt x, LInt y => Z.eqb x y
  | LStr x, LStr y => String.eqb x y
  | LTime x, LTime y => Z.eqb x y
  | _, _ => false
  end.

Definition label_rank (a : label) : Z :=
  match a with
  | LInt _ => 0
  | LStr _ => 1
  | LTime _ => 2
  end.

Definition label_leb (a b : label) : bool :=
  match a, b with
  | LInt x, LInt y => Z.leb x y
  | LStr x, LStr y => String.leb x y
  | LTime x, LTime y => Z.leb x y
  | _, _ => Z.leb (label_rank a) (label_rank b)
  end.

(* ================================================================= *)
(** ** Aggregation primitives *)

(** A labelled numeric series, as returned by [groupby(...)[col].sum()]
    and [value_counts()]. *)
Definition lseries : Type := list (label * Z).

Definition values (s : lseries) : list Z := map snd s.
Definition index (s : lseries) : list label := map fst s.

Definition zsum (l : list Z) : Z := fold_right Z.add 0 l.

(** [Series.sum()] with [skipna=True]: missing cells count for nothing. *)
Definition nan_to_zero (v : option Z) : Z :=
  match v with
  | Some z => z
  | None => 0
  end.

Definition column_sum (xs : list (option Z)) : Z := zsum (map nan_to_zero xs).

(** Accumulate [v] into the group of key [k], opening the group on the
    first row that carries the key. *)
Fixpoint add_to (k : label) (v : Z) (acc : lseries) : lseries :=
  match acc with
  | [] => [(k, v)]
  | (k', s) :: rest =>
      if label_eqb k k' then (k', s + v) :: rest
      else (k', s) :: add_to k v rest
  end.

(** One pass over the rows; a row with a null key is left out
    ([dropna=True]). *)
Definition accumulate (rows : list (option label * Z)) : lseries :=
  fold_left
    (fun acc row =>
       match fst row with
       | Some k => add_to k (snd row) acc
       | None => acc
       end)
    rows [].

(** Insertion by ascending label, used for the sorted group index. *)
Fixpoint insert_by_index (x : label * Z) (l : lseries) : lseries :=
  match l with
  | [] => [x]
  | y :: rest =>
      if label_leb (fst x) (fst y) then x :: y :: rest
      else y :: insert_by_index x rest
  end.

(** [Series.sort_index()] *)
Definition sort_index (l : lseries) : lseries :=
  fold_right insert_by_index [] l.

(** Insertion by descending value; equal values keep their order. *)
Fixpoint insert_by_value (x : label * Z) (l : lseries) : lseries :=
  match l with
  | [] => [x]
  | y :: rest =>
      if Z.leb (snd y) (snd x) then x :: y :: rest
      else y :: insert_by_value x rest
  end.

(** [Series.sort_values(ascending=False)].  pandas leaves the order of
    equal values to the sorting algorithm (quicksort, which is not
    stable); this ranking keeps them in index order, and what is proved
    of a ranking is proved of every descending rearrangement. *)
Definition sort_values_desc (l : lseries) : lseries :=
  fold_right insert_by_value [] l.

(** [df.groupby(by)[col].sum()]: groups sorted by key, null keys
    dropped, missing amounts skipped. *)
Definition groupby_sum (by_ : series) (amounts : list (option Z)) : lseries :=
  sort_index (accumulate (combine (keys_of by_) (map nan_to_zero amounts))).

(** [Series.value_counts()]: rows per distinct non-null value, most
    frequent first. *)
Definition value_counts (s : series) : lseries :=
  sort_values_desc
    (accumulate (combine (keys_of s) (map (fun _ => 1) (keys_of s)))).

(** [Series.nunique()]: number of distinct non-null values. *)
Fixpoint distinct (seen : list label) (ks : list (option label)) : list label :=
  match ks with
  | [] => seen
  | None :: rest => distinct seen rest
  | Some k :: rest =>
      if existsb (label_eqb k) seen then distinct seen rest
      else distinct (seen ++ [k]) rest
  end.

Definition nunique (s : series) : nat := length (distinct [] (keys_of s)).

(** The running extreme of a list; [None] (NaN) when it is empty. *)
Definition extreme (f : Z -> Z -> Z) (l : list Z) : option Z :=
  match l with
  | [] => None
  | v :: rest => Some (fold_left f rest v)
  end.

(** [Series.max()] / [Series.min()] *)
Definition series_max (s : lseries) : option Z := extreme Z.max (values s).
Definition series_min (s : lseries) : option Z := extreme Z.min (values s).

(** The scan behind [argmax] / [argmin]: the candidate is replaced only
    by a strictly better row, so the first occurrence of the extreme
    value wins. *)
Fixpoint first_best (better : Z -> Z -> bool) (best : label * Z) (rest : lseries)
  : label * Z :=
  match rest with
  | [] => best
  | x :: rest' =>
      if better (snd x) (snd best) then first_best better x rest'
      else first_best better best rest'
  end.

(** [Series.idxmax()] / [Series.idxmin()]: label of the first occurrence
    of the extreme value; [None] stands for the [ValueError] pandas
    raises on an empty series. *)
Definition idxmax (s : lseries) : option label :=
  match s with
  | [] => None
  | x :: rest => Some (fst (first_best Z.gtb x rest))
  end.

Definition idxmin (s : lseries) : option label :=
  match s with
  | [] => None
  | x :: rest => Some (fst (first_best Z.ltb x rest))
  end.

(** [Series.cumsum()] *)
Fixpoint cumsum_from (acc : Z) (l : list Z) : list Z :=
  match l with
  | [] => []
  | v :: rest => (acc + v) :: cumsum_from (acc + v) rest
  end.

Definition cumsum (l : list Z) : list Z := cumsum_from 0 l.

(** [Series.head(n)] *)
Definition head (n : nat) (s : lseries) : lseries := firstn n s.

(* ================================================================= *)
(** ** Pareto test *)

(** The position of the leading bit of a positive rational:
    [floor (log2 x)]. *)
Definition binade (x : Q) : Z :=
  let x := Qred x in
  let e := Z.log2 (Qnum x) - Z.log2 (Zpos (Qden x)) in
  if Qle_bool (Qpower 2 e) x then e else e - 1.

(** The nearest integer, ties to the even one. *)
Definition round_half_even (y : Q) : Z :=
  let n := Qfloor y in
  match Qcompare (y - inject_Z n) (1 # 2) with
  | Lt => n
  | Gt => n + 1
  | Eq => if Z.even n then n else n + 1
  end.

(** A positive rational rounded to 53 significant bits. *)
Definition round_positive (x : Q) : Q :=
  let e := binade x - 52 in
  (inject_Z (round_half_even (x / Qpower 2 e)) * Qpower 2 e)%Q.

(** The float64 nearest to a rational (IEEE 754 round to nearest, ties
    to even).  The exponent range is not modelled: the values rounded
    here are integer cells, their sums, percentages and moments, far
    from overflow and underflow. *)
Definition float64 (x : Q) : Q :=
  match Qcompare x 0 with
  | Eq => 0%Q
  | Gt => round_positive x
  | Lt => (- round_positive (- x))%Q
  end.

(** One entry of [product_revenue.cumsum() / total_revenue * 100] for a
    non-zero total: both operands as float64, their quotient rounded,
    and the product by 100 rounded. *)
Definition cumulative_pct (c t : Z) : Q :=
  float64 (float64 (float64 (inject_Z c) / float64 (inject_Z t)) * 100).

(** [cumulative_pct <= 80].  A zero total makes the quotient [-inf],
    NaN or [+inf] (no exception is raised by the division), and only
    [-inf] passes the comparison. *)
Definition pct_le_80 (c t : Z) : bool :=
  if t =? 0 then c <? 0 else Qle_bool (cumulative_pct c t) 80.

(** [cumulative_pct[cumulative_pct <= 80].count()] *)
Definition top_20_pct (product_revenue : lseries) : nat :=
  let total_revenue := zsum (values product_revenue) in
  length (filter (fun c => pct_le_80 c total_revenue)
                 (cumsum (values product_revenue))).

(* ================================================================= *)
(** ** Pearson correlation *)

(** Rows on which both columns hold a value (pairwise deletion). *)
Fixpoint complete_pairs (xs ys : list (option Z)) : list (Z * Z) :=
  match xs, ys with
  | Some x :: xs', Some y :: ys' => (x, y) :: complete_pairs xs' ys'
  | _ :: xs', _ :: ys' => complete_pairs xs' ys'
  | _, _ => []
  end.

(** [DataFrame.corr] converts the numeric columns to float64 and works
    in float64 from there on: each operation gives the exact result,
    rounded. *)
Definition to_float (z : Z) : Q := float64 (inject_Z z).
Definition fadd (x y : Q) : Q := float64 (x + y).
Definition fsub (x y : Q) : Q := float64 (x - y).
Definition fmul (x y : Q) : Q := float64 (x * y).
Definition fdiv (x y : Q) : Q := float64 (x / y).

(** The square root of a positive rational, rounded to 53 significant
    bits: the integer root of the scaled operand, moved up when the
    operand lies above the midpoint. *)
Definition sqrt_positive (x : Q) : Q :=
  let e := binade x / 2 - 52 in
  let y := (x / Qpower 2 (2 * e))%Q in
  let n := Z.sqrt (Qfloor y) in
  let h := (inject_Z n + (1 # 2))%Q in
  let m := match Qcompare y (h * h) with
           | Lt => n
           | Gt => n + 1
           | Eq => if Z.even n then n else n + 1
           end in
  (inject_Z m * Qpower 2 e)%Q.

(** [sqrt]; NaN ([None]) on a negative operand. *)
Definition float64_sqrt (x : Q) : option Q :=
  match Qcompare x 0 with
  | Lt => None
  | Eq => Some 0%Q
  | Gt => Some (sqrt_positive x)
  end.

(** The running moments of [nancorr] (Welford's method). *)
Record moments : Type := Moments {
  nobs : Z;
  meanx : Q;
  meany : Q;
  ssqdmx : Q;
  ssqdmy : Q;
  covxy : Q
}.

(** One complete row:
    [nobs += 1; dx = vx - meanx; dy = vy - meany;
     meanx += 1. / nobs * dx; meany += 1. / nobs * dy;
     ssqdmx += (vx - meanx) * dx; ssqdmy += (vy - meany) * dy;
     covxy += (vx - meanx) * dy]. *)
Definition welford (m : moments) (row : Z * Z) : moments :=
  let vx := to_float (fst row) in
  let vy := to_float (snd row) in
  let n := nobs m + 1 in
  let dx := fsub vx (meanx m) in
  let dy := fsub vy (meany m) in
  let mx := fadd (meanx m) (fmul (fdiv 1 (to_float n)) dx) in
  let my := fadd (meany m) (fmul (fdiv 1 (to_float n)) dy) in
  Moments n mx my
          (fadd (ssqdmx m) (fmul (fsub vx mx) dx))
          (fadd (ssqdmy m) (fmul (fsub vy my) dy))
          (fadd (covxy m) (fmul (fsub vx mx) dy)).

(** [if val > 1.0: val = 1.0 elif val < -1.0: val = -1.0] *)
Definition clip (val : Q) : Q :=
  match Qcompare val 1 with
  | Gt => 1%Q
  | _ => match Qcompare val (- (1)) with
         | Lt => (- (1))%Q
         | _ => val
         end
  end.

(** The coefficient of two columns: NaN below one complete row
    ([min_periods=1]), NaN when the divisor [sqrt (ssqdmx * ssqdmy)] is
    zero or NaN, the clipped quotient otherwise. *)
Definition nancorr_pair (xs ys : list (option Z)) : option Q :=
  let m := fold_left welford (complete_pairs xs ys) (Moments 0 0 0 0 0 0) in
  if nobs m <? 1 then None
  else
    match float64_sqrt (fmul (ssqdmx m) (ssqdmy m)) with
    | None => None
    | Some divisor =>
        if Qeq_bool divisor 0 then None
        else Some (clip (fdiv (covxy m) divisor))
    end.

(** [df.select_dtypes(include=[np.number])] *)
Fixpoint select_numeric (df : DataFrame) : list (string * list (option Z)) :=
  match df with
  | [] => []
  | (n, Numeric xs) :: rest => (n, xs) :: select_numeric rest
  | _ :: rest => select_numeric rest
  end.

(** [df[numeric_cols].corr()]: [nancorr] computes the coefficient of
    the columns [xi] and [yi <= xi] and stores it at [(xi, yi)] and at
    [(yi, xi)]. *)
Definition corr (cols : list (string * list (option Z))) : list (list (option Q)) :=
  let column := fun i => snd (nth i cols ("", [])) in
  map (fun xi =>
         map (fun yi =>
                if (yi <=? xi)%nat
                then nancorr_pair (column xi) (column yi)
                else nancorr_pair (column yi) (column xi))
             (seq 0 (length cols)))
      (seq 0 (length cols)).

(* ================================================================= *)
(** ** Report trace *)

Inductive error : Type :=
| ValueError
| TypeError
| KeyError
| IndexError
| OutOfBoundsDatetime
| RenderError.

Inductive chart : Type :=
| BarChart (data : lseries)
| Histogram (data : list Z) (bins : nat)
| BarhChart (data : lseries)
| Heatmap (data : list (list (option Q))).

Inductive dtype : Type := DNumeric | DObject | DDatetime.

(** A row of [df.describe()]: the non-null count, for numeric columns
    the sum the mean is taken from and the extremes, for datetime
    columns the extremes.  The standard deviation and the quartiles are
    not modelled. *)
Inductive summary : Type :=
| NumSummary (count : nat) (total : Z) (minimum maximum : option Z)
| TimeSummary (count : nat) (earliest latest : option Z)
| ObjSummary (count : nat) (unique : nat).

Inductive item : Type :=
| Text (line : string)
| Banner (title : string)
| Shape (rows cols : nat)
| Columns (names : list string)
| DataTypes (types : list (string * dtype))
| MissingValues (nulls : list (string * nat))
| BasicStatistics (rows : list (string * summary))
| MonthlySales (monthly_sales : lseries)
| BestMonth (month : label) (amount : option Z)
| WorstMonth (month : label) (amount : option Z)
| UniqueCustomers (n : nat)
| AveragePurchases (purchases : Z) (customers : nat)
| TopFrequency (rows : lseries)
| TopSpending (rows : lseries)
| TopProducts (rows : lseries)
| ParetoRule (top : nat) (products : nat)
| CorrelationMatrix (names : list string) (m : list (list (option Q))).

Inductive event : Type :=
| Print (i : item)
| SaveFig (file : string).

(** A run prints and saves as it goes and ends with a value or with the
    exception that stopped it. *)
Inductive outcome (A : Type) : Type :=
| Done (a : A)
| Raised (e : error).
Arguments Done {A} a.
Arguments Raised {A} e.

Definition run (A : Type) : Type := (list event * outcome A)%type.

Definition ret {A : Type} (a : A) : run A := ([], Done a).

Definition raise {A : Type} (e : error) : run A := ([], Raised e).

Definition bind {A B : Type} (m : run A) (k : A -> run B) : run B :=
  match m with
  | (t, Done a) => let (t', r) := k a in (t ++ t', r)
  | (t, Raised e) => (t, Raised e)
  end.

Definition print (i : item) : run unit := ([Print i], Done tt).

Declare Scope run_scope.
Delimit Scope run_scope with run.
Notation "x <- m ;; k" := (bind m (fun x => k))
  (at level 61, m at next level, right associativity) : run_scope.
Notation "m ;; k" := (bind m (fun _ => k))
  (at level 61, right associativity) : run_scope.
Local Open Scope run_scope.

Definition trace {A : Type} (m : run A) : list event := fst m.
Definition result {A : Type} (m : run A) : outcome A := snd m.

Definition completes {A : Type} (m : run A) : bool :=
  match result m with
  | Done _ => true
  | Raised _ => false
  end.

(** The image files a run wrote, in order. *)
Fixpoint saved_files (t : list event) : list string :=
  match t with
  | [] => []
  | SaveFig f :: rest => f :: saved_files rest
  | Print _ :: rest => saved_files rest
  end.

Fixpoint printed (t : list event) : list item :=
  match t with
  | [] => []
  | Print i :: rest => i :: printed rest
  | SaveFig _ :: rest => printed rest
  end.

(* ================================================================= *)
(** ** Calendar fields of a timestamp *)

(** The [.dt.year], [.dt.month], [.dt.day] and [.dt.dayofweek] accessors
    read a datetime64[ns] cell through pandas'
    [pandas_datetime_to_datetimestruct] and [ccalendar.dayofweek]; C
    division and remainder truncate, hence [Z.quot] and [Z.rem]. *)
Module Calendar.

Definition ns_per_day : Z := 24 * 60 * 60 * 1000 * 1000 * 1000.

(** Floor division by a positive unit: quotient and remainder. *)
Definition extract_unit (d unit : Z) : Z * Z :=
  let div := Z.quot d unit in
  let rm := Z.rem d unit in
  if rm <? 0 then (div - 1, rm + unit) else (div, rm).

Definition is_leapyear (year : Z) : bool :=
  (Z.land year 3 =? 0)
  && (negb (Z.rem year 100 =? 0) || (Z.rem year 400 =? 0)).

Definition days_per_400years : Z := 400 * 365 + 100 - 4 + 1.

(** Year and zero-based day of the year of a day count from
    1970-01-01. *)
Definition days_to_yearsdays (days_ : Z) : Z * Z :=
  let days := days_ - (365 * 30 + 7) in
  let '(year, days) :=
    if 0 <=? days then
      (400 * Z.quot days days_per_400years, Z.rem days days_per_400years)
    else
      let d := Z.rem days days_per_400years in
      (400 * Z.quot (days - (days_per_400years - 1)) days_per_400years,
       if d <? 0 then d + days_per_400years else d) in
  let '(year, days) :=
    if 366 <=? days then
      let year := year + 100 * Z.quot (days - 1) (100 * 365 + 25 - 1) in
      let days := Z.rem (days - 1) (100 * 365 + 25 - 1) in
      if 365 <=? days then
        let year := year + 4 * Z.quot (days + 1) (4 * 365 + 1) in
        let days := Z.rem (days + 1) (4 * 365 + 1) in
        if 366 <=? days then
          (year + Z.quot (days - 1) 365, Z.rem (days - 1) 365)
        else (year, days)
      else (year, days)
    else (year, days) in
  (year + 2000, days).

Definition days_per_month_table (leap : bool) : list Z :=
  if leap then [31; 29; 31; 30; 31; 30; 31; 31; 30; 31; 30; 31]
  else [31; 28; 31; 30; 31; 30; 31; 31; 30; 31; 30; 31].

(** The loop over the month lengths; it always returns from inside for
    a day of the year, the final [(0, 0)] is not reached. *)
Fixpoint month_and_day (month_lengths : list Z) (i days : Z) : Z * Z :=
  match month_lengths with
  | [] => (0, 0)
  | len :: rest =>
      if days <? len then (i + 1, days + 1)
      else month_and_day rest (i + 1) (days - len)
  end.

Record datetimestruct : Type := {
  year : Z;
  month : Z;
  day : Z
}.

Definition set_datetimestruct_days (days : Z) : datetimestruct :=
  let '(y, yday) := days_to_yearsdays days in
  let '(m, d) := month_and_day (days_per_month_table (is_leapyear y)) 0 yday in
  {| year := y; month := m; day := d |}.

(** The date fields of a nanosecond timestamp. *)
Definition to_datetimestruct (ns : Z) : datetimestruct :=
  set_datetimestruct_days (fst (extract_unit ns ns_per_day)).

Definition sakamoto_arr : list Z := [0; 3; 2; 5; 0; 3; 5; 1; 4; 6; 2; 4].

(** Monday is 0. *)
Definition dayofweek (y m d : Z) : Z :=
  let y := if m <? 3 then y - 1 else y in
  let day :=
    Z.rem (y + Z.quot y 4 - Z.quot y 100 + Z.quot y 400
           + nth (Z.to_nat (m - 1)) sakamoto_arr 0 + d) 7 in
  Z.rem (day + 6) 7.

Definition year_of (ns : Z) : Z := year (to_datetimestruct ns).
Definition month_of (ns : Z) : Z := month (to_datetimestruct ns).
Definition day_of (ns : Z) : Z := day (to_datetimestruct ns).
Definition dayofweek_of (ns : Z) : Z :=
  let dts := to_datetimestruct ns in
  dayofweek (year dts) (month dts) (day dts).

(** A datetime64[ns] cell is a signed 64-bit count; the least value is
    reserved for NaT. *)
Definition valid_timestamp (ns : Z) : Prop := - 2 ^ 63 < ns < 2 ^ 63.

(** *** Reference calendar

    The proleptic Gregorian ordinal of a date, as Python's
    [datetime.date(y, m, d).toordinal()] computes it, with floor
    division; 1970-01-01 has ordinal 719163 and [date.weekday()] is
    [(ordinal + 6) mod 7]. *)
Definition is_leap (y : Z) : bool :=
  (y mod 4 =? 0) && (negb (y mod 100 =? 0) || (y mod 400 =? 0)).

Definition days_before_year (y : Z) : Z :=
  let y := y - 1 in y * 365 + y / 4 - y / 100 + y / 400.

Definition DAYS_IN_MONTH : list Z :=
  [31; 28; 31; 30; 31; 30; 31; 31; 30; 31; 30; 31].

Definition days_in_month (y m : Z) : Z :=
  if (m =? 2) && is_leap y then 29
  else nth (Z.to_nat (m - 1)) DAYS_IN_MONTH 0.

Definition days_before_month (y m : Z) : Z :=
  zsum (firstn (Z.to_nat (m - 1)) DAYS_IN_MONTH)
  + (if (2 <? m) && is_leap y then 1 else 0).

Definition valid_date (y m d : Z) : Prop :=
  1 <= y <= 9999 /\ 1 <= m <= 12 /\ 1 <= d <= days_in_month y m.

Definition toordinal (y m d : Z) : Z :=
  days_before_year y + days_before_month y m + d.

Definition epoch_ordinal : Z := 719163.

Definition weekday (ordinal : Z) : Z := (ordinal + 6) mod 7.

End Calendar.

(** [Series.dt.<field>] on the cells of a datetime column: NaT gives a
    missing value. *)
Definition dt_field (f : Z -> Z) (cells : list (option Z)) : series :=
  Numeric (map (option_map f) cells).

(* ================================================================= *)
(** ** The script *)

Definition banner (title : string) : run unit := print (Banner title).

(** [df.shape]: the row count is the length of any column. *)
Definition shape (df : DataFrame) : nat * nat :=
  (match df with
   | [] => O
   | (_, s) :: _ => series_length s
   end,
   length df).

Definition dtype_of (s : series) : dtype :=
  match s with
  | Numeric _ => DNumeric
  | Object _ => DObject
  | Datetime _ => DDatetime
  end.

Definition count_null {A : Type} (xs : list (option A)) : nat :=
  length (filter (fun x => match x with None => true | Some _ => false end) xs).

(** [df.isnull().sum()] for one column *)
Definition null_count (s : series) : nat :=
  match s with
  | Numeric xs => count_null xs
  | Object xs => count_null xs
  | Datetime xs => count_null xs
  end.

Fixpoint present (xs : list (option Z)) : list Z :=
  match xs with
  | [] => []
  | Some x :: rest => x :: present rest
  | None :: rest => present rest
  end.

Definition summarize (xs : list (option Z)) : summary :=
  let vs := present xs in
  NumSummary (length vs) (zsum vs) (extreme Z.min vs) (extreme Z.max vs).

Definition summarize_time (xs : list (option Z)) : summary :=
  let vs := present xs in
  TimeSummary (length vs) (extreme Z.min vs) (extreme Z.max vs).

(** The columns [describe] keeps by default: the numeric and the
    datetime ones, in the order of the frame. *)
Fixpoint describe_numeric (df : DataFrame) : list (string * summary) :=
  match df with
  | [] => []
  | (n, Numeric xs) :: rest => (n, summarize xs) :: describe_numeric rest
  | (n, Datetime xs) :: rest => (n, summarize_time xs) :: describe_numeric rest
  | (_, Object _) :: rest => describe_numeric rest
  end.

Definition describe_object (c : string * series) : string * summary :=
  (fst c,
   ObjSummary (series_length (snd c) - null_count (snd c))%nat (nunique (snd c))).

(** [df.describe()]: the numeric and datetime columns when there are
    some, all the columns otherwise; a frame without columns is
    refused. *)
Definition describe (df : DataFrame) : run (list (string * summary)) :=
  match df with
  | [] => raise ValueError
  | _ =>
      match describe_numeric df with
      | [] => ret (map describe_object df)
      | rows => ret rows
      end
  end.

(** [Series.plot(kind='bar')] and [kind='barh']: pandas sets the axis
    limits from the positions of the first and the last bar, which
    raises [IndexError] on a series without rows. *)
Definition plot_bars (data : lseries) : run unit :=
  match data with
  | [] => raise IndexError
  | _ :: _ => ret tt
  end.

(** What the date parser of [pd.to_datetime] makes of a string of a
    column: the error it raises, or the timestamp read (nanoseconds
    since the epoch), missing for the text of a missing date. *)
Definition date_parser : Type := list (option string) -> string -> error + option Z.

(** [pd.to_datetime] on the cells of a text column, read in order
    with the format of the column: a missing cell is NaT, and the first
    string that is rejected raises the error of the parser. *)
Fixpoint parse_cells (parse : string -> error + option Z) (xs : list (option string))
  : run (list (option Z)) :=
  match xs with
  | [] => ret []
  | None :: rest =>
      cells <- parse_cells parse rest ;; ret (None :: cells)
  | Some s :: rest =>
      match parse s with
      | inl e => raise e
      | inr cell => cells <- parse_cells parse rest ;; ret (cell :: cells)
      end
  end.

(** An integer read as nanoseconds since the epoch: a value outside
    int64 raises [OutOfBoundsDatetime], and the least int64 is the bit
    pattern of NaT. *)
Definition cast_ns (z : Z) : run (option Z) :=
  if (z <? - 2 ^ 63) || (2 ^ 63 <=? z) then raise OutOfBoundsDatetime
  else if z =? - 2 ^ 63 then ret None
  else ret (Some z).

Fixpoint cast_cells (xs : list (option Z)) : run (list (option Z)) :=
  match xs with
  | [] => ret []
  | None :: rest =>
      cells <- cast_cells rest ;; ret (None :: cells)
  | Some z :: rest =>
      cell <- cast_ns z ;;
      cells <- cast_cells rest ;; ret (cell :: cells)
  end.

Section Script.

(** The date parser of [pd.to_datetime].  The format is inferred from
    the column, so a string is read in the context of its column:
    [parse_datetime column s] is [inl e] when [s] is rejected with the
    error [e] (a [ValueError] for a string that does not match the
    format, an [OutOfBoundsDatetime] for a date out of the representable
    range), [inr None] when [s] stands for a missing date ("NaT", "nan")
    and [inr (Some ns)] when it denotes the timestamp [ns]. *)
Variable parse_datetime : date_parser.

(** Whether matplotlib draws the chart and writes the file; a failure
    of the drawing code or of the image sink raises. *)
Variable renders : chart -> string -> bool.

Definition savefig (c : chart) (file : string) : run unit :=
  if renders c file then ([SaveFig file], Done tt) else raise RenderError.

(** [pd.to_datetime(df['InvoiceDate'])]: strings are parsed, integers
    are read as nanoseconds since the epoch, missing cells become
    NaT. *)
Definition to_datetime (s : series) : run (list (option Z)) :=
  match s with
  | Datetime xs => ret xs
  | Numeric xs => cast_cells xs
  | Object xs => parse_cells (parse_datetime xs) xs
  end.

(** [df[name]] inside a step; the guards make the [KeyError]
    unreachable. *)
Definition column (name : string) (df : DataFrame) : run series :=
  match get_column name df with
  | Some s => ret s
  | None => raise KeyError
  end.

(** [load_data], from the table [pd.read_csv] returned.  A failure of
    [read_csv] itself (no such file, a file that is not a table) stops
    the script right after the loading message and is outside the
    model. *)
Definition load_data (df : DataFrame) : run DataFrame :=
  print (Text "Loading retail data...") ;;
  if has_column "InvoiceDate" df then
    raw <- column "InvoiceDate" df ;;
    cells <- to_datetime raw ;;
    let df := set_column "InvoiceDate" (Datetime cells) df in
    let df := set_column "Year" (dt_field Calendar.year_of cells) df in
    let df := set_column "Month" (dt_field Calendar.month_of cells) df in
    let df := set_column "Day" (dt_field Calendar.day_of cells) df in
    let df := set_column "DayOfWeek" (dt_field Calendar.dayofweek_of cells) df in
    ret df
  else ret df.

Definition basic_statistics (df : DataFrame) : run unit :=
  banner "DATASET OVERVIEW" ;;
  print (Shape (fst (shape df)) (snd (shape df))) ;;
  print (Columns (columns df)) ;;
  print (DataTypes (map (fun c => (fst c, dtype_of (snd c))) df)) ;;
  print (MissingValues (map (fun c => (fst c, null_count (snd c))) df)) ;;
  stats <- describe df ;;
  print (BasicStatistics stats).

(** The monetary column as numbers.  The analysis is written for a
    numeric column, and the theorems on the amounts assume one.  On
    another dtype the step is stopped here with [TypeError]: pandas
    refuses to sum timestamps, and the bar plots refuse the text that
    the sum of a text column concatenates.  (On a text column the
    customer step, which draws no bar plot, would go on; that run is
    not followed here.) *)
Definition amounts_of (s : series) : run (list (option Z)) :=
  match s with
  | Numeric xs => ret xs
  | _ => raise TypeError
  end.

(** [df.groupby(by)[col].sum()] on two columns of the frame. *)
Definition groupby_column_sum (by_ col : string) (df : DataFrame) : run lseries :=
  keys <- column by_ df ;;
  amounts <- column col df ;;
  cells <- amounts_of amounts ;;
  ret (groupby_sum keys cells).

Definition sales_trends_analysis (df : DataFrame) : run unit :=
  banner "SALES TRENDS ANALYSIS" ;;
  if has_column "TotalAmount" df && has_column "Month" df then
    monthly_sales <- groupby_column_sum "Month" "TotalAmount" df ;;
    plot_bars monthly_sales ;;
    savefig (BarChart monthly_sales) "results/monthly_sales_trend.png" ;;
    print (MonthlySales monthly_sales) ;;
    match idxmax monthly_sales with
    | None => raise ValueError
    | Some best =>
        print (BestMonth best (series_max monthly_sales)) ;;
        match idxmin monthly_sales with
        | None => raise ValueError
        | Some worst => print (WorstMonth worst (series_min monthly_sales))
        end
    end
  else ret tt.

Definition customer_behavior_analysis (df : DataFrame) : run unit :=
  banner "CUSTOMER BEHAVIOR INSIGHTS" ;;
  if has_column "CustomerID" df then
    customers <- column "CustomerID" df ;;
    let customer_freq := value_counts customers in
    print (UniqueCustomers (nunique customers)) ;;
    print (AveragePurchases (zsum (values customer_freq)) (length customer_freq)) ;;
    print (TopFrequency (head 10 customer_freq)) ;;
    if has_column "TotalAmount" df then
      by_customer <- groupby_column_sum "CustomerID" "TotalAmount" df ;;
      let customer_spending := sort_values_desc by_customer in
      print (TopSpending (head 10 customer_spending)) ;;
      savefig (Histogram (values customer_spending) 50)
              "results/customer_spending_dist.png"
    else ret tt
  else ret tt.

Definition revenue_driver_analysis (df : DataFrame) : run unit :=
  banner "REVENUE DRIVER IDENTIFICATION" ;;
  if has_column "Product" df && has_column "TotalAmount" df then
    by_product <- groupby_column_sum "Product" "TotalAmount" df ;;
    let product_revenue := sort_values_desc by_product in
    print (TopProducts (head 10 product_revenue)) ;;
    plot_bars (head 10 product_revenue) ;;
    savefig (BarhChart (head 10 product_revenue))
            "results/top_products_revenue.png" ;;
    print (ParetoRule (top_20_pct product_revenue) (length product_revenue))
  else ret tt.

Definition statistical_analysis (df : DataFrame) : run unit :=
  banner "STATISTICAL ANALYSIS" ;;
  let numeric_cols := select_numeric df in
  if (1 <? length numeric_cols)%nat then
    let correlation_matrix := corr numeric_cols in
    savefig (Heatmap correlation_matrix) "results/correlation_matrix.png" ;;
    print (CorrelationMatrix (map fst numeric_cols) correlation_matrix)
  else ret tt.

Definition generate_report (df : DataFrame) : run unit :=
  banner "COMPREHENSIVE RETAIL DATA ANALYSIS REPORT" ;;
  basic_statistics df ;;
  sales_trends_analysis df ;;
  customer_behavior_analysis df ;;
  revenue_driver_analysis df ;;
  statistical_analysis df ;;
  print (Text "ANALYSIS COMPLETE!") ;;
  print (Text "Visualizations saved in 'results/' directory").

(** The script body, from the table [pd.read_csv] returned. *)
Definition main (csv : DataFrame) : run unit :=
  df <- load_data csv ;;
  generate_report df ;;
  banner "KEY INSIGHTS SUMMARY" ;;
  print (Text "1. Sales trends identified across different time periods") ;;
  print (Text "2. Customer behavior patterns and segmentation analyzed") ;;
  print (Text "3. Revenue drivers and top-performing products identified") ;;
  print (Text "4. Statistical relationships between variables discovered") ;;
  print (Text "5. Actionable insights for business decision-making generated").

End Script.

(* ================================================================= *)
(** ** Reference notions the properties are stated with *)

(** The sum of the values on the rows that carry a key: what a group-by
    with [dropna=True] can see. *)
Fixpoint keyed_sum (keys : list (option label)) (vs : list Z) : Z :=
  match keys, vs with
  | Some _ :: keys', v :: vs' => v + keyed_sum keys' vs'
  | None :: keys', _ :: vs' => keyed_sum keys' vs'
  | _, _ => 0
  end.

(** The monetary column over the rows that carry a key, missing amounts
    skipped. *)
Definition keyed_amounts (keys : list (option label)) (amounts : list (option Z)) : Z :=
  keyed_sum keys (map nan_to_zero amounts).

(** Rows that carry a key. *)
Definition count_keyed (keys : list (option label)) : nat :=
  length (filter (fun k => match k with Some _ => true | None => false end) keys).

(** The monthly series of the trend analysis (line 53 of the script). *)
Definition monthly_sales_of (df : DataFrame) : run lseries :=
  groupby_column_sum "Month" "TotalAmount" df.

(** A parser that knows three dates (midnight, UTC) and the text of a
    missing date, whatever the column. *)
Definition parse_sample : date_parser := fun column s =>
  if String.eqb s "2021-03-01" then inr (Some 1614556800000000000)
  else if String.eqb s "2021-04-15" then inr (Some 1618444800000000000)
  else if String.eqb s "2022-01-10" then inr (Some 1641772800000000000)
  else if String.eqb s "NaT" then inr None
  else inl ValueError.

(** Two sales as [read_csv] returns them; the second has no invoice
    date. *)
Definition undated_sale_csv : DataFrame :=
  [("InvoiceDate", Object [Some "2021-03-01"; None]);
   ("TotalAmount", Numeric [Some 10; Some 5])].

(** The same table once loaded: the missing date is NaT and so are its
    four calendar cells. *)
Definition undated_sale : DataFrame :=
  [("InvoiceDate", Datetime [Some 1614556800000000000; None]);
   ("TotalAmount", Numeric [Some 10; Some 5]);
   ("Year", Numeric [Some 2021; None]);
   ("Month", Numeric [Some 3; None]);
   ("Day", Numeric [Some 1; None]);
   ("DayOfWeek", Numeric [Some 0; None])].

(** Two dated sales in March and one in January (2021-03-01, 2021-03-02
    and 2021-01-01, as the loader derives them). *)
Definition three_sales : DataFrame :=
  [("TotalAmount", Numeric [Some 10; Some 20; Some 5]);
   ("Month", Numeric [Some 3; Some 3; Some 1])].

(** Ascending order of the index labels of two rows. *)
Definition index_le (x y : label * Z) : Prop := label_leb (fst x) (fst y) = true.

(** Four sales, one of them without a customer identifier. *)
Definition walk_in_sales : DataFrame :=
  [("CustomerID", Object [Some "A"; None; Some "A"; Some "B"]);
   ("TotalAmount", Numeric [Some 10; Some 7; Some 20; Some 5])].

(** A table of store visits: no monetary, month or product column. *)
Definition visits : DataFrame :=
  [("CustomerID", Object [Some "A"; Some "B"])].

(** A sink that accepts every chart. *)
Definition always_renders (c : chart) (file : string) : bool := true.

(** The five assignments of [load_data] on a frame whose timestamp
    column converted to [cells]. *)
Definition with_calendar (cells : list (option Z)) (df : DataFrame) : DataFrame :=
  set_column "DayOfWeek" (dt_field Calendar.dayofweek_of cells)
    (set_column "Day" (dt_field Calendar.day_of cells)
       (set_column "Month" (dt_field Calendar.month_of cells)
          (set_column "Year" (dt_field Calendar.year_of cells)
             (set_column "InvoiceDate" (Datetime cells) df)))).

Definition derived_columns : list string := ["Year"; "Month"; "Day"; "DayOfWeek"].

(** The cell of a numeric column on row [i]. *)
Definition numeric_cell (name : string) (df : DataFrame) (i : nat) : option Z :=
  match get_column name df with
  | Some (Numeric xs) => nth i xs None
  | _ => None
  end.

(** A table that already carries calendar columns and no timestamp. *)
Definition calendar_only : DataFrame :=
  [("Year", Numeric [Some 2021]);
   ("Month", Numeric [Some 3]);
   ("Day", Numeric [Some 1]);
   ("DayOfWeek", Numeric [Some 0]);
   ("TotalAmount", Numeric [Some 10])].

(** Three sales, read from a CSV file. *)
Definition three_sales_csv : DataFrame :=
  [("InvoiceDate", Object [Some "2021-03-01"; Some "2021-04-15"; Some "2022-01-10"]);
   ("CustomerID", Object [Some "A"; Some "B"; Some "A"]);
   ("Product", Object [Some "tea"; Some "mug"; Some "tea"]);
   ("TotalAmount", Numeric [Some 10; Some 6; Some 20])].

(** One sale, read from a CSV file. *)
Definition one_sale_csv : DataFrame :=
  [("InvoiceDate", Object [Some "2021-03-01"]);
   ("CustomerID", Object [Some "A"]);
   ("Product", Object [Some "tea"]);
   ("TotalAmount", Numeric [Some 10])].

(** The revenue of the [n] best products. *)
Definition cumulative_revenue (product_revenue : lseries) (n : nat) : Z :=
  zsum (firstn n (values product_revenue)).

(** Descending order of the values of two rows. *)
Definition value_ge (x y : label * Z) : Prop := snd y <= snd x.

(** A sale of a product and its refund. *)
Definition refunded_sale : DataFrame :=
  [("Product", Object [Some "tea"; Some "tea"]);
   ("TotalAmount", Numeric [Some 10; Some (-10)])].

(** Three products: one earns 90, the others 6 and 4. *)
Definition star_product : DataFrame :=
  [("Product", Object [Some "tea"; Some "mug"; Some "tea"; Some "pot"]);
   ("TotalAmount", Numeric [Some 50; Some 6; Some 40; Some 4])].

(** The test [p] never turns true again once it has been false along
    the list. *)
Definition closed_downwards (p : Z -> bool) (cs : list Z) : Prop :=
  forall l1 a b l2, cs = l1 ++ a :: b :: l2 -> p b = true -> p a = true.


(** A loaded table that has every column and no row (a typed frame
    filtered down to nothing). *)
Definition header_only : DataFrame :=
  [("InvoiceDate", Datetime []);
   ("CustomerID", Object []);
   ("Product", Object []);
   ("TotalAmount", Numeric []);
   ("Year", Numeric []);
   ("Month", Numeric []);
   ("Day", Numeric []);
   ("DayOfWeek", Numeric [])].


Definition monthly_chart : string := "results/monthly_sales_trend.png".
Definition spending_chart : string := "results/customer_spending_dist.png".
Definition products_chart : string := "results/top_products_revenue.png".
Definition correlation_chart : string := "results/correlation_matrix.png".







(** The dtypes [describe] keeps by default. *)
Definition is_described (s : series) : bool :=
  match s with
  | Object _ => false
  | _ => true
  end.

(** All the columns of a frame hold [n] rows. *)
Definition rows_aligned (n : nat) (df : DataFrame) : Prop :=
  Forall (fun c => series_length (snd c) = n) df.

(** Two sales whose second date is not a date. *)
Definition bad_date_csv : DataFrame :=
  [("InvoiceDate", Object [Some "2021-03-01"; Some "yesterday"]);
   ("TotalAmount", Numeric [Some 10; Some 5])].

(** The message [load_data] starts with. *)
Definition loading_message : event := Print (Text "Loading retail data...").

(** Whether a cell holds the key [k]. *)
Definition holds_key (k : label) (cell : option label) : bool :=
  match cell with
  | Some k' => label_eqb k k'
  | None => false
  end.

(** The sum of the values on the rows whose key is [k]. *)
Fixpoint group_total (k : label) (keys : list (option label)) (vs : list Z) : Z :=
  match keys, vs with
  | cell :: keys', v :: vs' =>
      (if holds_key k cell then v else 0) + group_total k keys' vs'
  | _, _ => 0
  end.

(** The number of rows whose key is [k]. *)
Definition group_size (k : label) (keys : list (option label)) : nat :=
  length (filter (holds_key k) keys).

(** The value a labelled series holds for [k], if any. *)
Fixpoint lookup (k : label) (s : lseries) : option Z :=
  match s with
  | [] => None
  | (k', v) :: rest => if label_eqb k k' then Some v else lookup k rest
  end.

(** The titles of the section banners a run printed, in order. *)
Fixpoint banners (t : list event) : list string :=
  match t with
  | [] => []
  | Print (Banner title) :: rest => title :: banners rest
  | _ :: rest => banners rest
  end.

(** The plain lines a run printed, in order. *)
Fixpoint texts (t : list event) : list string :=
  match t with
  | [] => []
  | Print (Text line) :: rest => line :: texts rest
  | _ :: rest => texts rest
  end.

(** The file list of a step that saved its chart, or did not. *)
Definition saved_if (b : bool) (file : string) : list string :=
  if b then [file] else [].

(** The five steps of [generate_report], in the order it calls them. *)
Definition report_steps (renders : chart -> string -> bool) (df : DataFrame)
  : list (run unit) :=
  [basic_statistics df;
   sales_trends_analysis renders df;
   customer_behavior_analysis renders df;
   revenue_driver_analysis renders df;
   statistical_analysis renders df].

(** The two closing lines of a report. *)
Definition closing_lines : list event :=
  [Print (Text "ANALYSIS COMPLETE!");
   Print (Text "Visualizations saved in 'results/' directory")].

(** The banners of a report that ran through, in order. *)
Definition report_banners : list string :=
  ["COMPREHENSIVE RETAIL DATA ANALYSIS REPORT";
   "DATASET OVERVIEW";
   "SALES TRENDS ANALYSIS";
   "CUSTOMER BEHAVIOR INSIGHTS";
   "REVENUE DRIVER IDENTIFICATION";
   "STATISTICAL ANALYSIS"].

(** The twelve month labels. *)
Definition month_labels : list label :=
  map LInt [1; 2; 3; 4; 5; 6; 7; 8; 9; 10; 11; 12].

(** Sales whose dates are all missing, once loaded. *)
Definition undated_sales : DataFrame :=
  [("InvoiceDate", Datetime [None; None]);
   ("TotalAmount", Numeric [Some 10; Some 5]);
   ("Year", Numeric [None; None]);
   ("Month", Numeric [None; None]);
   ("Day", Numeric [None; None]);
   ("DayOfWeek", Numeric [None; None])].

(** The non-null count a row of [describe] reports. *)
Definition summary_count (s : summary) : nat :=
  match s with
  | NumSummary count _ _ _ => count
  | TimeSummary count _ _ => count
  | ObjSummary count _ => count
  end.

(** The absolute values of a list, added up. *)
Definition abs_sum (l : list Z) : Z := zsum (map Z.abs l).

(** The absolute values of the amounts of a column, added up. *)
Definition abs_total (amounts : list (option Z)) : Z :=
  abs_sum (map nan_to_zero amounts).

(** Amounts in the exact range: whatever rows are added, and in
    whatever order, no partial sum leaves the integers that int64 and
    float64 both represent, so neither wraps nor rounds. *)
Definition exact_amounts (amounts : list (option Z)) : Prop :=
  abs_total amounts <= 2 ^ 53.

(** [c] is at most 80% of [t], in exact arithmetic: the comparison
    that [cumulative_pct <= 80] stands for when [t] is not zero. *)
Definition share_le_80 (c t : Z) : bool :=
  if 0 <? t then 100 * c <=? 80 * t else 80 * t <=? 100 * c.

(* ================================================================= *)
(** ** Runs *)

Lemma bind_done {A B : Type} (t : list event) (a : A) (k : A -> run B) :
  bind (t, Done a) k = (t ++ trace (k a), result (k a)).
Proof. unfold bind, trace, result. destruct (k a); reflexivity. Qed.

Lemma bind_raised {A B : Type} (t : list event) (e : error) (k : A -> run B) :
  bind (t, Raised e) k = (t, Raised e).
Proof. reflexivity. Qed.

Lemma bind_ret {A B : Type} (a : A) (k : A -> run B) : bind (ret a) k = k a.
Proof. unfold ret. rewrite bind_done. destruct (k a); reflexivity. Qed.

Lemma bind_print {B : Type} (i : item) (k : unit -> run B) :
  bind (print i) k = (Print i :: trace (k tt), result (k tt)).
Proof. unfold print. rewrite bind_done. reflexivity. Qed.

Lemma trace_bind {A B : Type} (m : run A) (k : A -> run B) :
  trace (bind m k)
  = match result m with
    | Done a => trace m ++ trace (k a)
    | Raised _ => trace m
    end.
Proof.
  destruct m as [t [a | e]]; [rewrite bind_done | rewrite bind_raised]; reflexivity.
Qed.

Lemma result_bind {A B : Type} (m : run A) (k : A -> run B) :
  result (bind m k)
  = match result m with
    | Done a => result (k a)
    | Raised e => Raised e
    end.
Proof.
  destruct m as [t [a | e]]; [rewrite bind_done | rewrite bind_raised]; reflexivity.
Qed.

(** Runs through the leading prints and returns of a run. *)
Ltac step_run :=
  repeat first [ rewrite bind_print | rewrite bind_ret
               | rewrite bind_done | rewrite bind_raised ].

Lemma saved_files_app (t u : list event) :
  saved_files (t ++ u) = saved_files t ++ saved_files u.
Proof.
  induction t as [| [i | f] t IH]; simpl; [reflexivity | assumption |].
  now rewrite IH.
Qed.

Lemma printed_app (t u : list event) : printed (t ++ u) = printed t ++ printed u.
Proof.
  induction t as [| [i | f] t IH]; simpl; [reflexivity | | assumption].
  now rewrite IH.
Qed.

(* ================================================================= *)
(** ** Columns *)

Lemma has_column_get (name : string) (df : DataFrame) :
  has_column name df = true <-> exists s, get_column name df = Some s.
Proof.
  unfold has_column, columns.
  induction df as [| [n s] df IH]; simpl.
  - split; [discriminate | intros [s H]; discriminate].
  - destruct (String.eqb name n).
    + split; [intros _; now exists s | reflexivity].
    + exact IH.
Qed.

Lemma has_column_false (name : string) (df : DataFrame) :
  has_column name df = false <-> get_column name df = None.
Proof.
  unfold has_column, columns.
  induction df as [| [n s] df IH]; simpl.
  - split; reflexivity.
  - destruct (String.eqb name n); [split; discriminate | exact IH].
Qed.

Lemma get_set_same (name : string) (s : series) (df : DataFrame) :
  get_column name (set_column name s df) = Some s.
Proof.
  induction df as [| [n s0] df IH]; simpl.
  - now rewrite String.eqb_refl.
  - destruct (String.eqb name n) eqn:E; simpl; rewrite E; [reflexivity | exact IH].
Qed.

Lemma get_set_other (name other : string) (s : series) (df : DataFrame) :
  name <> other ->
  get_column other (set_column name s df) = get_column other df.
Proof.
  intros Hne.
  induction df as [| [n s0] df IH]; simpl.
  - destruct (String.eqb other name) eqn:E; [| reflexivity].
    apply String.eqb_eq in E. congruence.
  - destruct (String.eqb name n) eqn:E; simpl.
    + apply String.eqb_eq in E. subst n.
      destruct (String.eqb other name) eqn:E'; [| reflexivity].
      apply String.eqb_eq in E'. congruence.
    + destruct (String.eqb other n); [reflexivity | exact IH].
Qed.

(* ================================================================= *)
(** ** Group sums *)

Lemma add_to_sum (k : label) (v : Z) (acc : lseries) :
  zsum (values (add_to k v acc)) = zsum (values acc) + v.
Proof.
  unfold values, zsum.
  induction acc as [| [k' s] acc IH]; simpl; [lia |].
  destruct (label_eqb k k'); simpl; [| rewrite IH]; lia.
Qed.

Lemma accumulate_sum_from (keys : list (option label)) (vs : list Z) (acc : lseries) :
  zsum (values
          (fold_left
             (fun acc row =>
                match fst row with
                | Some k => add_to k (snd row) acc
                | None => acc
                end)
             (combine keys vs) acc))
  = zsum (values acc) + keyed_sum keys vs.
Proof.
  revert vs acc.
  induction keys as [| k keys IH]; intros [| v vs] acc; simpl; try lia.
  - destruct k; lia.
  - destruct k as [k |]; cbn [fst snd]; rewrite IH; [rewrite add_to_sum |]; lia.
Qed.

Lemma accumulate_sum (keys : list (option label)) (vs : list Z) :
  zsum (values (accumulate (combine keys vs))) = keyed_sum keys vs.
Proof. unfold accumulate. now rewrite accumulate_sum_from. Qed.

Lemma insert_by_index_sum (x : label * Z) (l : lseries) :
  zsum (values (insert_by_index x l)) = snd x + zsum (values l).
Proof.
  unfold values, zsum.
  induction l as [| y l IH]; simpl; [reflexivity |].
  destruct (label_leb (fst x) (fst y)); simpl; [reflexivity |].
  rewrite IH. lia.
Qed.

Lemma sort_index_sum (l : lseries) : zsum (values (sort_index l)) = zsum (values l).
Proof.
  induction l as [| x l IH]; [reflexivity |].
  change (sort_index (x :: l)) with (insert_by_index x (sort_index l)).
  rewrite insert_by_index_sum, IH. reflexivity.
Qed.

Lemma groupby_sum_total (by_ : series) (amounts : list (option Z)) :
  zsum (values (groupby_sum by_ amounts)) = keyed_amounts (keys_of by_) amounts.
Proof.
  unfold groupby_sum, keyed_amounts.
  now rewrite sort_index_sum, accumulate_sum.
Qed.

Lemma keyed_amounts_all_keyed (keys : list (option label)) (amounts : list (option Z)) :
  length keys = length amounts ->
  Forall (fun k => k <> None) keys ->
  keyed_amounts keys amounts = column_sum amounts.
Proof.
  unfold keyed_amounts, column_sum, zsum.
  revert amounts.
  induction keys as [| k keys IH]; intros [| v amounts] Hlen Hall;
    simpl in *; try discriminate; [reflexivity |].
  inversion Hall as [| ? ? Hk Hrest]; subst.
  destruct k as [k |]; [| congruence].
  rewrite IH; [reflexivity | lia | assumption].
Qed.

(* ================================================================= *)
(** ** Monthly sales (C1) *)

Lemma monthly_sales_of_eq (df : DataFrame) (months : series)
      (amounts : list (option Z)) :
  get_column "Month" df = Some months ->
  get_column "TotalAmount" df = Some (Numeric amounts) ->
  monthly_sales_of df = ([], Done (groupby_sum months amounts)).
Proof.
  intros Hm Ha.
  unfold monthly_sales_of, groupby_column_sum, column.
  rewrite Hm, Ha. reflexivity.
Qed.

(** C1, as stated, fails: a sale whose date is missing has no month and
    is left out of every group, so the monthly sums add up to 10 while
    the monetary column sums to 15. *)
Lemma monthly_sum_drops_undated_sale :
  result (load_data parse_sample undated_sale_csv) = Done undated_sale
  /\ get_column "TotalAmount" undated_sale = Some (Numeric [Some 10; Some 5])
  /\ monthly_sales_of undated_sale = ([], Done [(LInt 3, 10)])
  /\ zsum (values [(LInt 3, 10)]) <> column_sum [Some 10; Some 5].
Proof. repeat split. vm_compute. discriminate. Qed.

Lemma abs_sum_nonneg (l : list Z) : 0 <= abs_sum l.
Proof. unfold abs_sum, zsum. induction l as [| x l IH]; simpl; lia. Qed.

Lemma abs_sum_bound (l : list Z) : Z.abs (zsum l) <= abs_sum l.
Proof. unfold abs_sum, zsum. induction l as [| x l IH]; simpl; lia. Qed.

Lemma abs_sum_each (l : list Z) : Forall (fun v => Z.abs v <= abs_sum l) l.
Proof.
  induction l as [| x l IH]; [constructor |].
  pose proof (abs_sum_nonneg l) as Hl.
  unfold abs_sum, zsum in *. cbn [map fold_right].
  constructor; [lia |].
  eapply Forall_impl; [| exact IH]. intros v Hv. simpl in Hv. lia.
Qed.

Lemma abs_sum_perm (l l' : list Z) : Permutation l l' -> abs_sum l = abs_sum l'.
Proof. unfold abs_sum, zsum. induction 1; simpl; lia. Qed.

Lemma add_to_abs_sum (k : label) (v : Z) (acc : lseries) :
  abs_sum (values (add_to k v acc)) <= abs_sum (values acc) + Z.abs v.
Proof.
  unfold abs_sum, values, zsum.
  induction acc as [| [k' s] acc IH]; simpl; [lia |].
  destruct (label_eqb k k'); simpl; lia.
Qed.

Lemma accumulate_abs_sum_from (keys : list (option label)) (vs : list Z)
      (acc : lseries) :
  abs_sum (values
             (fold_left
                (fun acc row =>
                   match fst row with
                   | Some k => add_to k (snd row) acc
                   | None => acc
                   end)
                (combine keys vs) acc))
  <= abs_sum (values acc) + abs_sum vs.
Proof.
  revert vs acc.
  induction keys as [| k keys IH]; intros [| v vs] acc; cbn [combine fold_left].
  - unfold abs_sum at 3, zsum. simpl. lia.
  - pose proof (abs_sum_nonneg (v :: vs)). lia.
  - unfold abs_sum at 3, zsum. simpl. lia.
  - specialize (IH vs).
    assert (Hv : abs_sum (v :: vs) = Z.abs v + abs_sum vs) by reflexivity.
    destruct k as [k |]; cbn [fst snd].
    + specialize (IH (add_to k v acc)).
      pose proof (add_to_abs_sum k v acc). lia.
    + specialize (IH acc). lia.
Qed.

Lemma insert_by_index_abs_sum (x : label * Z) (l : lseries) :
  abs_sum (values (insert_by_index x l)) = Z.abs (snd x) + abs_sum (values l).
Proof.
  unfold abs_sum, values, zsum.
  induction l as [| y l IH]; simpl; [reflexivity |].
  destruct (label_leb (fst x) (fst y)); simpl; [reflexivity |].
  rewrite IH. lia.
Qed.

Lemma sort_index_abs_sum (l : lseries) :
  abs_sum (values (sort_index l)) = abs_sum (values l).
Proof.
  induction l as [| x l IH]; [reflexivity |].
  change (sort_index (x :: l)) with (insert_by_index x (sort_index l)).
  rewrite insert_by_index_abs_sum, IH. reflexivity.
Qed.

(** The sums of the groups stay within the absolute total of the
    amounts. *)
Lemma groupby_sum_abs_sum (by_ : series) (amounts : list (option Z)) :
  abs_sum (values (groupby_sum by_ amounts)) <= abs_total amounts.
Proof.
  unfold groupby_sum, abs_total.
  rewrite sort_index_abs_sum.
  unfold accumulate.
  pose proof (accumulate_abs_sum_from (keys_of by_) (map nan_to_zero amounts) []) as H.
  unfold abs_sum at 2, zsum in H. simpl in H. lia.
Qed.

Lemma groupby_sum_exact (by_ : series) (amounts : list (option Z)) (bound : Z) :
  abs_total amounts <= bound ->
  Forall (fun v => Z.abs v <= bound) (values (groupby_sum by_ amounts))
  /\ Z.abs (zsum (values (groupby_sum by_ amounts))) <= bound.
Proof.
  intros Hb. pose proof (groupby_sum_abs_sum by_ amounts) as Hs. split.
  - eapply Forall_impl; [| apply abs_sum_each]. intros v Hv. simpl in Hv. lia.
  - pose proof (abs_sum_bound (values (groupby_sum by_ amounts))). lia.
Qed.

(** A step that reached its bar plot with a series that has rows. *)
Lemma plot_bars_rows {B : Type} (data : lseries) (k : unit -> run B) :
  data <> [] -> bind (plot_bars data) k = k tt.
Proof.
  intros Hne. destruct data as [| x data]; [congruence |].
  unfold plot_bars. apply bind_ret.
Qed.

(** C1, amended: on integer amounts in the exact range, the per-month
    sums add up to the sum of the monetary column over the rows whose
    month is not missing; when no month is missing this is the sum over
    the full table.  Every monthly sum and their total stay in the
    exact range, so these are the numbers the script computes, in int64
    as in float64.  The series is the one the trend analysis prints. *)
Theorem monthly_sales_sum (df : DataFrame) (months : series)
        (amounts : list (option Z)) :
  get_column "Month" df = Some months ->
  get_column "TotalAmount" df = Some (Numeric amounts) ->
  exact_amounts amounts ->
  exists monthly_sales,
    monthly_sales_of df = ([], Done monthly_sales)
    /\ Forall (fun v => Z.abs v <= 2 ^ 53) (values monthly_sales)
    /\ Z.abs (zsum (values monthly_sales)) <= 2 ^ 53
    /\ zsum (values monthly_sales) = keyed_amounts (keys_of months) amounts
    /\ (length (keys_of months) = length amounts ->
        Forall (fun k => k <> None) (keys_of months) ->
        zsum (values monthly_sales) = column_sum amounts)
    /\ (forall renders,
          monthly_sales <> [] ->
          renders (BarChart monthly_sales) "results/monthly_sales_trend.png" = true ->
          In (Print (MonthlySales monthly_sales))
             (trace (sales_trends_analysis renders df))).
Proof.
  intros Hm Ha Hex.
  exists (groupby_sum months amounts).
  split; [now apply monthly_sales_of_eq |].
  destruct (groupby_sum_exact months amounts _ Hex) as [Hall Hsum].
  split; [exact Hall |]. split; [exact Hsum |].
  split; [apply groupby_sum_total |].
  split.
  - intros Hlen Hkeys. rewrite groupby_sum_total.
    now apply keyed_amounts_all_keyed.
  - intros renders Hne Hr.
    unfold sales_trends_analysis, banner.
    rewrite bind_print.
    assert (Hc : has_column "TotalAmount" df && has_column "Month" df = true).
    { apply andb_true_iff; split; apply has_column_get; eauto. }
    rewrite Hc.
    fold (monthly_sales_of df). rewrite (monthly_sales_of_eq _ _ _ Hm Ha).
    rewrite bind_done, (plot_bars_rows _ _ Hne).
    unfold savefig. rewrite Hr, bind_done.
    rewrite bind_print. cbn [trace fst app]. right. right. left. reflexivity.
Qed.

Lemma monthly_sales_sum_witness :
  get_column "Month" three_sales = Some (Numeric [Some 3; Some 3; Some 1])
  /\ get_column "TotalAmount" three_sales = Some (Numeric [Some 10; Some 20; Some 5])
  /\ exact_amounts [Some 10; Some 20; Some 5]
  /\ exists monthly_sales,
      monthly_sales_of three_sales = ([], Done monthly_sales)
      /\ zsum (values monthly_sales) = 35.
Proof.
  assert (Hex : exact_amounts [Some 10; Some 20; Some 5]).
  { unfold exact_amounts. vm_compute. discriminate. }
  split; [reflexivity |]. split; [reflexivity |]. split; [exact Hex |].
  destruct (monthly_sales_sum three_sales (Numeric [Some 3; Some 3; Some 1])
              [Some 10; Some 20; Some 5] eq_refl eq_refl Hex)
    as (ms & Hrun & _ & _ & Hsum & _).
  exists ms. split; [exact Hrun |]. rewrite Hsum. reflexivity.
Defined.

(* ================================================================= *)
(** ** Labels: equality and order *)

Lemma label_eqb_eq (a b : label) : label_eqb a b = true <-> a = b.
Proof.
  destruct a, b; simpl; try (split; [discriminate | intros H; discriminate H]).
  - rewrite Z.eqb_eq. split; congruence.
  - rewrite String.eqb_eq. split; congruence.
  - rewrite Z.eqb_eq. split; congruence.
Qed.

Lemma label_eqb_refl (a : label) : label_eqb a a = true.
Proof. now apply label_eqb_eq. Qed.

Lemma ascii_compare_lt_trans (a b c : ascii) :
  Ascii.compare a b = Lt -> Ascii.compare b c = Lt -> Ascii.compare a c = Lt.
Proof.
  unfold Ascii.compare. rewrite !N.compare_lt_iff. apply N.lt_trans.
Qed.

Lemma string_compare_lt_trans (s1 s2 s3 : string) :
  String.compare s1 s2 = Lt -> String.compare s2 s3 = Lt ->
  String.compare s1 s3 = Lt.
Proof.
  revert s2 s3.
  induction s1 as [| a s1 IH]; intros [| b s2] [| c s3]; simpl;
    try discriminate; try reflexivity.
  destruct (Ascii.compare a b) eqn:Eab; try discriminate;
    destruct (Ascii.compare b c) eqn:Ebc; try discriminate; intros H12 H23.
  - apply Ascii.compare_eq_iff in Eab, Ebc. subst.
    assert (Ecc : Ascii.compare c c = Eq).
    { unfold Ascii.compare. apply N.compare_refl. }
    rewrite Ecc. now apply (IH s2).
  - apply Ascii.compare_eq_iff in Eab. subst. now rewrite Ebc.
  - apply Ascii.compare_eq_iff in Ebc. subst. now rewrite Eab.
  - now rewrite (ascii_compare_lt_trans a b c).
Qed.

Lemma string_leb_trans (s1 s2 s3 : string) :
  String.leb s1 s2 = true -> String.leb s2 s3 = true -> String.leb s1 s3 = true.
Proof.
  unfold String.leb.
  destruct (String.compare s1 s2) eqn:E12; try discriminate;
    destruct (String.compare s2 s3) eqn:E23; try discriminate; intros _ _.
  - apply String.compare_eq_iff in E12. subst. now rewrite E23.
  - apply String.compare_eq_iff in E12. subst. now rewrite E23.
  - apply String.compare_eq_iff in E23. subst. now rewrite E12.
  - now rewrite (string_compare_lt_trans s1 s2 s3).
Qed.

Lemma label_leb_total (a b : label) : label_leb a b = true \/ label_leb b a = true.
Proof.
  destruct a, b; simpl; try (now left); try (now right).
  - rewrite !Z.leb_le. lia.
  - apply String.leb_total.
  - rewrite !Z.leb_le. lia.
Qed.

Lemma label_leb_refl (a : label) : label_leb a a = true.
Proof. destruct (label_leb_total a a); assumption. Qed.

Lemma label_leb_trans (a b c : label) :
  label_leb a b = true -> label_leb b c = true -> label_leb a c = true.
Proof.
  destruct a, b, c; simpl; try discriminate; try reflexivity.
  - rewrite !Z.leb_le. lia.
  - apply string_leb_trans.
  - rewrite !Z.leb_le. lia.
Qed.

Lemma label_leb_antisym (a b : label) :
  label_leb a b = true -> label_leb b a = true -> a = b.
Proof.
  destruct a, b; simpl; try discriminate.
  - rewrite !Z.leb_le. intros. f_equal. lia.
  - intros H1 H2. f_equal. now apply String.leb_antisym.
  - rewrite !Z.leb_le. intros. f_equal. lia.
Qed.

(* ================================================================= *)
(** ** The sorted, duplicate-free group index *)

Lemma insert_by_index_perm (x : label * Z) (l : lseries) :
  Permutation (x :: l) (insert_by_index x l).
Proof.
  induction l as [| y l IH]; simpl; [apply Permutation_refl |].
  destruct (label_leb (fst x) (fst y)); [apply Permutation_refl |].
  eapply perm_trans; [apply perm_swap | now apply perm_skip].
Qed.

Lemma sort_index_perm (l : lseries) : Permutation l (sort_index l).
Proof.
  induction l as [| x l IH]; [apply Permutation_refl |].
  change (sort_index (x :: l)) with (insert_by_index x (sort_index l)).
  eapply perm_trans; [apply perm_skip, IH | apply insert_by_index_perm].
Qed.

Lemma insert_by_index_sorted (x : label * Z) (l : lseries) :
  StronglySorted index_le l -> StronglySorted index_le (insert_by_index x l).
Proof.
  induction l as [| y l IH]; intros Hs; simpl.
  - constructor; [constructor | constructor].
  - inversion Hs as [| ? ? Hl Hy]; subst.
    destruct (label_leb (fst x) (fst y)) eqn:E.
    + constructor; [assumption |].
      constructor; [exact E |].
      eapply Forall_impl; [| exact Hy].
      intros z Hz. unfold index_le in *. eapply label_leb_trans; eassumption.
    + constructor; [now apply IH |].
      assert (Hyx : index_le y x).
      { unfold index_le. destruct (label_leb_total (fst x) (fst y)); congruence. }
      eapply Permutation_Forall; [apply insert_by_index_perm |].
      now constructor.
Qed.

Lemma sort_index_sorted (l : lseries) : StronglySorted index_le (sort_index l).
Proof.
  induction l as [| x l IH]; [constructor |].
  change (sort_index (x :: l)) with (insert_by_index x (sort_index l)).
  now apply insert_by_index_sorted.
Qed.

Lemma add_to_index (k : label) (v : Z) (acc : lseries) :
  index (add_to k v acc)
  = if existsb (label_eqb k) (index acc) then index acc else index acc ++ [k].
Proof.
  unfold index.
  induction acc as [| [k' s] acc IH]; simpl; [reflexivity |].
  destruct (label_eqb k k'); simpl; [reflexivity |].
  rewrite IH. destruct (existsb (label_eqb k) (map fst acc)); reflexivity.
Qed.

Lemma existsb_label_In (k : label) (l : list label) :
  existsb (label_eqb k) l = true <-> In k l.
Proof.
  rewrite existsb_exists. split.
  - intros [x [Hin Heq]]. apply label_eqb_eq in Heq. now subst.
  - intros Hin. exists k. split; [assumption | apply label_eqb_refl].
Qed.

Lemma add_to_NoDup (k : label) (v : Z) (acc : lseries) :
  NoDup (index acc) -> NoDup (index (add_to k v acc)).
Proof.
  intros Hnd. rewrite add_to_index.
  destruct (existsb (label_eqb k) (index acc)) eqn:E; [assumption |].
  apply NoDup_app; [assumption | repeat constructor; simpl; tauto |].
  intros x Hx [Hk | []]. subst x.
  apply existsb_label_In in Hx. congruence.
Qed.

Lemma accumulate_from_NoDup (rows : list (option label * Z)) (acc : lseries) :
  NoDup (index acc) ->
  NoDup (index (fold_left
                  (fun acc row =>
                     match fst row with
                     | Some k => add_to k (snd row) acc
                     | None => acc
                     end) rows acc)).
Proof.
  revert acc.
  induction rows as [| [[k |] v] rows IH]; intros acc Hnd; simpl;
    [assumption | | now apply IH].
  apply IH. now apply add_to_NoDup.
Qed.

Lemma groupby_sum_sorted (by_ : series) (amounts : list (option Z)) :
  StronglySorted index_le (groupby_sum by_ amounts).
Proof. apply sort_index_sorted. Qed.

Lemma groupby_sum_NoDup (by_ : series) (amounts : list (option Z)) :
  NoDup (index (groupby_sum by_ amounts)).
Proof.
  unfold groupby_sum, index.
  eapply Permutation_NoDup.
  - apply Permutation_map. apply sort_index_perm.
  - apply accumulate_from_NoDup. constructor.
Qed.

(* ================================================================= *)
(** ** First occurrence of an extreme value *)

Section Extremes.

(** [le a b]: the value [b] is at least as extreme as [a]. *)
Variable le : Z -> Z -> Prop.
Variable better : Z -> Z -> bool.
Variable pick : Z -> Z -> Z.

Hypothesis better_spec : forall a b, better a b = false <-> le a b.
Hypothesis le_total : forall a b, le a b \/ le b a.
Hypothesis le_trans : forall a b c, le a b -> le b c -> le a c.
Hypothesis le_antisym : forall a b, le a b -> le b a -> a = b.
Hypothesis pick_spec :
  forall a b, (le a b /\ pick a b = b) \/ (le b a /\ pick a b = a).

Lemma first_best_split (rest : lseries) (best : label * Z) :
  exists l1 l2,
    best :: rest = l1 ++ first_best better best rest :: l2
    /\ Forall (fun y => ~ le (snd (first_best better best rest)) (snd y)) l1
    /\ Forall (fun y => le (snd y) (snd (first_best better best rest))) l2.
Proof.
  revert best.
  induction rest as [| x rest IH]; intros best; simpl.
  - exists [], []. repeat split; constructor.
  - destruct (better (snd x) (snd best)) eqn:E.
    + destruct (IH x) as (l1 & l2 & Heq & H1 & H2).
      exists (best :: l1), l2. split; [simpl; now rewrite Heq |].
      split; [| assumption].
      constructor; [| assumption].
      assert (Hxb : ~ le (snd x) (snd best)).
      { intros Hc. apply better_spec in Hc. congruence. }
      intros Hw. apply Hxb.
      destruct l1 as [| y l1]; simpl in Heq; inversion Heq; subst.
      * congruence.
      * inversion H1 as [| ? ? Hy _]; subst.
        destruct (le_total (snd y) (snd (first_best better y rest))) as [Hle | Hle];
          [| contradiction].
        eapply le_trans; eassumption.
    + assert (Hx : le (snd x) (snd best)) by now apply better_spec.
      destruct (IH best) as (l1 & l2 & Heq & H1 & H2).
      set (w := first_best better best rest) in *.
      destruct l1 as [| y l1]; simpl in Heq; injection Heq as Hb Hr.
      * exists [], (x :: rest). split; [simpl; now rewrite <- Hb |].
        split; [constructor |].
        constructor; [now rewrite <- Hb |].
        rewrite Hr. exact H2.
      * subst y. exists (best :: x :: l1), l2.
        split; [simpl; now rewrite <- Hr |].
        split; [| assumption].
        apply Forall_cons_iff in H1. destruct H1 as [Hy Hl1].
        constructor; [assumption |].
        constructor; [| assumption].
        intros Hw. apply Hy. eapply le_trans; eassumption.
Qed.

Lemma fold_pick_spec (rest : list Z) (v : Z) :
  In (fold_left pick rest v) (v :: rest)
  /\ Forall (fun w => le w (fold_left pick rest v)) (v :: rest).
Proof.
  revert v.
  induction rest as [| x rest IH]; intros v; simpl.
  - split; [now left |].
    constructor; [| constructor].
    destruct (le_total v v); assumption.
  - destruct (IH (pick v x)) as [Hin Hall].
    inversion Hall as [| ? ? Hp Hrest]; subst.
    destruct (pick_spec v x) as [[Hle Heq] | [Hle Heq]]; rewrite Heq in *.
    + split.
      * destruct Hin as [Hin | Hin]; [right; left; exact Hin | right; right; exact Hin].
      * constructor; [eapply le_trans; eassumption |].
        constructor; assumption.
    + split.
      * destruct Hin as [Hin | Hin]; [left; exact Hin | right; right; exact Hin].
      * constructor; [assumption |].
        constructor; [eapply le_trans; eassumption | assumption].
Qed.

End Extremes.

Lemma idxmax_first (s : lseries) :
  s <> [] ->
  exists best hi l1 l2,
    idxmax s = Some best /\ series_max s = Some hi
    /\ s = l1 ++ (best, hi) :: l2
    /\ Forall (fun y => snd y < hi) l1
    /\ Forall (fun y => snd y <= hi) l2.
Proof.
  destruct s as [| x rest]; [congruence | intros _].
  destruct (first_best_split Z.le Z.gtb) with (rest := rest) (best := x)
    as (l1 & l2 & Heq & H1 & H2).
  { intros a b. rewrite Z.gtb_ltb, Z.ltb_ge. tauto. }
  { intros; lia. }
  { intros; lia. }
  set (w := first_best Z.gtb x rest) in *.
  destruct (fold_pick_spec Z.le Z.max) with (rest := map snd rest) (v := snd x)
    as [Hin Hall].
  { intros; lia. }
  { intros; lia. }
  { intros a b. lia. }
  set (m := fold_left Z.max (map snd rest) (snd x)) in *.
  assert (Hm : m = snd w).
  { change (snd x :: map snd rest) with (values (x :: rest)) in Hin, Hall.
    rewrite Heq in Hin, Hall. unfold values in Hin, Hall.
    rewrite map_app in Hin, Hall. simpl in Hin, Hall.
    apply Forall_app in Hall. destruct Hall as [_ Hall].
    apply Forall_cons_iff in Hall. destruct Hall as [Hwm _].
    apply in_app_or in Hin. destruct Hin as [Hin | [Hin | Hin]].
    - apply in_map_iff in Hin. destruct Hin as (y & Hy & Hyin).
      rewrite Forall_forall in H1. specialize (H1 y Hyin). lia.
    - congruence.
    - apply in_map_iff in Hin. destruct Hin as (y & Hy & Hyin).
      rewrite Forall_forall in H2. specialize (H2 y Hyin). lia. }
  exists (fst w), (snd w), l1, l2.
  split; [reflexivity |].
  split; [unfold series_max, extreme, values; cbn [map]; fold m; now rewrite Hm |].
  split; [rewrite <- surjective_pairing; exact Heq |].
  split; [| assumption].
  eapply Forall_impl; [| exact H1]. intros y Hy. simpl in Hy. lia.
Qed.

Lemma idxmin_first (s : lseries) :
  s <> [] ->
  exists worst lo l1 l2,
    idxmin s = Some worst /\ series_min s = Some lo
    /\ s = l1 ++ (worst, lo) :: l2
    /\ Forall (fun y => lo < snd y) l1
    /\ Forall (fun y => lo <= snd y) l2.
Proof.
  destruct s as [| x rest]; [congruence | intros _].
  destruct (first_best_split (fun a b => b <= a) Z.ltb) with (rest := rest) (best := x)
    as (l1 & l2 & Heq & H1 & H2).
  { intros a b. rewrite Z.ltb_ge. tauto. }
  { intros; lia. }
  { intros; lia. }
  set (w := first_best Z.ltb x rest) in *.
  destruct (fold_pick_spec (fun a b => b <= a) Z.min)
    with (rest := map snd rest) (v := snd x) as [Hin Hall].
  { intros; lia. }
  { intros; lia. }
  { intros a b. lia. }
  set (m := fold_left Z.min (map snd rest) (snd x)) in *.
  assert (Hm : m = snd w).
  { change (snd x :: map snd rest) with (values (x :: rest)) in Hin, Hall.
    rewrite Heq in Hin, Hall. unfold values in Hin, Hall.
    rewrite map_app in Hin, Hall. simpl in Hin, Hall.
    apply Forall_app in Hall. destruct Hall as [_ Hall].
    apply Forall_cons_iff in Hall. destruct Hall as [Hwm _].
    apply in_app_or in Hin. destruct Hin as [Hin | [Hin | Hin]].
    - apply in_map_iff in Hin. destruct Hin as (y & Hy & Hyin).
      rewrite Forall_forall in H1. specialize (H1 y Hyin). simpl in H1. lia.
    - congruence.
    - apply in_map_iff in Hin. destruct Hin as (y & Hy & Hyin).
      rewrite Forall_forall in H2. specialize (H2 y Hyin). simpl in H2. lia. }
  exists (fst w), (snd w), l1, l2.
  split; [reflexivity |].
  split; [unfold series_min, extreme, values; cbn [map]; fold m; now rewrite Hm |].
  split; [rewrite <- surjective_pairing; exact Heq |].
  split; [| assumption].
  eapply Forall_impl; [| exact H1]. intros y Hy. simpl in Hy. lia.
Qed.

Lemma sorted_after (x : label * Z) (l1 l2 : lseries) :
  StronglySorted index_le (l1 ++ x :: l2) -> Forall (index_le x) l2.
Proof.
  induction l1 as [| y l1 IH]; simpl; intros Hs;
    inversion Hs as [| ? ? Hrest Hall]; subst; [assumption | now apply IH].
Qed.

(** In a series sorted by index, a row that reaches the extreme value
    does not come before the first one that does. *)
Lemma first_of_ties (s l1 l2 : lseries) (k0 k : label) (v : Z) :
  StronglySorted index_le s ->
  s = l1 ++ (k0, v) :: l2 ->
  Forall (fun y => snd y <> v) l1 ->
  In (k, v) s -> label_leb k0 k = true.
Proof.
  intros Hs Heq H1 Hin. subst s.
  apply in_app_or in Hin. destruct Hin as [Hin | [Hin | Hin]].
  - rewrite Forall_forall in H1. now specialize (H1 _ Hin).
  - injection Hin as Hk. subst. apply label_leb_refl.
  - apply sorted_after in Hs. rewrite Forall_forall in Hs.
    exact (Hs _ Hin).
Qed.

(* ================================================================= *)
(** ** Best and worst month (C5) *)

(** C5: on a non-empty monthly series the reported best (worst) month
    carries the greatest (least) monthly sum, and among the months that
    reach it the reported one comes first in ascending month order; the
    trend analysis prints exactly these. *)
Theorem best_and_worst_month (df : DataFrame) (months : series)
        (amounts : list (option Z)) :
  get_column "Month" df = Some months ->
  get_column "TotalAmount" df = Some (Numeric amounts) ->
  groupby_sum months amounts <> [] ->
  exists best hi worst lo,
    idxmax (groupby_sum months amounts) = Some best
    /\ series_max (groupby_sum months amounts) = Some hi
    /\ idxmin (groupby_sum months amounts) = Some worst
    /\ series_min (groupby_sum months amounts) = Some lo
    /\ In (best, hi) (groupby_sum months amounts)
    /\ In (worst, lo) (groupby_sum months amounts)
    /\ (forall k v, In (k, v) (groupby_sum months amounts) -> lo <= v <= hi)
    /\ (forall k, In (k, hi) (groupby_sum months amounts) -> label_leb best k = true)
    /\ (forall k, In (k, lo) (groupby_sum months amounts) -> label_leb worst k = true)
    /\ (forall renders,
          renders (BarChart (groupby_sum months amounts))
                  "results/monthly_sales_trend.png" = true ->
          sales_trends_analysis renders df
          = ([Print (Banner "SALES TRENDS ANALYSIS");
              SaveFig "results/monthly_sales_trend.png";
              Print (MonthlySales (groupby_sum months amounts));
              Print (BestMonth best (Some hi));
              Print (WorstMonth worst (Some lo))],
             Done tt)).
Proof.
  intros Hm Ha Hne.
  set (ms := groupby_sum months amounts) in *.
  destruct (idxmax_first ms Hne) as (best & hi & a1 & a2 & Himax & Hmax & Hsa & Ha1 & Ha2).
  destruct (idxmin_first ms Hne) as (worst & lo & b1 & b2 & Himin & Hmin & Hsb & Hb1 & Hb2).
  assert (Hsorted : StronglySorted index_le ms) by apply groupby_sum_sorted.
  exists best, hi, worst, lo.
  repeat (split; [assumption |]).
  split; [rewrite Hsa; apply in_or_app; right; now left |].
  split; [rewrite Hsb; apply in_or_app; right; now left |].
  split.
  { intros k v Hin. split.
    - rewrite Hsb in Hin. apply in_app_or in Hin.
      rewrite Forall_forall in Hb1, Hb2.
      destruct Hin as [Hin | [Hin | Hin]].
      + specialize (Hb1 _ Hin). simpl in Hb1. lia.
      + injection Hin as _ Hv. lia.
      + specialize (Hb2 _ Hin). simpl in Hb2. lia.
    - rewrite Hsa in Hin. apply in_app_or in Hin.
      rewrite Forall_forall in Ha1, Ha2.
      destruct Hin as [Hin | [Hin | Hin]].
      + specialize (Ha1 _ Hin). simpl in Ha1. lia.
      + injection Hin as _ Hv. lia.
      + specialize (Ha2 _ Hin). simpl in Ha2. lia. }
  split.
  { intros k. apply (first_of_ties ms a1 a2); [assumption | assumption |].
    eapply Forall_impl; [| exact Ha1]. intros y Hy. simpl in Hy. lia. }
  split.
  { intros k. apply (first_of_ties ms b1 b2); [assumption | assumption |].
    eapply Forall_impl; [| exact Hb1]. intros y Hy. simpl in Hy. lia. }
  intros renders Hr.
  unfold sales_trends_analysis, banner.
  assert (Hc : has_column "TotalAmount" df && has_column "Month" df = true).
  { apply andb_true_iff; split; apply has_column_get; eauto. }
  rewrite Hc.
  fold (monthly_sales_of df). rewrite (monthly_sales_of_eq _ _ _ Hm Ha).
  fold ms. rewrite bind_print, bind_done, (plot_bars_rows _ _ Hne).
  unfold savefig. rewrite Hr, Himax, Himin, Hmax, Hmin.
  reflexivity.
Qed.

Lemma best_and_worst_month_witness :
  get_column "Month" three_sales = Some (Numeric [Some 3; Some 3; Some 1])
  /\ get_column "TotalAmount" three_sales = Some (Numeric [Some 10; Some 20; Some 5])
  /\ groupby_sum (Numeric [Some 3; Some 3; Some 1]) [Some 10; Some 20; Some 5] <> []
  /\ exists best hi worst lo,
      idxmax (groupby_sum (Numeric [Some 3; Some 3; Some 1]) [Some 10; Some 20; Some 5])
      = Some best
      /\ series_max (groupby_sum (Numeric [Some 3; Some 3; Some 1])
                                 [Some 10; Some 20; Some 5]) = Some hi
      /\ idxmin (groupby_sum (Numeric [Some 3; Some 3; Some 1]) [Some 10; Some 20; Some 5])
         = Some worst
      /\ series_min (groupby_sum (Numeric [Some 3; Some 3; Some 1])
                                 [Some 10; Some 20; Some 5]) = Some lo.
Proof.
  split; [reflexivity |]. split; [reflexivity |].
  split; [vm_compute; discriminate |].
  destruct (best_and_worst_month three_sales (Numeric [Some 3; Some 3; Some 1])
              [Some 10; Some 20; Some 5] eq_refl eq_refl)
    as (best & hi & worst & lo & H1 & H2 & H3 & H4 & _).
  - vm_compute. discriminate.
  - exists best, hi, worst, lo. repeat split; assumption.
Defined.

(* ================================================================= *)
(** ** Sorting by value, distinct keys *)

Lemma insert_by_value_perm (x : label * Z) (l : lseries) :
  Permutation (x :: l) (insert_by_value x l).
Proof.
  induction l as [| y l IH]; simpl; [apply Permutation_refl |].
  destruct (snd y <=? snd x); [apply Permutation_refl |].
  eapply perm_trans; [apply perm_swap | now apply perm_skip].
Qed.

Lemma sort_values_desc_perm (l : lseries) : Permutation l (sort_values_desc l).
Proof.
  induction l as [| x l IH]; [apply Permutation_refl |].
  change (sort_values_desc (x :: l)) with (insert_by_value x (sort_values_desc l)).
  eapply perm_trans; [apply perm_skip, IH | apply insert_by_value_perm].
Qed.

Lemma zsum_perm (l l' : list Z) : Permutation l l' -> zsum l = zsum l'.
Proof.
  unfold zsum. induction 1; simpl; lia.
Qed.

Lemma sort_values_desc_sum (l : lseries) :
  zsum (values (sort_values_desc l)) = zsum (values l).
Proof.
  symmetry. apply zsum_perm. unfold values.
  apply Permutation_map, sort_values_desc_perm.
Qed.

Lemma sort_values_desc_length (l : lseries) :
  length (sort_values_desc l) = length l.
Proof. symmetry. apply Permutation_length, sort_values_desc_perm. Qed.

Lemma accumulate_from_index (keys : list (option label)) (vs : list Z) (acc : lseries) :
  length keys = length vs ->
  index (fold_left
           (fun acc row =>
              match fst row with
              | Some k => add_to k (snd row) acc
              | None => acc
              end)
           (combine keys vs) acc)
  = distinct (index acc) keys.
Proof.
  revert vs acc.
  induction keys as [| k keys IH]; intros [| v vs] acc Hlen;
    simpl in *; try discriminate; [reflexivity |].
  destruct k as [k |]; cbn [fst snd]; rewrite IH by lia; [| reflexivity].
  rewrite add_to_index.
  destruct (existsb (label_eqb k) (index acc)); reflexivity.
Qed.

Lemma accumulate_index (keys : list (option label)) (vs : list Z) :
  length keys = length vs ->
  index (accumulate (combine keys vs)) = distinct [] keys.
Proof. intros Hlen. unfold accumulate. now rewrite accumulate_from_index. Qed.

Lemma keyed_sum_ones (keys : list (option label)) :
  keyed_sum keys (map (fun _ => 1) keys) = Z.of_nat (count_keyed keys).
Proof.
  unfold count_keyed.
  induction keys as [| [k |] keys IH]; cbn [keyed_sum map filter length];
    [reflexivity | | assumption].
  rewrite IH. lia.
Qed.

Lemma count_keyed_map {A : Type} (f : A -> label) (xs : list (option A)) :
  (count_keyed (map (option_map f) xs) + count_null xs)%nat = length xs.
Proof.
  unfold count_keyed, count_null.
  induction xs as [| [x |] xs IH]; simpl; lia.
Qed.

Lemma count_keyed_null (s : series) :
  (count_keyed (keys_of s) + null_count s)%nat = series_length s.
Proof. destruct s; simpl; apply count_keyed_map. Qed.

Lemma keys_of_length (s : series) : length (keys_of s) = series_length s.
Proof. destruct s; simpl; apply length_map. Qed.

Lemma value_counts_total (s : series) :
  zsum (values (value_counts s)) = Z.of_nat (count_keyed (keys_of s)).
Proof.
  unfold value_counts.
  now rewrite sort_values_desc_sum, accumulate_sum, keyed_sum_ones.
Qed.

Lemma value_counts_index (s : series) :
  Permutation (index (value_counts s)) (distinct [] (keys_of s)).
Proof.
  unfold value_counts.
  rewrite <- (accumulate_index (keys_of s) (map (fun _ => 1) (keys_of s)))
    by (now rewrite length_map).
  apply Permutation_sym. unfold index.
  apply Permutation_map, sort_values_desc_perm.
Qed.

Lemma groupby_sum_index (by_ : series) (amounts : list (option Z)) :
  length amounts = series_length by_ ->
  Permutation (index (groupby_sum by_ amounts)) (distinct [] (keys_of by_)).
Proof.
  intros Hlen. unfold groupby_sum.
  rewrite <- (accumulate_index (keys_of by_) (map nan_to_zero amounts))
    by (now rewrite length_map, keys_of_length).
  apply Permutation_sym. unfold index.
  apply Permutation_map, sort_index_perm.
Qed.

(* ================================================================= *)
(** ** Customer analysis (C10) *)



(* ================================================================= *)
(** ** Missing columns (C4) *)

(** C4, as stated, fails: a step whose column is missing is not silent,
    its section banner is printed before the columns are checked. *)
Lemma skipped_step_prints_its_banner :
  has_column "TotalAmount" visits = false
  /\ printed (trace (sales_trends_analysis always_renders visits))
     = [Banner "SALES TRENDS ANALYSIS"]
  /\ printed (trace (sales_trends_analysis always_renders visits)) <> [].
Proof. repeat split; try reflexivity. discriminate. Qed.

(** C4, amended: a step that misses a required column prints its
    section banner and nothing else, saves no chart and raises no
    error.  The trend step requires the monetary and the month column,
    the customer step the customer identifier, the revenue step the
    product and the monetary column. *)
Theorem step_skipped_on_missing_column (renders : chart -> string -> bool)
        (df : DataFrame) :
  (has_column "TotalAmount" df = false \/ has_column "Month" df = false ->
   sales_trends_analysis renders df
   = ([Print (Banner "SALES TRENDS ANALYSIS")], Done tt))
  /\ (has_column "CustomerID" df = false ->
      customer_behavior_analysis renders df
      = ([Print (Banner "CUSTOMER BEHAVIOR INSIGHTS")], Done tt))
  /\ (has_column "Product" df = false \/ has_column "TotalAmount" df = false ->
      revenue_driver_analysis renders df
      = ([Print (Banner "REVENUE DRIVER IDENTIFICATION")], Done tt)).
Proof.
  split; [| split].
  - intros H. unfold sales_trends_analysis.
    assert (Hc : has_column "TotalAmount" df && has_column "Month" df = false).
    { apply andb_false_iff. exact H. }
    now rewrite Hc.
  - intros H. unfold customer_behavior_analysis. now rewrite H.
  - intros H. unfold revenue_driver_analysis.
    assert (Hc : has_column "Product" df && has_column "TotalAmount" df = false).
    { apply andb_false_iff. exact H. }
    now rewrite Hc.
Qed.

Lemma step_skipped_on_missing_column_witness :
  has_column "TotalAmount" visits = false
  /\ has_column "Product" visits = false
  /\ sales_trends_analysis always_renders visits
     = ([Print (Banner "SALES TRENDS ANALYSIS")], Done tt)
  /\ revenue_driver_analysis always_renders visits
     = ([Print (Banner "REVENUE DRIVER IDENTIFICATION")], Done tt).
Proof.
  split; [reflexivity |]. split; [reflexivity |].
  destruct (step_skipped_on_missing_column always_renders visits) as (Ht & _ & Hr).
  split; [apply Ht; left; reflexivity | apply Hr; left; reflexivity].
Defined.

(* ================================================================= *)
(** ** Calendar fields against the reference calendar *)

Ltac bool_to_prop :=
  rewrite ?Z.leb_le, ?Z.leb_gt, ?Z.ltb_lt, ?Z.ltb_ge, ?Z.eqb_eq, ?Z.eqb_neq,
    ?andb_true_iff, ?andb_false_iff, ?orb_true_iff, ?orb_false_iff,
    ?negb_true_iff, ?negb_false_iff in *.

Ltac split_ifs :=
  repeat match goal with
         | |- context [if ?b then _ else _] => destruct b eqn:?
         end.

(** Evaluates the table lookups and the tests on literals. *)
Ltac eval_tables :=
  repeat match goal with
         | |- context [nth ?n ?l ?d] =>
             let v := eval vm_compute in (nth n l d) in
             change (nth n l d) with v
         | |- context [zsum ?l] =>
             let v := eval vm_compute in (zsum l) in
             change (zsum l) with v
         | |- context [if ?b then _ else _] =>
             let v := eval vm_compute in b in
             change b with v; cbv iota
         end.

Lemma extract_unit_floor (d unit : Z) :
  0 < unit -> Calendar.extract_unit d unit = (d / unit, d mod unit).
Proof.
  intros Hu. unfold Calendar.extract_unit.
  pose proof (Z.quot_rem' d unit) as Hqr.
  assert (Hb : Z.abs (Z.rem d unit) < Z.abs unit) by (apply Z.rem_bound_abs; lia).
  destruct (Z.rem d unit <? 0) eqn:E; bool_to_prop; f_equal.
  - apply (Z.div_unique d unit _ (Z.rem d unit + unit)); lia.
  - apply (Z.mod_unique d unit (Z.quot d unit - 1)); lia.
  - apply (Z.div_unique d unit _ (Z.rem d unit)); lia.
  - apply (Z.mod_unique d unit (Z.quot d unit)); lia.
Qed.

Lemma timestamp_day_range (ns : Z) :
  Calendar.valid_timestamp ns ->
  -106752 <= ns / Calendar.ns_per_day <= 106751.
Proof.
  unfold Calendar.valid_timestamp, Calendar.ns_per_day.
  change (2 ^ 63) with 9223372036854775808.
  change (24 * 60 * 60 * 1000 * 1000 * 1000) with 86400000000000.
  intros H. Z.to_euclidean_division_equations. lia.
Qed.

(** The year and the day of the year: the days before the year, the
    days elapsed in it and one more make the ordinal of the day. *)
Lemma days_to_yearsdays_ordinal (days : Z) :
  -106752 <= days <= 106751 ->
  let '(y, yday) := Calendar.days_to_yearsdays days in
  Calendar.days_before_year y + yday + 1 = Calendar.epoch_ordinal + days
  /\ 0 <= yday < (if Calendar.is_leap y then 366 else 365)
  /\ 1677 <= y <= 2262.
Proof.
  intros H.
  unfold Calendar.days_to_yearsdays, Calendar.days_per_400years.
  change (400 * 365 + 100 - 4 + 1) with 146097.
  change (365 * 30 + 7) with 10957.
  set (t := days - 10957).
  (* both branches of the first test compute the floor division *)
  assert (E : (if 0 <=? t
               then (400 * Z.quot t 146097, Z.rem t 146097)
               else (400 * Z.quot (t - (146097 - 1)) 146097,
                     if Z.rem t 146097 <? 0 then Z.rem t 146097 + 146097
                     else Z.rem t 146097))
              = (400 * (t / 146097), t mod 146097)).
  { split_ifs; bool_to_prop; f_equal; Z.to_euclidean_division_equations; lia. }
  rewrite E. clear E.
  pose proof (Z.mod_pos_bound t 146097 eq_refl) as Hr.
  pose proof (Z.div_mod t 146097) as Hq.
  assert (Hq' : -1 <= t / 146097 <= 0)
    by (subst t; Z.to_euclidean_division_equations; lia).
  generalize dependent (t mod 146097). generalize dependent (t / 146097).
  intros q Hq' r Hr Hq.
  unfold Calendar.days_before_year, Calendar.is_leap, Calendar.epoch_ordinal.
  split_ifs; bool_to_prop; Z.to_euclidean_division_equations; lia.
Qed.

Lemma is_leapyear_is_leap (y : Z) :
  0 <= y -> Calendar.is_leapyear y = Calendar.is_leap y.
Proof.
  intros Hy. unfold Calendar.is_leapyear, Calendar.is_leap.
  change 3 with (Z.ones 2). rewrite Z.land_ones by lia.
  rewrite !Z.rem_mod_nonneg by lia. reflexivity.
Qed.

Lemma month_and_day_ordinal (y yday : Z) :
  0 <= yday < (if Calendar.is_leap y then 366 else 365) ->
  let md := Calendar.month_and_day
              (Calendar.days_per_month_table (Calendar.is_leap y)) 0 yday in
  1 <= fst md <= 12
  /\ 1 <= snd md <= Calendar.days_in_month y (fst md)
  /\ Calendar.days_before_month y (fst md) + snd md = yday + 1.
Proof.
  intros H. cbv zeta.
  destruct (Calendar.is_leap y) eqn:L;
    cbn [Calendar.days_per_month_table Calendar.month_and_day];
    split_ifs; bool_to_prop; cbn [fst snd];
    unfold Calendar.days_in_month, Calendar.days_before_month;
    rewrite L; eval_tables; lia.
Qed.

Lemma leap_day_step (y : Z) :
  y + y / 4 - y / 100 + y / 400
  = (y - 1) + (y - 1) / 4 - (y - 1) / 100 + (y - 1) / 400
    + 1 + (if Calendar.is_leap y then 1 else 0).
Proof.
  unfold Calendar.is_leap.
  split_ifs; bool_to_prop; Z.to_euclidean_division_equations; lia.
Qed.

Lemma leap_days_nonneg (y : Z) : 0 <= y -> 0 <= y + y / 4 - y / 100 + y / 400.
Proof. intros. Z.to_euclidean_division_equations. lia. Qed.

Lemma mod7_shift (a b k : Z) : b = a + 7 * k -> a mod 7 = b mod 7.
Proof. intros ->. rewrite Z.mul_comm. now rewrite Z_mod_plus_full. Qed.

(** Sakamoto's formula agrees with the weekday of the ordinal: from one
    month to the next the two differ by a multiple of seven. *)
Lemma dayofweek_weekday (y m d : Z) :
  1 <= y -> 1 <= m <= 12 -> 1 <= d ->
  Calendar.dayofweek y m d = Calendar.weekday (Calendar.toordinal y m d).
Proof.
  intros Hy Hm Hd.
  assert (Hcases : m = 1 \/ m = 2 \/ m = 3 \/ m = 4 \/ m = 5 \/ m = 6 \/ m = 7
                   \/ m = 8 \/ m = 9 \/ m = 10 \/ m = 11 \/ m = 12) by lia.
  pose proof (leap_day_step y) as Hstep.
  pose proof (leap_days_nonneg y) as Hn0.
  pose proof (leap_days_nonneg (y - 1)) as Hn1.
  unfold Calendar.dayofweek, Calendar.weekday, Calendar.toordinal,
    Calendar.days_before_year, Calendar.days_before_month.
  destruct (Calendar.is_leap y) eqn:L;
    destruct Hcases
      as [-> | [-> | [-> | [-> | [-> | [-> | [-> | [-> | [-> | [-> | [-> | ->]]]]]]]]]]];
    eval_tables; rewrite !Z.quot_div_nonneg by lia;
    rewrite (Z.rem_mod_nonneg (_ + d)) by lia;
    rewrite Z.rem_mod_nonneg
      by (try match goal with
              | |- 0 <= ?a mod 7 + 6 => pose proof (Z.mod_pos_bound a 7)
              end; lia);
    rewrite Z.add_mod_idemp_l by lia;
    first
      [ apply (mod7_shift _ _ (52 * (y - 1) + 0)); lia
      | apply (mod7_shift _ _ (52 * (y - 1) + 4)); lia
      | apply (mod7_shift _ _ (52 * (y - 1) + 8)); lia
      | apply (mod7_shift _ _ (52 * (y - 1) + 12)); lia
      | apply (mod7_shift _ _ (52 * (y - 1) + 17)); lia
      | apply (mod7_shift _ _ (52 * (y - 1) + 21)); lia
      | apply (mod7_shift _ _ (52 * (y - 1) + 25)); lia
      | apply (mod7_shift _ _ (52 * (y - 1) + 30)); lia
      | apply (mod7_shift _ _ (52 * (y - 1) + 34)); lia
      | apply (mod7_shift _ _ (52 * (y - 1) + 38)); lia
      | apply (mod7_shift _ _ (52 * (y - 1) + 43)); lia
      | apply (mod7_shift _ _ (52 * (y - 1) + 47)); lia ].
Qed.

(** The fields of a valid timestamp form a date of the reference
    calendar, the date of the day the timestamp falls on, and the day of
    the week is the weekday of that date. *)
Lemma timestamp_fields_round_trip (ns : Z) :
  Calendar.valid_timestamp ns ->
  Calendar.valid_date (Calendar.year_of ns) (Calendar.month_of ns) (Calendar.day_of ns)
  /\ Calendar.toordinal (Calendar.year_of ns) (Calendar.month_of ns) (Calendar.day_of ns)
     = Calendar.epoch_ordinal + ns / Calendar.ns_per_day
  /\ Calendar.dayofweek_of ns
     = Calendar.weekday
         (Calendar.toordinal (Calendar.year_of ns) (Calendar.month_of ns)
                             (Calendar.day_of ns)).
Proof.
  intros Hv.
  pose proof (timestamp_day_range ns Hv) as Hrange.
  unfold Calendar.year_of, Calendar.month_of, Calendar.day_of, Calendar.dayofweek_of,
    Calendar.to_datetimestruct.
  rewrite extract_unit_floor by reflexivity. cbn [fst].
  set (days := ns / Calendar.ns_per_day) in *.
  unfold Calendar.set_datetimestruct_days.
  pose proof (days_to_yearsdays_ordinal days Hrange) as Hy.
  destruct (Calendar.days_to_yearsdays days) as [y yday].
  destruct Hy as (Hord & Hyday & Hyear).
  rewrite is_leapyear_is_leap by lia.
  pose proof (month_and_day_ordinal y yday Hyday) as Hmd. cbv zeta in Hmd.
  destruct (Calendar.month_and_day
              (Calendar.days_per_month_table (Calendar.is_leap y)) 0 yday) as [m d].
  cbn [fst snd] in Hmd. destruct Hmd as (Hm & Hd & Hsum).
  cbn [Calendar.year Calendar.month Calendar.day].
  split; [unfold Calendar.valid_date; lia |].
  split; [unfold Calendar.toordinal; lia |].
  apply dayofweek_weekday; lia.
Qed.

(* ================================================================= *)
(** ** Loading (C7, C8) *)

Lemma has_column_set (name other : string) (s : series) (df : DataFrame) :
  has_column other (set_column name s df)
  = (String.eqb other name || has_column other df)%bool.
Proof.
  unfold has_column, columns.
  induction df as [| [n s0] df IH]; simpl.
  - now rewrite orb_false_r.
  - destruct (String.eqb name n) eqn:E; simpl.
    + apply String.eqb_eq in E. subst n.
      destruct (String.eqb other name); reflexivity.
    + rewrite IH.
      destruct (String.eqb other n), (String.eqb other name); reflexivity.
Qed.

Lemma parse_cells_trace (parse : string -> error + option Z)
      (xs : list (option string)) :
  trace (parse_cells parse xs) = [].
Proof.
  induction xs as [| [s |] xs IH]; simpl; [reflexivity | |].
  - destruct (parse s); [reflexivity |].
    rewrite trace_bind, IH. destruct (result (parse_cells parse xs)); reflexivity.
  - rewrite trace_bind, IH. destruct (result (parse_cells parse xs)); reflexivity.
Qed.

Lemma cast_cells_trace (xs : list (option Z)) : trace (cast_cells xs) = [].
Proof.
  induction xs as [| [z |] xs IH]; simpl; [reflexivity | |].
  - unfold cast_ns.
    destruct ((z <? - 2 ^ 63) || (2 ^ 63 <=? z))%bool; [reflexivity |].
    destruct (z =? - 2 ^ 63); rewrite bind_ret, trace_bind, IH;
      destruct (result (cast_cells xs)); reflexivity.
  - rewrite trace_bind, IH. destruct (result (cast_cells xs)); reflexivity.
Qed.

Lemma to_datetime_trace (parse : date_parser)
      (raw : series) :
  trace (to_datetime parse raw) = [].
Proof.
  destruct raw; simpl; [apply cast_cells_trace | apply parse_cells_trace | reflexivity].
Qed.

Lemma load_data_without_timestamp (parse : date_parser) (df : DataFrame) :
  has_column "InvoiceDate" df = false ->
  load_data parse df = ([Print (Text "Loading retail data...")], Done df).
Proof. intros H. unfold load_data. now rewrite H. Qed.

Lemma load_data_with_timestamp (parse : date_parser) (df : DataFrame)
      (raw : series) :
  get_column "InvoiceDate" df = Some raw ->
  load_data parse df
  = ([Print (Text "Loading retail data...")],
     match result (to_datetime parse raw) with
     | Done cells => Done (with_calendar cells df)
     | Raised e => Raised e
     end).
Proof.
  intros Hraw. unfold load_data, column.
  assert (H : has_column "InvoiceDate" df = true) by (apply has_column_get; eauto).
  rewrite H, Hraw. step_run.
  pose proof (to_datetime_trace parse raw) as Ht.
  destruct (to_datetime parse raw) as [t [cells | e]]; simpl in Ht; subst t;
    reflexivity.
Qed.

Lemma with_calendar_has_column (cells : list (option Z)) (df : DataFrame)
      (name : string) :
  has_column name (with_calendar cells df)
  = (String.eqb name "DayOfWeek" || (String.eqb name "Day"
     || (String.eqb name "Month" || (String.eqb name "Year"
     || (String.eqb name "InvoiceDate" || has_column name df)))))%bool.
Proof. unfold with_calendar. now rewrite !has_column_set. Qed.

Lemma with_calendar_columns (cells : list (option Z)) (df : DataFrame) :
  get_column "InvoiceDate" (with_calendar cells df) = Some (Datetime cells)
  /\ get_column "Year" (with_calendar cells df)
     = Some (dt_field Calendar.year_of cells)
  /\ get_column "Month" (with_calendar cells df)
     = Some (dt_field Calendar.month_of cells)
  /\ get_column "Day" (with_calendar cells df)
     = Some (dt_field Calendar.day_of cells)
  /\ get_column "DayOfWeek" (with_calendar cells df)
     = Some (dt_field Calendar.dayofweek_of cells).
Proof.
  unfold with_calendar.
  repeat split;
    repeat first [ apply get_set_same
                 | rewrite get_set_other by (intros H; discriminate H) ].
Qed.

Lemma with_calendar_other (cells : list (option Z)) (df : DataFrame) (name : string) :
  ~ In name ("InvoiceDate" :: derived_columns) ->
  get_column name (with_calendar cells df) = get_column name df.
Proof.
  intros Hn. unfold with_calendar, derived_columns in *. simpl in Hn.
  rewrite !get_set_other; [reflexivity | | | | |]; intros H; apply Hn; rewrite H;
    tauto.
Qed.

(** C7, as stated, fails: a table that comes with its own calendar
    columns and without a timestamp is returned as it is, so the four
    columns are present although the timestamp column is not. *)
Lemma calendar_columns_without_timestamp :
  has_column "InvoiceDate" calendar_only = false
  /\ result (load_data parse_sample calendar_only) = Done calendar_only
  /\ forallb (fun name => has_column name calendar_only) derived_columns = true.
Proof. repeat split. Qed.

(** C7, amended: without a timestamp column the table is returned
    unchanged; with one, loading either stops on a date that does not
    parse or returns a table that holds the converted timestamps, the
    four calendar columns derived from them, and every other column as
    it was.  So, after loading, a calendar column is present exactly
    when the input had the timestamp column or already had a column of
    that name. *)
Theorem derived_columns_after_load (parse : date_parser) (df : DataFrame) :
  (has_column "InvoiceDate" df = false ->
   load_data parse df = ([Print (Text "Loading retail data...")], Done df))
  /\ (forall raw cells,
        get_column "InvoiceDate" df = Some raw ->
        result (to_datetime parse raw) = Done cells ->
        result (load_data parse df) = Done (with_calendar cells df)
        /\ get_column "InvoiceDate" (with_calendar cells df) = Some (Datetime cells)
        /\ (forall name, In name derived_columns ->
              has_column name (with_calendar cells df) = true)
        /\ (forall name, ~ In name ("InvoiceDate" :: derived_columns) ->
              get_column name (with_calendar cells df) = get_column name df))
  /\ (forall df' name,
        result (load_data parse df) = Done df' ->
        In name derived_columns ->
        (has_column name df' = true
         <-> has_column "InvoiceDate" df = true \/ has_column name df = true)).
Proof.
  split; [apply load_data_without_timestamp |].
  split.
  - intros raw cells Hraw Hcells.
    split; [rewrite (load_data_with_timestamp _ _ _ Hraw); simpl; now rewrite Hcells |].
    split; [apply with_calendar_columns |].
    split; [| apply with_calendar_other].
    intros name Hin. rewrite with_calendar_has_column.
    unfold derived_columns in Hin. simpl in Hin.
    destruct Hin as [<- | [<- | [<- | [<- | []]]]]; reflexivity.
  - intros df' name Hload Hin.
    destruct (has_column "InvoiceDate" df) eqn:Hts.
    + apply has_column_get in Hts. destruct Hts as [raw Hraw].
      rewrite (load_data_with_timestamp _ _ _ Hraw) in Hload. simpl in Hload.
      destruct (result (to_datetime parse raw)) as [cells | e]; [| discriminate].
      injection Hload as <-. rewrite with_calendar_has_column.
      unfold derived_columns in Hin. simpl in Hin.
      destruct Hin as [<- | [<- | [<- | [<- | []]]]]; simpl; tauto.
    + rewrite (load_data_without_timestamp _ _ Hts) in Hload.
      injection Hload as <-. split; [tauto | intros [H | H]; [discriminate | assumption]].
Qed.

Lemma derived_columns_after_load_witness :
  get_column "InvoiceDate" one_sale_csv = Some (Object [Some "2021-03-01"])
  /\ result (to_datetime parse_sample (Object [Some "2021-03-01"]))
     = Done [Some 1614556800000000000]
  /\ result (load_data parse_sample one_sale_csv)
     = Done (with_calendar [Some 1614556800000000000] one_sale_csv)
  /\ has_column "InvoiceDate" visits = false
  /\ load_data parse_sample visits
     = ([Print (Text "Loading retail data...")], Done visits).
Proof.
  destruct (derived_columns_after_load parse_sample one_sale_csv) as (_ & Hwith & _).
  destruct (Hwith (Object [Some "2021-03-01"]) [Some 1614556800000000000]
                  eq_refl eq_refl) as (Hload & _).
  destruct (derived_columns_after_load parse_sample visits) as (Hwithout & _).
  split; [reflexivity |]. split; [reflexivity |]. split; [exact Hload |].
  split; [reflexivity | exact (Hwithout eq_refl)].
Defined.

(** C8: on every row whose timestamp is valid, the derived year, month
    and day form a date of the calendar, that date is the day the
    timestamp falls on, and the derived day of the week is the weekday
    of that date. *)
Theorem derived_fields_round_trip (parse : date_parser) (df df' : DataFrame) :
  has_column "InvoiceDate" df = true ->
  result (load_data parse df) = Done df' ->
  exists cells,
    get_column "InvoiceDate" df' = Some (Datetime cells)
    /\ forall i ns,
        nth_error cells i = Some (Some ns) ->
        Calendar.valid_timestamp ns ->
        exists y m d w,
          numeric_cell "Year" df' i = Some y
          /\ numeric_cell "Month" df' i = Some m
          /\ numeric_cell "Day" df' i = Some d
          /\ numeric_cell "DayOfWeek" df' i = Some w
          /\ Calendar.valid_date y m d
          /\ Calendar.toordinal y m d
             = Calendar.epoch_ordinal + ns / Calendar.ns_per_day
          /\ w = Calendar.weekday (Calendar.toordinal y m d).
Proof.
  intros Hts Hload.
  apply has_column_get in Hts. destruct Hts as [raw Hraw].
  rewrite (load_data_with_timestamp _ _ _ Hraw) in Hload. simpl in Hload.
  destruct (result (to_datetime parse raw)) as [cells | e]; [| discriminate].
  injection Hload as <-.
  destruct (with_calendar_columns cells df) as (Hc & Hy & Hm & Hd & Hw).
  exists cells. split; [exact Hc |].
  intros i ns Hi Hv.
  assert (Hcell : forall f : Z -> Z,
             nth i (map (option_map f) cells) None = Some (f ns)).
  { intros f. apply nth_error_nth.
    rewrite nth_error_map, Hi. reflexivity. }
  destruct (timestamp_fields_round_trip ns Hv) as (Hdate & Hord & Hwd).
  exists (Calendar.year_of ns), (Calendar.month_of ns), (Calendar.day_of ns),
    (Calendar.dayofweek_of ns).
  unfold numeric_cell. rewrite Hy, Hm, Hd, Hw. unfold dt_field.
  rewrite !Hcell. repeat split; try assumption; apply Hdate.
Qed.

Lemma derived_fields_round_trip_witness :
  has_column "InvoiceDate" one_sale_csv = true
  /\ result (load_data parse_sample one_sale_csv)
     = Done (with_calendar [Some 1614556800000000000] one_sale_csv)
  /\ Calendar.valid_timestamp 1614556800000000000
  /\ exists y m d w,
      numeric_cell "Year" (with_calendar [Some 1614556800000000000] one_sale_csv) 0
      = Some y
      /\ numeric_cell "Month" (with_calendar [Some 1614556800000000000] one_sale_csv) 0
         = Some m
      /\ numeric_cell "Day" (with_calendar [Some 1614556800000000000] one_sale_csv) 0
         = Some d
      /\ numeric_cell "DayOfWeek"
                      (with_calendar [Some 1614556800000000000] one_sale_csv) 0
         = Some w
      /\ Calendar.valid_date y m d
      /\ Calendar.toordinal y m d
         = Calendar.epoch_ordinal + 1614556800000000000 / Calendar.ns_per_day
      /\ w = Calendar.weekday (Calendar.toordinal y m d).
Proof.
  assert (Hv : Calendar.valid_timestamp 1614556800000000000).
  { unfold Calendar.valid_timestamp. split; reflexivity. }
  split; [reflexivity |]. split; [reflexivity |]. split; [exact Hv |].
  destruct (derived_fields_round_trip parse_sample one_sale_csv
              (with_calendar [Some 1614556800000000000] one_sale_csv)
              eq_refl eq_refl) as (cells & Hcells & Hrows).
  injection Hcells as <-.
  exact (Hrows 0%nat 1614556800000000000 eq_refl Hv).
Defined.

(* ================================================================= *)
(** ** float64 rounding *)

Section Float64.

Local Open Scope Q_scope.

Lemma pow2_pos (e : Z) : 0 < 2 ^ e.
Proof. apply Qpower_0_lt. reflexivity. Qed.

Lemma pow2_le (a b : Z) : (a <= b)%Z -> 2 ^ a <= 2 ^ b.
Proof. intros H. apply Qpower_le_compat_l; [assumption | discriminate]. Qed.

Lemma pow2_succ (e : Z) : 2 ^ (e + 1) == 2 * 2 ^ e.
Proof. rewrite Qpower_plus by discriminate. change (2 ^ 1) with 2. ring. Qed.

Lemma pow2_Z (n : Z) : (0 <= n)%Z -> inject_Z (2 ^ n) == 2 ^ n.
Proof. intros H. now rewrite Zpower_Qpower. Qed.

Lemma binade_spec (x : Q) : 0 < x -> 2 ^ binade x <= x /\ x < 2 ^ (binade x + 1).
Proof.
  intros Hx. unfold binade.
  pose proof (Qred_correct x) as Hr.
  set (r := Qred x) in *.
  assert (Hrpos : 0 < r) by (rewrite Hr; exact Hx).
  destruct r as [p q] eqn:Er. cbn [Qnum Qden].
  assert (Hp : (0 < p)%Z).
  { unfold Qlt in Hrpos. simpl in Hrpos. lia. }
  pose proof (Z.log2_spec p Hp) as [Ha1 Ha2].
  pose proof (Z.log2_spec (Zpos q) eq_refl) as [Hb1 Hb2].
  pose proof (Z.log2_nonneg p) as Ha0.
  pose proof (Z.log2_nonneg (Zpos q)) as Hb0.
  set (a := Z.log2 p) in *. set (b := Z.log2 (Zpos q)) in *.
  assert (HA : 2 ^ a <= inject_Z p /\ inject_Z p < 2 * 2 ^ a).
  { rewrite <- pow2_Z by assumption. split.
    - rewrite <- Zle_Qle. exact Ha1.
    - change 2 with (inject_Z 2) at 1. rewrite <- inject_Z_mult, <- Zlt_Qlt.
      rewrite Z.pow_succ_r in Ha2 by assumption. exact Ha2. }
  assert (HB : 2 ^ b <= inject_Z (Zpos q) /\ inject_Z (Zpos q) < 2 * 2 ^ b).
  { rewrite <- pow2_Z by assumption. split.
    - rewrite <- Zle_Qle. exact Hb1.
    - change 2 with (inject_Z 2) at 1. rewrite <- inject_Z_mult, <- Zlt_Qlt.
      rewrite Z.pow_succ_r in Hb2 by assumption. exact Hb2. }
  assert (Hq : p # q == inject_Z p / inject_Z (Zpos q)) by apply Qmake_Qdiv.
  assert (Hmul : x * inject_Z (Zpos q) == inject_Z p).
  { rewrite <- Hr, Hq. field. discriminate. }
  assert (Hab : 2 ^ (a - b) * 2 ^ b == 2 ^ a).
  { rewrite Qpower_minus by discriminate. field.
    pose proof (pow2_pos b). lra. }
  pose proof (pow2_pos a) as HpA. pose proof (pow2_pos b) as HpB.
  pose proof (pow2_pos (a - b)) as HpE.
  assert (Hqpos : 0 < inject_Z (Zpos q))
    by (change 0 with (inject_Z 0); now rewrite <- Zlt_Qlt).
  destruct (Qle_bool (2 ^ (a - b)) (p # q)) eqn:E.
  - apply Qle_bool_iff in E. rewrite Hr in E. split; [exact E |].
    rewrite pow2_succ. nra.
  - assert (E' : x < 2 ^ (a - b)).
    { apply Qnot_le_lt. intros H. rewrite <- Hr in H.
      apply Qle_bool_iff in H. congruence. }
    replace (a - b - 1 + 1)%Z with (a - b)%Z by lia.
    split; [| exact E'].
    assert (H2 : 2 ^ (a - b) == 2 * 2 ^ (a - b - 1)).
    { rewrite <- pow2_succ. now replace (a - b - 1 + 1)%Z with (a - b)%Z by lia. }
    pose proof (pow2_pos (a - b - 1)). nra.
Qed.

Lemma binade_comp (x y : Q) : x == y -> binade x = binade y.
Proof. intros H. unfold binade. now rewrite (Qred_complete x y H). Qed.


Lemma binade_le (x y : Q) : 0 < x -> x <= y -> (binade x <= binade y)%Z.
Proof.
  intros Hx Hxy.
  destruct (binade_spec x Hx) as [H1 H2].
  destruct (binade_spec y ltac:(lra)) as [H3 H4].
  destruct (Z.le_gt_cases (binade x) (binade y)) as [H | H]; [assumption |].
  pose proof (pow2_le (binade y + 1) (binade x) ltac:(lia)). lra.
Qed.

Lemma round_half_even_comp (x y : Q) :
  x == y -> round_half_even x = round_half_even y.
Proof.
  intros H. unfold round_half_even.
  rewrite (Qfloor_comp x y H).
  assert (E : x - inject_Z (Qfloor y) == y - inject_Z (Qfloor y)) by now rewrite H.
  now rewrite (Qcompare_comp _ _ E (1 # 2) (1 # 2) (Qeq_refl _)).
Qed.

Lemma round_half_even_floor (y : Q) :
  (Qfloor y <= round_half_even y <= Qfloor y + 1)%Z.
Proof.
  unfold round_half_even.
  destruct (y - inject_Z (Qfloor y) ?= 1 # 2); [destruct (Z.even (Qfloor y)) | |]; lia.
Qed.

Lemma round_half_even_Z (z : Z) : round_half_even (inject_Z z) = z.
Proof.
  unfold round_half_even. rewrite Qfloor_Z.
  assert (E : inject_Z z - inject_Z z == 0) by ring.
  now rewrite (Qcompare_comp _ _ E (1 # 2) (1 # 2) (Qeq_refl _)).
Qed.

Lemma round_half_even_ge (y : Q) (k : Z) :
  inject_Z k <= y -> (k <= round_half_even y)%Z.
Proof.
  intros H. apply Qfloor_resp_le in H. rewrite Qfloor_Z in H.
  pose proof (round_half_even_floor y). lia.
Qed.

Lemma round_half_even_le (y : Q) (k : Z) :
  y <= inject_Z k -> (round_half_even y <= k)%Z.
Proof.
  intros H.
  pose proof (Qfloor_resp_le _ _ H) as Hf. rewrite Qfloor_Z in Hf.
  destruct (Z.eq_dec (Qfloor y) k) as [E | E].
  - assert (Hy : y == inject_Z k).
    { pose proof (Qfloor_le y) as Hl. rewrite E in Hl. lra. }
    rewrite (round_half_even_comp _ _ Hy), round_half_even_Z. lia.
  - pose proof (round_half_even_floor y). lia.
Qed.

Ltac compare_to_prop H :=
  match type of H with
  | _ = Eq => apply Qeq_alt in H
  | _ = Lt => apply Qlt_alt in H
  | _ = Gt => apply Qgt_alt in H
  end.

Lemma round_half_even_mono (x y : Q) :
  x <= y -> (round_half_even x <= round_half_even y)%Z.
Proof.
  intros H.
  pose proof (Qfloor_resp_le _ _ H) as Hf.
  pose proof (round_half_even_floor x) as Hx.
  pose proof (round_half_even_floor y) as Hy.
  destruct (Z.eq_dec (Qfloor x) (Qfloor y)) as [E | E]; [| lia].
  unfold round_half_even in *. rewrite E in *.
  destruct (x - inject_Z (Qfloor y) ?= 1 # 2) eqn:Cx;
    destruct (y - inject_Z (Qfloor y) ?= 1 # 2) eqn:Cy;
    compare_to_prop Cx; compare_to_prop Cy;
    try (exfalso; lra);
    destruct (Z.even (Qfloor y)); lia.
Qed.

Lemma round_positive_comp (x y : Q) :
  x == y -> round_positive x == round_positive y.
Proof.
  intros H. unfold round_positive. rewrite (binade_comp x y H).
  assert (E : x / 2 ^ (binade y - 52) == y / 2 ^ (binade y - 52)) by now rewrite H.
  now rewrite (round_half_even_comp _ _ E).
Qed.

(** The significand of a positive value lies between 2^52 and 2^53. *)
Lemma significand_range (x : Q) :
  0 < x ->
  inject_Z (2 ^ 52) <= x / 2 ^ (binade x - 52)
  /\ x / 2 ^ (binade x - 52) <= inject_Z (2 ^ 53).
Proof.
  intros Hx. destruct (binade_spec x Hx) as [H1 H2].
  pose proof (pow2_pos (binade x - 52)) as Hp.
  rewrite !pow2_Z by lia.
  assert (E1 : 2 ^ binade x == 2 ^ 52 * 2 ^ (binade x - 52)).
  { rewrite <- Qpower_plus by discriminate.
    now replace (52 + (binade x - 52))%Z with (binade x) by lia. }
  assert (E2 : 2 ^ (binade x + 1) == 2 ^ 53 * 2 ^ (binade x - 52)).
  { rewrite <- Qpower_plus by discriminate.
    now replace (53 + (binade x - 52))%Z with (binade x + 1)%Z by lia. }
  split.
  - apply Qle_shift_div_l; [assumption |]. rewrite <- E1. exact H1.
  - apply Qle_shift_div_r; [assumption |]. rewrite <- E2. lra.
Qed.

Lemma round_positive_range (x : Q) :
  0 < x -> 2 ^ binade x <= round_positive x /\ round_positive x <= 2 ^ (binade x + 1).
Proof.
  intros Hx. destruct (significand_range x Hx) as [H1 H2].
  apply round_half_even_ge in H1. apply round_half_even_le in H2.
  unfold round_positive.
  set (n := round_half_even (x / 2 ^ (binade x - 52))) in *.
  pose proof (pow2_pos (binade x - 52)) as Hp.
  assert (E1 : 2 ^ binade x == inject_Z (2 ^ 52) * 2 ^ (binade x - 52)).
  { rewrite pow2_Z by lia. rewrite <- Qpower_plus by discriminate.
    now replace (52 + (binade x - 52))%Z with (binade x) by lia. }
  assert (E2 : 2 ^ (binade x + 1) == inject_Z (2 ^ 53) * 2 ^ (binade x - 52)).
  { rewrite pow2_Z by lia. rewrite <- Qpower_plus by discriminate.
    now replace (53 + (binade x - 52))%Z with (binade x + 1)%Z by lia. }
  rewrite E1, E2. rewrite Zle_Qle in H1, H2.
  split; apply Qmult_le_compat_r; (assumption || lra).
Qed.

Lemma round_positive_pos (x : Q) : 0 < x -> 0 < round_positive x.
Proof.
  intros Hx. destruct (round_positive_range x Hx) as [H _].
  pose proof (pow2_pos (binade x)). lra.
Qed.

Lemma round_positive_le (x y : Q) :
  0 < x -> x <= y -> round_positive x <= round_positive y.
Proof.
  intros Hx Hxy.
  assert (Hy : 0 < y) by lra.
  pose proof (binade_le x y Hx Hxy) as Hb.
  destruct (Z.eq_dec (binade x) (binade y)) as [E | E].
  - unfold round_positive. rewrite E.
    pose proof (pow2_pos (binade y - 52)) as Hp.
    apply Qmult_le_compat_r; [| lra].
    rewrite <- Zle_Qle. apply round_half_even_mono.
    apply Qmult_le_compat_r; [assumption |].
    apply Qlt_le_weak, Qinv_lt_0_compat. exact Hp.
  - destruct (round_positive_range x Hx) as [_ H1].
    destruct (round_positive_range y Hy) as [H2 _].
    pose proof (pow2_le (binade x + 1) (binade y) ltac:(lia)). lra.
Qed.

Lemma float64_comp (x y : Q) : x == y -> float64 x == float64 y.
Proof.
  intros H. unfold float64.
  rewrite (Qcompare_comp _ _ H 0 0 (Qeq_refl _)).
  destruct (y ?= 0); [reflexivity | |].
  - apply Qopp_comp, round_positive_comp. now rewrite H.
  - now apply round_positive_comp.
Qed.

Lemma float64_sign (x : Q) :
  (0 < x -> 0 < float64 x) /\ (x < 0 -> float64 x < 0) /\ (x == 0 -> float64 x == 0).
Proof.
  unfold float64.
  destruct (x ?= 0) eqn:C; compare_to_prop C.
  - repeat split; intros; (lra || reflexivity).
  - pose proof (round_positive_pos (- x) ltac:(lra)).
    repeat split; intros; lra.
  - pose proof (round_positive_pos x C).
    repeat split; intros; lra.
Qed.

Lemma float64_le (x y : Q) : x <= y -> float64 x <= float64 y.
Proof.
  intros H.
  destruct (float64_sign x) as (Hxp & Hxn & Hx0).
  destruct (float64_sign y) as (Hyp & Hyn & Hy0).
  unfold float64 in *.
  destruct (x ?= 0) eqn:Cx; destruct (y ?= 0) eqn:Cy;
    compare_to_prop Cx; compare_to_prop Cy;
    try (specialize (Hxn Cx)); try (specialize (Hxp Cx));
    try (specialize (Hyn Cy)); try (specialize (Hyp Cy)); try lra.
  - apply Qopp_le_compat. apply round_positive_le; lra.
  - now apply round_positive_le.
Qed.

Lemma float64_opp (x : Q) : float64 (- x) == - float64 x.
Proof.
  unfold float64.
  destruct (x ?= 0) eqn:Cx; destruct (- x ?= 0) eqn:Cy;
    compare_to_prop Cx; compare_to_prop Cy; try lra.
  apply Qopp_comp, round_positive_comp. ring.
Qed.

Lemma float64_Z_exact (z : Z) :
  (Z.abs z <= 2 ^ 53)%Z -> float64 (inject_Z z) == inject_Z z.
Proof.
  assert (Hpos : forall n, (0 < n <= 2 ^ 53)%Z ->
                           round_positive (inject_Z n) == inject_Z n).
  { intros n [Hn0 Hn].
    assert (Hq : 0 < inject_Z n) by (change 0 with (inject_Z 0); now rewrite <- Zlt_Qlt).
    destruct (binade_spec _ Hq) as [H1 H2].
    pose proof (pow2_pos (binade (inject_Z n) - 52)) as Hp.
    assert (Hb : (binade (inject_Z n) <= 53)%Z).
    { destruct (Z.le_gt_cases (binade (inject_Z n)) 53) as [H | H]; [assumption |].
      pose proof (pow2_le 54 (binade (inject_Z n)) ltac:(lia)) as H3.
      rewrite <- (pow2_Z 54) in H3 by lia.
      assert (H4 : inject_Z (2 ^ 54) <= inject_Z n) by lra.
      rewrite <- Zle_Qle in H4. lia. }
    unfold round_positive. set (e := (binade (inject_Z n) - 52)%Z) in *.
    destruct (Z.le_gt_cases e 0) as [He | He].
    - assert (E : inject_Z n / 2 ^ e == inject_Z (n * 2 ^ (- e))).
      { rewrite inject_Z_mult, pow2_Z by lia. rewrite Qpower_opp. field. lra. }
      rewrite (round_half_even_comp _ _ E), round_half_even_Z.
      rewrite inject_Z_mult, pow2_Z by lia. rewrite Qpower_opp. field. lra.
    - assert (e = 1%Z) by lia.
      assert (Hn53 : n = (2 ^ 53)%Z).
      { replace (binade (inject_Z n)) with 53%Z in H1 by lia.
        rewrite <- (pow2_Z 53) in H1 by lia. rewrite <- Zle_Qle in H1. lia. }
      subst n. replace e with 1%Z. vm_compute. reflexivity. }
  intros Hz. unfold float64.
  destruct (inject_Z z ?= 0) eqn:C; compare_to_prop C.
  - now rewrite C.
  - change 0 with (inject_Z 0) in C. rewrite <- Zlt_Qlt in C.
    rewrite <- inject_Z_opp, Hpos by lia. rewrite inject_Z_opp. ring.
  - change 0 with (inject_Z 0) in C. rewrite <- Zlt_Qlt in C.
    apply Hpos. lia.
Qed.




Lemma cumulative_pct_le (c c' t : Z) :
  (0 < t)%Z -> (c <= c')%Z -> cumulative_pct c t <= cumulative_pct c' t.
Proof.
  intros Ht Hc. unfold cumulative_pct.
  destruct (float64_sign (inject_Z t)) as (Hp & _).
  rewrite Zlt_Qlt in Ht. specialize (Hp Ht).
  rewrite Zle_Qle in Hc. apply float64_le in Hc.
  apply float64_le. apply Qmult_le_compat_r; [| discriminate].
  apply float64_le. apply Qmult_le_compat_r; [assumption |].
  apply Qlt_le_weak, Qinv_lt_0_compat. exact Hp.
Qed.

Lemma cumulative_pct_opp (c t : Z) :
  cumulative_pct (- c) (- t) == cumulative_pct c t.
Proof.
  unfold cumulative_pct.
  apply float64_comp. apply Qmult_comp; [| reflexivity].
  apply float64_comp. rewrite !inject_Z_opp, !float64_opp.
  destruct (Qeq_dec (float64 (inject_Z t)) 0) as [E | E].
  - rewrite E. unfold Qdiv. change (/ - 0) with 0. change (/ 0) with 0. ring.
  - field. exact E.
Qed.

Lemma cumulative_pct_exact (c t : Z) :
  (0 < t <= 2 ^ 50)%Z -> (Z.abs c <= 2 ^ 53)%Z ->
  (cumulative_pct c t <= 80 <-> (100 * c <= 80 * t)%Z).
Proof.
  intros [Ht0 Ht] Hc.
  assert (Hq : 0 < inject_Z t) by (change 0 with (inject_Z 0); now rewrite <- Zlt_Qlt).
  assert (E : float64 (inject_Z c) / float64 (inject_Z t) == inject_Z c / inject_Z t).
  { rewrite !float64_Z_exact by lia. reflexivity. }
  assert (Epct : cumulative_pct c t
                 == float64 (float64 (inject_Z c / inject_Z t) * 100)).
  { unfold cumulative_pct. apply float64_comp.
    apply Qmult_comp; [| reflexivity]. now apply float64_comp. }
  rewrite Epct. split.
  - intros Hle.
    destruct (Z.le_gt_cases (100 * c) (80 * t)) as [H | H]; [assumption | exfalso].
    assert (Hd : 7205759403792795 # 9007199254740992 <= inject_Z c / inject_Z t).
    { apply Qle_shift_div_l; [assumption |].
      unfold Qle. cbn [Qnum Qden Qmult inject_Z]. lia. }
    apply float64_le in Hd.
    assert (Hd2 : float64 (7205759403792795 # 9007199254740992) * 100
                  <= float64 (inject_Z c / inject_Z t) * 100).
    { apply Qmult_le_compat_r; [assumption | discriminate]. }
    apply float64_le in Hd2.
    assert (Hc2 : ~ float64 (float64 (7205759403792795 # 9007199254740992) * 100) <= 80).
    { intros Hc2. apply Qle_bool_iff in Hc2. vm_compute in Hc2. discriminate Hc2. }
    apply Hc2. lra.
  - intros H.
    assert (Hd : inject_Z c / inject_Z t <= 4 # 5).
    { apply Qle_shift_div_r; [assumption |].
      unfold Qle. cbn [Qnum Qden Qmult inject_Z]. lia. }
    apply float64_le in Hd.
    assert (Hd2 : float64 (inject_Z c / inject_Z t) * 100 <= float64 (4 # 5) * 100).
    { apply Qmult_le_compat_r; [assumption | discriminate]. }
    apply float64_le in Hd2.
    assert (Hc2 : float64 (float64 (4 # 5) * 100) <= 80).
    { apply Qle_bool_iff. vm_compute. reflexivity. }
    lra.
Qed.

Lemma pct_le_80_exact (c t : Z) :
  t <> 0%Z -> (Z.abs t <= 2 ^ 50)%Z -> (Z.abs c <= 2 ^ 53)%Z ->
  pct_le_80 c t = share_le_80 c t.
Proof.
  intros Ht0 Ht Hc. unfold pct_le_80, share_le_80.
  destruct (t =? 0)%Z eqn:E0; [apply Z.eqb_eq in E0; contradiction |].
  destruct (0 <? t)%Z eqn:E1.
  - apply Z.ltb_lt in E1.
    pose proof (cumulative_pct_exact c t ltac:(lia) Hc) as Hx.
    destruct (Qle_bool (cumulative_pct c t) 80) eqn:C;
      destruct (100 * c <=? 80 * t)%Z eqn:D; try reflexivity.
    + apply Qle_bool_iff, Hx in C. apply Z.leb_gt in D. lia.
    + apply Z.leb_le, Hx, Qle_bool_iff in D. congruence.
  - apply Z.ltb_ge in E1.
    pose proof (cumulative_pct_exact (- c) (- t) ltac:(lia) ltac:(lia)) as Hx.
    rewrite cumulative_pct_opp in Hx.
    destruct (Qle_bool (cumulative_pct c t) 80) eqn:C;
      destruct (80 * t <=? 100 * c)%Z eqn:D; try reflexivity.
    + apply Qle_bool_iff, Hx in C. apply Z.leb_gt in D. lia.
    + apply Z.leb_le in D. assert (D' : (100 * - c <= 80 * - t)%Z) by lia.
      apply Hx, Qle_bool_iff in D'. congruence.
Qed.

(** Above the exact range the two differ: the share of the first of
    two products that earn 4*10^17+1 and 10^17-1 is above 80%, and its
    rounded percentage is 80. *)
Lemma rounded_share_passes_the_test :
  pct_le_80 (4 * 10 ^ 17 + 1) (5 * 10 ^ 17) = true
  /\ share_le_80 (4 * 10 ^ 17 + 1) (5 * 10 ^ 17) = false.
Proof. split; vm_compute; reflexivity. Qed.
End Float64.

(* ================================================================= *)
(** ** Revenue concentration (C2) *)

Lemma insert_by_value_sorted (x : label * Z) (l : lseries) :
  StronglySorted value_ge l -> StronglySorted value_ge (insert_by_value x l).
Proof.
  induction l as [| y l IH]; intros Hs; simpl.
  - constructor; [constructor | constructor].
  - inversion Hs as [| ? ? Hl Hy]; subst.
    destruct (snd y <=? snd x) eqn:E; bool_to_prop.
    + constructor; [assumption |].
      constructor; [exact E |].
      eapply Forall_impl; [| exact Hy].
      intros z Hz. unfold value_ge in *. lia.
    + constructor; [now apply IH |].
      eapply Permutation_Forall; [apply insert_by_value_perm |].
      constructor; [unfold value_ge; lia | assumption].
Qed.

Lemma sort_values_desc_sorted (l : lseries) :
  StronglySorted value_ge (sort_values_desc l).
Proof.
  induction l as [| x l IH]; [constructor |].
  change (sort_values_desc (x :: l)) with (insert_by_value x (sort_values_desc l)).
  now apply insert_by_value_sorted.
Qed.

Lemma sorted_values_split (s : lseries) (m1 m2 : list Z) (v : Z) :
  StronglySorted value_ge s ->
  values s = m1 ++ v :: m2 ->
  Forall (fun x => v <= x) m1 /\ Forall (fun x => x <= v) m2.
Proof.
  revert m1.
  induction s as [| y s IH]; intros m1 Hs Heq; simpl in Heq.
  - destruct m1; discriminate.
  - inversion Hs as [| ? ? Hrest Hy]; subst.
    destruct m1 as [| w m1]; simpl in Heq; injection Heq as Hw Hrest'.
    + split; [constructor |].
      rewrite <- Hrest'. unfold values. apply Forall_map.
      eapply Forall_impl; [| exact Hy]. intros z Hz. unfold value_ge in Hz. lia.
    + destruct (IH m1 Hrest Hrest') as [H1 H2].
      split; [| assumption].
      constructor; [| assumption].
      rewrite Forall_forall in Hy.
      assert (Hin : In v (values s)) by (rewrite Hrest'; apply in_elt).
      unfold values in Hin. apply in_map_iff in Hin.
      destruct Hin as (z & Hz & Hzin). specialize (Hy z Hzin).
      unfold value_ge in Hy. lia.
Qed.

Lemma zsum_app (l1 l2 : list Z) : zsum (l1 ++ l2) = zsum l1 + zsum l2.
Proof. unfold zsum. induction l1 as [| x l1 IH]; simpl; lia. Qed.

Lemma zsum_all_le (l : list Z) (v : Z) :
  Forall (fun x => x <= v) l -> v <= 0 -> zsum l <= 0.
Proof. unfold zsum. induction 1; simpl; lia. Qed.

Lemma zsum_all_ge (l : list Z) (v : Z) :
  Forall (fun x => v <= x) l -> 0 < v -> l <> [] -> 0 < zsum l.
Proof.
  unfold zsum. intros Hall Hv Hne.
  destruct l as [| x l]; [congruence |].
  inversion Hall as [| ? ? Hx Hl]; subst. simpl.
  assert (0 <= fold_right Z.add 0 l); [| lia].
  clear - Hl Hv. induction Hl; simpl; lia.
Qed.

(** Two neighbours of a running sum come from a split of the list. *)
Lemma cumsum_from_neighbours (l : list Z) (acc : Z) (l1 l2 : list Z) (a b : Z) :
  cumsum_from acc l = l1 ++ a :: b :: l2 ->
  exists m1 v m2,
    l = m1 ++ v :: m2 /\ m1 <> [] /\ a = acc + zsum m1 /\ b = a + v.
Proof.
  revert acc l1.
  induction l as [| x l IH]; intros acc l1 Heq; simpl in Heq.
  - destruct l1; discriminate.
  - destruct l1 as [| c l1]; simpl in Heq; injection Heq as Hc Hrest.
    + destruct l as [| y l]; simpl in Hrest; [discriminate |].
      injection Hrest as Hb _.
      exists [x], y, l. repeat split; [discriminate | unfold zsum; simpl; lia | lia].
    + destruct (IH _ _ Hrest) as (m1 & v & m2 & Hl & Hne & Ha & Hb).
      exists (x :: m1), v, m2.
      repeat split; [now rewrite Hl | discriminate | | assumption].
      unfold zsum in *. simpl. lia.
Qed.

Lemma cumsum_from_nth (l : list Z) (acc : Z) (i : nat) :
  (i < length l)%nat ->
  nth i (cumsum_from acc l) 0 = acc + zsum (firstn (S i) l).
Proof.
  revert acc i.
  induction l as [| x l IH]; intros acc i Hi; simpl in Hi; [lia |].
  destruct i as [| i].
  - unfold zsum. simpl. lia.
  - cbn [cumsum_from nth]. rewrite IH by lia.
    unfold zsum. cbn [firstn fold_right]. lia.
Qed.

Lemma cumsum_from_length (l : list Z) (acc : Z) :
  length (cumsum_from acc l) = length l.
Proof. revert acc. induction l as [| x l IH]; intros acc; simpl; congruence. Qed.

Section Prefix.

Variable p : Z -> bool.

Lemma closed_downwards_tail (a : Z) (cs : list Z) :
  closed_downwards p (a :: cs) -> closed_downwards p cs.
Proof.
  intros H l1 x y l2 Heq. apply (H (a :: l1) x y l2). now rewrite Heq.
Qed.

Lemma all_false_after (cs : list Z) (a : Z) :
  closed_downwards p (a :: cs) -> p a = false -> filter p cs = [].
Proof.
  revert a.
  induction cs as [| b cs IH]; intros a Hc Ha; [reflexivity |].
  assert (Hb : p b = false).
  { destruct (p b) eqn:E; [| reflexivity].
    rewrite (Hc [] a b cs eq_refl E) in Ha. discriminate. }
  simpl. rewrite Hb. apply (IH b); [| assumption].
  eapply closed_downwards_tail; eassumption.
Qed.

Lemma filter_is_prefix (cs : list Z) :
  closed_downwards p cs ->
  filter p cs = firstn (length (filter p cs)) cs
  /\ filter p (skipn (length (filter p cs)) cs) = [].
Proof.
  induction cs as [| a cs IH]; intros Hc; [split; reflexivity |].
  simpl. destruct (p a) eqn:Ha.
  - destruct (IH (closed_downwards_tail _ _ Hc)) as [H1 H2].
    simpl. split; [now rewrite <- H1 | assumption].
  - rewrite (all_false_after cs a Hc Ha). simpl. rewrite Ha.
    split; [reflexivity | now apply (all_false_after cs a)].
Qed.

End Prefix.

Lemma nth_in_firstn (cs : list Z) (k n : nat) :
  (k < n)%nat -> (k < length cs)%nat -> In (nth k cs 0) (firstn n cs).
Proof.
  revert k n.
  induction cs as [| c cs IH]; intros k n Hk Hlen; simpl in Hlen; [lia |].
  destruct n as [| n]; [lia |].
  destruct k as [| k]; simpl; [now left | right; apply IH; lia].
Qed.

Lemma nth_in_skipn (cs : list Z) (n : nat) :
  (n < length cs)%nat -> In (nth n cs 0) (skipn n cs).
Proof.
  revert n.
  induction cs as [| c cs IH]; intros n Hlen; simpl in Hlen; [lia |].
  destruct n as [| n]; simpl; [now left | apply IH; lia].
Qed.

Lemma filter_nil_false (p : Z -> bool) (l : list Z) (x : Z) :
  filter p l = [] -> In x l -> p x = false.
Proof.
  intros Hnil Hin.
  destruct (p x) eqn:E; [| reflexivity].
  assert (Hx : In x (filter p l)) by (apply filter_In; now split).
  rewrite Hnil in Hx. destruct Hx.
Qed.

Lemma share_le_80_zero (t : Z) : t <> 0 -> share_le_80 0 t = true.
Proof.
  intros Ht. unfold share_le_80.
  destruct (0 <? t) eqn:E1; bool_to_prop; lia.
Qed.

Lemma share_closed (product_revenue : lseries) :
  StronglySorted value_ge product_revenue ->
  zsum (values product_revenue) <> 0 ->
  closed_downwards (fun c => share_le_80 c (zsum (values product_revenue)))
                   (cumsum (values product_revenue)).
Proof.
  intros Hs Ht l1 a b l2 Heq Hb.
  destruct (cumsum_from_neighbours _ _ _ _ _ _ Heq)
    as (m1 & v & m2 & Hl & Hne & Ha & Hbv).
  destruct (sorted_values_split _ _ _ _ Hs Hl) as [H1 H2].
  assert (Htot : zsum (values product_revenue) = zsum m1 + (v + zsum m2)).
  { rewrite Hl, zsum_app. reflexivity. }
  set (T := zsum (values product_revenue)) in *.
  unfold share_le_80 in *.
  destruct (0 <? T) eqn:E1; bool_to_prop.
  - destruct (Z.le_gt_cases v 0) as [Hv | Hv]; [| lia].
    pose proof (zsum_all_le m2 v H2 Hv). lia.
  - destruct (Z.le_gt_cases v 0) as [Hv | Hv]; [lia |].
    pose proof (zsum_all_ge m1 v H1 Hv Hne). lia.
Qed.

(** What a count of leading running sums means when the test, once
    false, stays false: the sum of the counted values passes the test
    and the next one does not. *)
Lemma prefix_count_spec (p : Z -> bool) (vals : list Z) :
  closed_downwards p (cumsum vals) ->
  p 0 = true ->
  (length (filter p (cumsum vals)) <= length vals)%nat
  /\ p (zsum (firstn (length (filter p (cumsum vals))) vals)) = true
  /\ ((length (filter p (cumsum vals)) < length vals)%nat ->
      p (zsum (firstn (S (length (filter p (cumsum vals)))) vals)) = false)
  /\ (p (zsum (firstn 1 vals)) = false -> length (filter p (cumsum vals)) = 0%nat).
Proof.
  intros Hc H0.
  apply filter_is_prefix in Hc. destruct Hc as [Hpre Hpost].
  set (cs := cumsum vals) in *.
  set (N := length (filter p cs)) in *.
  assert (Hlen : length cs = length vals).
  { unfold cs, cumsum. now rewrite cumsum_from_length. }
  assert (HN : (N <= length cs)%nat) by apply filter_length_le.
  assert (Hnth : forall k, (k < length cs)%nat ->
                           nth k cs 0 = zsum (firstn (S k) vals)).
  { intros k Hk. unfold cs, cumsum. rewrite cumsum_from_nth by lia. lia. }
  split; [lia |].
  split; [| split].
  - destruct N as [| k] eqn:EN.
    + exact H0.
    + rewrite <- Hnth by lia.
      assert (Hin : In (nth k cs 0) (filter p cs)).
      { rewrite Hpre. apply nth_in_firstn; lia. }
      apply filter_In in Hin. apply Hin.
  - intros Hlt. rewrite <- Hnth by lia.
    apply (filter_nil_false p _ _ Hpost). apply nth_in_skipn. lia.
  - intros H1.
    destruct N as [| k] eqn:EN; [reflexivity | exfalso].
    assert (Hin : In (nth 0 cs 0) (filter p cs)).
    { rewrite Hpre. apply nth_in_firstn; lia. }
    apply filter_In in Hin. destruct Hin as [_ Hin].
    rewrite Hnth in Hin by lia. congruence.
Qed.

Lemma abs_sum_app (l1 l2 : list Z) : abs_sum (l1 ++ l2) = abs_sum l1 + abs_sum l2.
Proof. unfold abs_sum. now rewrite map_app, zsum_app. Qed.

Lemma abs_sum_firstn (k : nat) (l : list Z) : abs_sum (firstn k l) <= abs_sum l.
Proof.
  rewrite <- (firstn_skipn k l) at 2. rewrite abs_sum_app.
  pose proof (abs_sum_nonneg (skipn k l)). lia.
Qed.

Lemma cumsum_from_In (l : list Z) (acc c : Z) :
  In c (cumsum_from acc l) ->
  exists m1 m2, l = m1 ++ m2 /\ m1 <> [] /\ c = acc + zsum m1.
Proof.
  revert acc.
  induction l as [| x l IH]; intros acc Hin; simpl in Hin; [destruct Hin |].
  destruct Hin as [<- | Hin].
  - exists [x], l. repeat split; [discriminate | unfold zsum; simpl; lia].
  - destruct (IH _ Hin) as (m1 & m2 & Hl & _ & Hc).
    exists (x :: m1), m2. rewrite Hl.
    repeat split; [discriminate | unfold zsum in *; simpl; lia].
Qed.

Lemma cumsum_abs (l : list Z) (c : Z) : In c (cumsum l) -> Z.abs c <= abs_sum l.
Proof.
  intros Hin. destruct (cumsum_from_In _ _ _ Hin) as (m1 & m2 & -> & _ & ->).
  rewrite abs_sum_app.
  pose proof (abs_sum_bound m1). pose proof (abs_sum_nonneg m2). lia.
Qed.

(** In the exact range the float64 test of the script is the exact
    comparison, on every running sum. *)
Lemma top_20_pct_exact (product_revenue : lseries) :
  abs_sum (values product_revenue) <= 2 ^ 50 ->
  zsum (values product_revenue) <> 0 ->
  top_20_pct product_revenue
  = length (filter (fun c => share_le_80 c (zsum (values product_revenue)))
                   (cumsum (values product_revenue))).
Proof.
  intros Hb Ht. unfold top_20_pct. f_equal.
  apply filter_ext_in. intros c Hc.
  pose proof (cumsum_abs _ _ Hc) as Habs.
  pose proof (abs_sum_bound (values product_revenue)) as Htot.
  apply pct_le_80_exact; [assumption | lia |].
  assert (2 ^ 50 <= 2 ^ 53) by (vm_compute; discriminate). lia.
Qed.

Lemma values_sorted (s : lseries) :
  StronglySorted value_ge s -> StronglySorted (fun a b => b <= a) (values s).
Proof.
  induction 1 as [| x s Hs IH Hx]; [constructor |].
  cbn [values map]. constructor; [exact IH |].
  unfold values. apply Forall_forall. intros v Hv.
  apply in_map_iff in Hv. destruct Hv as (y & <- & Hy).
  rewrite Forall_forall in Hx. exact (Hx y Hy).
Qed.

Lemma sorted_perm_unique (l l' : list Z) :
  StronglySorted (fun a b => b <= a) l ->
  StronglySorted (fun a b => b <= a) l' ->
  Permutation l l' -> l = l'.
Proof.
  revert l'.
  induction l as [| a l IH]; intros l' Hs Hs' Hp.
  - apply Permutation_nil in Hp. now subst.
  - destruct l' as [| b l'].
    + apply Permutation_sym, Permutation_nil in Hp. discriminate.
    + inversion Hs as [| ? ? Hl Ha]; subst.
      inversion Hs' as [| ? ? Hl' Hb]; subst.
      rewrite Forall_forall in Ha, Hb.
      assert (Hab : a = b).
      { assert (Hin1 : In a (b :: l')).
        { eapply Permutation_in; [exact Hp | now left]. }
        assert (Hin2 : In b (a :: l)).
        { eapply Permutation_in; [apply Permutation_sym; exact Hp | now left]. }
        destruct Hin1 as [H1 | H1]; [now symmetry |].
        destruct Hin2 as [H2 | H2]; [assumption |].
        specialize (Ha _ H2). specialize (Hb _ H1). lia. }
      subst b. f_equal. apply IH; [assumption | assumption |].
      now apply Permutation_cons_inv with a.
Qed.

(** The values of a ranking do not depend on the order pandas leaves
    equal totals in. *)
Lemma ranking_values_unique (r r' : lseries) :
  Permutation r r' ->
  StronglySorted value_ge r -> StronglySorted value_ge r' ->
  values r = values r'.
Proof.
  intros Hp Hs Hs'.
  apply sorted_perm_unique; try now apply values_sorted.
  unfold values. now apply Permutation_map.
Qed.

Lemma head_rows (n : nat) (s : lseries) : s <> [] -> head (S n) s <> [].
Proof. destruct s; [congruence | discriminate]. Qed.

Lemma revenue_driver_analysis_run (renders : chart -> string -> bool)
      (df : DataFrame) (products : series) (amounts : list (option Z)) :
  get_column "Product" df = Some products ->
  get_column "TotalAmount" df = Some (Numeric amounts) ->
  sort_values_desc (groupby_sum products amounts) <> [] ->
  renders (BarhChart (head 10 (sort_values_desc (groupby_sum products amounts))))
          products_chart = true ->
  revenue_driver_analysis renders df
  = ([Print (Banner "REVENUE DRIVER IDENTIFICATION");
      Print (TopProducts (head 10 (sort_values_desc (groupby_sum products amounts))));
      SaveFig products_chart;
      Print (ParetoRule (top_20_pct (sort_values_desc (groupby_sum products amounts)))
                        (length (sort_values_desc (groupby_sum products amounts))))],
     Done tt).
Proof.
  intros Hp Ha Hne Hr.
  unfold revenue_driver_analysis, banner, groupby_column_sum, column.
  assert (H1 : has_column "Product" df = true) by (apply has_column_get; eauto).
  assert (H2 : has_column "TotalAmount" df = true) by (apply has_column_get; eauto).
  rewrite H1, H2, Hp, Ha.
  unfold amounts_of, savefig, products_chart in *. step_run.
  rewrite (plot_bars_rows _ _ (head_rows 9 _ Hne)), Hr. reflexivity.
Qed.

(** C2, as stated, fails when the total revenue is zero: the only
    product of a refunded sale earns 0, the division by the zero total
    yields NaN, the count is 0, and the revenue of the top product does
    not exceed 80% of the total. *)
Lemma pareto_fails_on_zero_total :
  groupby_column_sum "Product" "TotalAmount" refunded_sale
  = ([], Done [(LStr "tea", 0)])
  /\ top_20_pct (sort_values_desc [(LStr "tea", 0)]) = 0%nat
  /\ length (sort_values_desc [(LStr "tea", 0)]) = 1%nat
  /\ ~ (80 * zsum (values (sort_values_desc [(LStr "tea", 0)]))
        < 100 * cumulative_revenue (sort_values_desc [(LStr "tea", 0)]) 1).
Proof. repeat split. vm_compute. discriminate. Qed.

(** C2, amended: on integer amounts whose absolute values add up to at
    most 2^50 and whose total is not zero, the count [n] of the 80/20
    analysis is such that the cumulative percentage the script computes
    for the top [n] products is at most 80 and that for the top [n + 1]
    products is above 80 (unless [n] is the number of products).  In
    this range the float64 percentages compare with 80 as the exact
    shares do, so with a positive total the revenue of the top [n]
    products is at most 80% of the total and that of the top [n + 1]
    exceeds it; if the top product alone exceeds 80%, the count is
    zero.  The count does not depend on the order of products with
    equal revenue.  The step prints the count and raises no error once
    the chart of its top products is written. *)
Theorem pareto_count (df : DataFrame) (products : series) (amounts : list (option Z)) :
  get_column "Product" df = Some products ->
  get_column "TotalAmount" df = Some (Numeric amounts) ->
  abs_total amounts <= 2 ^ 50 ->
  let product_revenue := sort_values_desc (groupby_sum products amounts) in
  let total_revenue := zsum (values product_revenue) in
  let n := top_20_pct product_revenue in
  total_revenue <> 0 ->
  (n <= length product_revenue)%nat
  /\ pct_le_80 (cumulative_revenue product_revenue n) total_revenue = true
  /\ ((n < length product_revenue)%nat ->
      pct_le_80 (cumulative_revenue product_revenue (S n)) total_revenue = false)
  /\ (0 < total_revenue ->
      100 * cumulative_revenue product_revenue n <= 80 * total_revenue
      /\ ((n < length product_revenue)%nat ->
          80 * total_revenue < 100 * cumulative_revenue product_revenue (S n))
      /\ (80 * total_revenue < 100 * cumulative_revenue product_revenue 1 ->
          n = 0%nat))
  /\ (forall ranking,
        Permutation ranking (groupby_sum products amounts) ->
        StronglySorted value_ge ranking ->
        values ranking = values product_revenue)
  /\ (forall renders,
        renders (BarhChart (head 10 product_revenue)) products_chart = true ->
        result (revenue_driver_analysis renders df) = Done tt
        /\ In (Print (ParetoRule n (length product_revenue)))
              (trace (revenue_driver_analysis renders df))).
Proof.
  intros Hp Ha Hbound product_revenue total_revenue n Htotal.
  assert (Hs : StronglySorted value_ge product_revenue)
    by apply sort_values_desc_sorted.
  assert (Hb : abs_sum (values product_revenue) <= 2 ^ 50).
  { unfold product_revenue.
    rewrite <- (abs_sum_perm _ _ (Permutation_map snd (sort_values_desc_perm _))).
    pose proof (groupby_sum_abs_sum products amounts). unfold values in *. lia. }
  assert (Hvals : length (values product_revenue) = length product_revenue).
  { unfold values. apply length_map. }
  assert (Hcum : forall k,
             pct_le_80 (cumulative_revenue product_revenue k) total_revenue
             = share_le_80 (cumulative_revenue product_revenue k) total_revenue).
  { intros k.
    pose proof (abs_sum_bound (values product_revenue)) as Htot.
    pose proof (abs_sum_bound (firstn k (values product_revenue))) as Hk.
    pose proof (abs_sum_firstn k (values product_revenue)) as Hfk.
    assert (2 ^ 50 <= 2 ^ 53) by (vm_compute; discriminate).
    apply pct_le_80_exact; unfold total_revenue, cumulative_revenue; lia. }
  pose proof (prefix_count_spec
                (fun c => share_le_80 c total_revenue) (values product_revenue)
                (share_closed _ Hs Htotal) (share_le_80_zero _ Htotal))
    as (Hn & Hle & Hgt & Hone).
  unfold total_revenue in Hn, Hle, Hgt, Hone.
  rewrite <- (top_20_pct_exact product_revenue Hb Htotal) in Hn, Hle, Hgt, Hone.
  fold n total_revenue in Hn, Hle, Hgt, Hone. rewrite Hvals in Hn, Hgt.
  change (zsum (firstn n (values product_revenue)))
    with (cumulative_revenue product_revenue n) in Hle.
  change (zsum (firstn (S n) (values product_revenue)))
    with (cumulative_revenue product_revenue (S n)) in Hgt.
  change (zsum (firstn 1 (values product_revenue)))
    with (cumulative_revenue product_revenue 1) in Hone.
  split; [exact Hn |].
  split; [now rewrite Hcum |].
  split; [intros Hlt; rewrite Hcum; now apply Hgt |].
  split.
  - intros Hpos. unfold share_le_80 in Hle, Hgt, Hone.
    apply Z.ltb_lt in Hpos. rewrite Hpos in Hle, Hgt, Hone.
    split; [now apply Z.leb_le |].
    split.
    + intros Hlt. apply Z.leb_gt. now apply Hgt.
    + intros H1. apply Hone. now apply Z.leb_gt.
  - split.
    + intros ranking Hperm Hsorted.
      apply ranking_values_unique; [| assumption | assumption].
      eapply perm_trans; [exact Hperm | apply sort_values_desc_perm].
    + intros renders Hr.
      assert (Hne : product_revenue <> []).
      { intros Hnil. apply Htotal. unfold total_revenue. now rewrite Hnil. }
      rewrite (revenue_driver_analysis_run _ _ _ _ Hp Ha Hne Hr).
      split; [reflexivity | simpl; tauto].
Qed.

Lemma pareto_count_witness :
  get_column "Product" star_product
  = Some (Object [Some "tea"; Some "mug"; Some "tea"; Some "pot"])
  /\ get_column "TotalAmount" star_product
     = Some (Numeric [Some 50; Some 6; Some 40; Some 4])
  /\ abs_total [Some 50; Some 6; Some 40; Some 4] <= 2 ^ 50
  /\ zsum (values (sort_values_desc
                     (groupby_sum (Object [Some "tea"; Some "mug"; Some "tea"; Some "pot"])
                                  [Some 50; Some 6; Some 40; Some 4]))) <> 0
  /\ Nat.le
       (top_20_pct
          (sort_values_desc
             (groupby_sum (Object [Some "tea"; Some "mug"; Some "tea"; Some "pot"])
                          [Some 50; Some 6; Some 40; Some 4])))
       (length
          (sort_values_desc
             (groupby_sum (Object [Some "tea"; Some "mug"; Some "tea"; Some "pot"])
                          [Some 50; Some 6; Some 40; Some 4]))).
Proof.
  assert (Hb : abs_total [Some 50; Some 6; Some 40; Some 4] <= 2 ^ 50)
    by (vm_compute; discriminate).
  assert (Hne : zsum (values (sort_values_desc
                     (groupby_sum (Object [Some "tea"; Some "mug"; Some "tea"; Some "pot"])
                                  [Some 50; Some 6; Some 40; Some 4]))) <> 0)
    by (vm_compute; discriminate).
  split; [reflexivity |]. split; [reflexivity |].
  split; [exact Hb |]. split; [exact Hne |].
  apply (pareto_count star_product
           (Object [Some "tea"; Some "mug"; Some "tea"; Some "pot"])
           [Some 50; Some 6; Some 40; Some 4] eq_refl eq_refl Hb Hne).
Defined.

(* ================================================================= *)
(** ** The steps, one by one *)

Lemma basic_statistics_run (df : DataFrame) :
  df <> [] ->
  exists stats,
    describe df = ([], Done stats)
    /\ basic_statistics df
       = ([Print (Banner "DATASET OVERVIEW");
           Print (Shape (fst (shape df)) (snd (shape df)));
           Print (Columns (columns df));
           Print (DataTypes (map (fun c => (fst c, dtype_of (snd c))) df));
           Print (MissingValues (map (fun c => (fst c, null_count (snd c))) df));
           Print (BasicStatistics stats)],
          Done tt).
Proof.
  intros Hne. unfold basic_statistics, banner.
  assert (Hd : exists stats, describe df = ([], Done stats)).
  { unfold describe. destruct df as [| c df]; [congruence |].
    destruct (describe_numeric (c :: df)); eexists; reflexivity. }
  destruct Hd as [stats Hd]. exists stats. split; [assumption |].
  rewrite Hd. reflexivity.
Qed.

Lemma sales_trends_analysis_run (renders : chart -> string -> bool) (df : DataFrame)
      (months : series) (amounts : list (option Z)) :
  get_column "Month" df = Some months ->
  get_column "TotalAmount" df = Some (Numeric amounts) ->
  renders (BarChart (groupby_sum months amounts)) monthly_chart = true ->
  groupby_sum months amounts <> [] ->
  exists best worst,
    idxmax (groupby_sum months amounts) = Some best
    /\ idxmin (groupby_sum months amounts) = Some worst
    /\ sales_trends_analysis renders df
       = ([Print (Banner "SALES TRENDS ANALYSIS");
           SaveFig monthly_chart;
           Print (MonthlySales (groupby_sum months amounts));
           Print (BestMonth best (series_max (groupby_sum months amounts)));
           Print (WorstMonth worst (series_min (groupby_sum months amounts)))],
          Done tt).
Proof.
  intros Hm Ha Hr Hne.
  unfold sales_trends_analysis, banner.
  assert (Hc : has_column "TotalAmount" df && has_column "Month" df = true).
  { apply andb_true_iff; split; apply has_column_get; eauto. }
  rewrite Hc.
  fold (monthly_sales_of df). rewrite (monthly_sales_of_eq _ _ _ Hm Ha).
  unfold savefig, monthly_chart in *.
  rewrite bind_print, bind_done, (plot_bars_rows _ _ Hne), Hr.
  destruct (groupby_sum months amounts) as [| x rest] eqn:E; [congruence |].
  eexists. eexists. split; [reflexivity |]. split; reflexivity.
Qed.

Lemma customer_behavior_analysis_run (renders : chart -> string -> bool)
      (df : DataFrame) (customers : series) (amounts : list (option Z)) :
  get_column "CustomerID" df = Some customers ->
  get_column "TotalAmount" df = Some (Numeric amounts) ->
  renders (Histogram (values (sort_values_desc (groupby_sum customers amounts))) 50)
          spending_chart = true ->
  customer_behavior_analysis renders df
  = ([Print (Banner "CUSTOMER BEHAVIOR INSIGHTS");
      Print (UniqueCustomers (nunique customers));
      Print (AveragePurchases (zsum (values (value_counts customers)))
                              (length (value_counts customers)));
      Print (TopFrequency (head 10 (value_counts customers)));
      Print (TopSpending (head 10 (sort_values_desc (groupby_sum customers amounts))));
      SaveFig spending_chart],
     Done tt).
Proof.
  intros Hc Ha Hr.
  unfold customer_behavior_analysis, banner, groupby_column_sum, column.
  assert (H1 : has_column "CustomerID" df = true) by (apply has_column_get; eauto).
  assert (H2 : has_column "TotalAmount" df = true) by (apply has_column_get; eauto).
  rewrite H1, H2, Hc, Ha.
  unfold savefig, amounts_of, spending_chart in *. step_run. rewrite Hr. reflexivity.
Qed.

Lemma customer_behavior_analysis_frequencies (renders : chart -> string -> bool)
      (df : DataFrame) (customers : series) :
  get_column "CustomerID" df = Some customers ->
  has_column "TotalAmount" df = false ->
  customer_behavior_analysis renders df
  = ([Print (Banner "CUSTOMER BEHAVIOR INSIGHTS");
      Print (UniqueCustomers (nunique customers));
      Print (AveragePurchases (zsum (values (value_counts customers)))
                              (length (value_counts customers)));
      Print (TopFrequency (head 10 (value_counts customers)))],
     Done tt).
Proof.
  intros Hc H2.
  unfold customer_behavior_analysis, banner, column.
  assert (H1 : has_column "CustomerID" df = true) by (apply has_column_get; eauto).
  rewrite H1, H2, Hc. reflexivity.
Qed.

Lemma statistical_analysis_run (renders : chart -> string -> bool) (df : DataFrame) :
  (1 < length (select_numeric df))%nat ->
  renders (Heatmap (corr (select_numeric df))) correlation_chart = true ->
  statistical_analysis renders df
  = ([Print (Banner "STATISTICAL ANALYSIS");
      SaveFig correlation_chart;
      Print (CorrelationMatrix (map fst (select_numeric df))
                               (corr (select_numeric df)))],
     Done tt).
Proof.
  intros Hn Hr. unfold statistical_analysis, banner.
  apply Nat.ltb_lt in Hn. rewrite Hn.
  unfold savefig, correlation_chart in *. rewrite Hr. reflexivity.
Qed.


Lemma generate_report_steps (renders : chart -> string -> bool) (df : DataFrame)
      (t1 t2 t3 t4 t5 : list event) :
  basic_statistics df = (t1, Done tt) ->
  sales_trends_analysis renders df = (t2, Done tt) ->
  customer_behavior_analysis renders df = (t3, Done tt) ->
  revenue_driver_analysis renders df = (t4, Done tt) ->
  statistical_analysis renders df = (t5, Done tt) ->
  generate_report renders df
  = (Print (Banner "COMPREHENSIVE RETAIL DATA ANALYSIS REPORT")
       :: t1 ++ t2 ++ t3 ++ t4 ++ t5
       ++ [Print (Text "ANALYSIS COMPLETE!");
           Print (Text "Visualizations saved in 'results/' directory")],
     Done tt).
Proof.
  intros H1 H2 H3 H4 H5. unfold generate_report, banner.
  rewrite H1, H2, H3, H4, H5. step_run. reflexivity.
Qed.


(* ================================================================= *)
(** ** A table without rows (C3) *)













(* ================================================================= *)
(** ** The image files of a full run (C9) *)

Lemma distinct_keeps_seen (keys : list (option label)) (seen : list label) :
  seen <> [] -> distinct seen keys <> [].
Proof.
  revert seen.
  induction keys as [| [k |] keys IH]; intros seen Hne; simpl;
    [assumption | | now apply IH].
  destruct (existsb (label_eqb k) seen); apply IH; [assumption |].
  destruct seen; discriminate.
Qed.

Lemma distinct_nonempty (keys : list (option label)) (seen : list label) (k : label) :
  In (Some k) keys -> distinct seen keys <> [].
Proof.
  revert seen.
  induction keys as [| [k' |] keys IH]; intros seen Hin; simpl in *;
    [destruct Hin | |].
  - destruct Hin as [Heq | Hin].
    + destruct (existsb (label_eqb k') seen) eqn:E; apply distinct_keeps_seen.
      * destruct seen; [discriminate | discriminate].
      * destruct seen; discriminate.
    + destruct (existsb (label_eqb k') seen); now apply IH.
  - destruct Hin as [Heq | Hin]; [discriminate | now apply IH].
Qed.

Lemma groupby_sum_nonempty (by_ : series) (amounts : list (option Z)) (k : label) :
  length amounts = series_length by_ ->
  In (Some k) (keys_of by_) ->
  groupby_sum by_ amounts <> [].
Proof.
  intros Hlen Hin Hnil.
  pose proof (groupby_sum_index by_ amounts Hlen) as Hperm.
  rewrite Hnil in Hperm. simpl in Hperm.
  apply Permutation_nil in Hperm.
  exact (distinct_nonempty _ _ _ Hin Hperm).
Qed.

Lemma select_numeric_In (df : DataFrame) (name : string) (xs : list (option Z)) :
  get_column name df = Some (Numeric xs) -> In (name, xs) (select_numeric df).
Proof.
  induction df as [| [n s] df IH]; intros Hg; simpl in Hg; [discriminate |].
  destruct (String.eqb name n) eqn:E.
  - apply String.eqb_eq in E. injection Hg as ->. subst n. simpl. now left.
  - specialize (IH Hg). simpl. destruct s; [right | |]; assumption.
Qed.

Lemma two_numeric_columns (df : DataFrame) (a b : string) (xs ys : list (option Z)) :
  get_column a df = Some (Numeric xs) ->
  get_column b df = Some (Numeric ys) ->
  a <> b ->
  (1 < length (select_numeric df))%nat.
Proof.
  intros Ha Hb Hne.
  apply select_numeric_In in Ha, Hb.
  destruct (select_numeric df) as [| c [| c' l]]; simpl in *; [tauto | | lia].
  destruct Ha as [Ha | []]. destruct Hb as [Hb | []]. congruence.
Qed.

(** C9, as stated, fails: the script saves four charts, not five. *)
Lemma full_run_saves_four_files_not_five :
  result (main parse_sample always_renders three_sales_csv) = Done tt
  /\ saved_files (trace (main parse_sample always_renders three_sales_csv))
     = [monthly_chart; spending_chart; products_chart; correlation_chart]
  /\ length (saved_files (trace (main parse_sample always_renders three_sales_csv)))
     <> 5%nat.
Proof. repeat split. vm_compute. discriminate. Qed.

Lemma generate_report_result (renders : chart -> string -> bool) (df : DataFrame) :
  result (generate_report renders df)
  = match result (basic_statistics df) with
    | Raised e => Raised e
    | Done _ =>
        match result (sales_trends_analysis renders df) with
        | Raised e => Raised e
        | Done _ =>
            match result (customer_behavior_analysis renders df) with
            | Raised e => Raised e
            | Done _ =>
                match result (revenue_driver_analysis renders df) with
                | Raised e => Raised e
                | Done _ =>
                    match result (statistical_analysis renders df) with
                    | Raised e => Raised e
                    | Done _ => Done tt
                    end
                end
            end
        end
    end.
Proof.
  unfold generate_report, banner. rewrite bind_print. cbn [result snd].
  rewrite !result_bind.
  destruct (result (basic_statistics df)); [| reflexivity].
  destruct (result (sales_trends_analysis renders df)); [| reflexivity].
  destruct (result (customer_behavior_analysis renders df)); [| reflexivity].
  destruct (result (revenue_driver_analysis renders df)); [| reflexivity].
  destruct (result (statistical_analysis renders df)); reflexivity.
Qed.

Lemma main_result (parse : date_parser)
      (renders : chart -> string -> bool) (csv : DataFrame) :
  result (main parse renders csv)
  = match result (load_data parse csv) with
    | Raised e => Raised e
    | Done df =>
        match result (generate_report renders df) with
        | Raised e => Raised e
        | Done _ => Done tt
        end
    end.
Proof.
  unfold main, banner. rewrite result_bind.
  destruct (result (load_data parse csv)) as [df | e]; [| reflexivity].
  rewrite result_bind.
  destruct (result (generate_report renders df)) as [[] | e]; [| reflexivity].
  step_run. reflexivity.
Qed.

(** A step whose chart is refused by the drawing code or by the image
    sink stops with that error. *)
Lemma sales_trends_analysis_refused (renders : chart -> string -> bool)
      (df : DataFrame) (months : series) (amounts : list (option Z)) :
  get_column "Month" df = Some months ->
  get_column "TotalAmount" df = Some (Numeric amounts) ->
  groupby_sum months amounts <> [] ->
  renders (BarChart (groupby_sum months amounts)) monthly_chart = false ->
  sales_trends_analysis renders df
  = ([Print (Banner "SALES TRENDS ANALYSIS")], Raised RenderError).
Proof.
  intros Hm Ha Hne Hr.
  unfold sales_trends_analysis, banner.
  assert (Hc : has_column "TotalAmount" df && has_column "Month" df = true).
  { apply andb_true_iff; split; apply has_column_get; eauto. }
  rewrite Hc.
  fold (monthly_sales_of df). rewrite (monthly_sales_of_eq _ _ _ Hm Ha).
  unfold savefig, monthly_chart in *.
  rewrite bind_print, bind_done, (plot_bars_rows _ _ Hne), Hr. reflexivity.
Qed.

Lemma customer_behavior_analysis_refused (renders : chart -> string -> bool)
      (df : DataFrame) (customers : series) (amounts : list (option Z)) :
  get_column "CustomerID" df = Some customers ->
  get_column "TotalAmount" df = Some (Numeric amounts) ->
  renders (Histogram (values (sort_values_desc (groupby_sum customers amounts))) 50)
          spending_chart = false ->
  result (customer_behavior_analysis renders df) = Raised RenderError.
Proof.
  intros Hc Ha Hr.
  unfold customer_behavior_analysis, banner, groupby_column_sum, column.
  assert (H1 : has_column "CustomerID" df = true) by (apply has_column_get; eauto).
  assert (H2 : has_column "TotalAmount" df = true) by (apply has_column_get; eauto).
  rewrite H1, H2, Hc, Ha.
  unfold savefig, amounts_of, spending_chart in *. step_run. rewrite Hr. reflexivity.
Qed.

Lemma revenue_driver_analysis_refused (renders : chart -> string -> bool)
      (df : DataFrame) (products : series) (amounts : list (option Z)) :
  get_column "Product" df = Some products ->
  get_column "TotalAmount" df = Some (Numeric amounts) ->
  sort_values_desc (groupby_sum products amounts) <> [] ->
  renders (BarhChart (head 10 (sort_values_desc (groupby_sum products amounts))))
          products_chart = false ->
  result (revenue_driver_analysis renders df) = Raised RenderError.
Proof.
  intros Hp Ha Hne Hr.
  unfold revenue_driver_analysis, banner, groupby_column_sum, column.
  assert (H1 : has_column "Product" df = true) by (apply has_column_get; eauto).
  assert (H2 : has_column "TotalAmount" df = true) by (apply has_column_get; eauto).
  rewrite H1, H2, Hp, Ha.
  unfold amounts_of, savefig, products_chart in *. step_run.
  rewrite (plot_bars_rows _ _ (head_rows 9 _ Hne)), Hr. reflexivity.
Qed.

Lemma statistical_analysis_refused (renders : chart -> string -> bool)
      (df : DataFrame) :
  (1 < length (select_numeric df))%nat ->
  renders (Heatmap (corr (select_numeric df))) correlation_chart = false ->
  result (statistical_analysis renders df) = Raised RenderError.
Proof.
  intros Hn Hr. unfold statistical_analysis, banner.
  apply Nat.ltb_lt in Hn. rewrite Hn.
  unfold savefig, correlation_chart in *. rewrite Hr. reflexivity.
Qed.

Lemma sort_values_desc_rows (l : lseries) : l <> [] -> sort_values_desc l <> [].
Proof.
  intros Hne Hnil. apply Hne.
  pose proof (sort_values_desc_length l) as Hlen. rewrite Hnil in Hlen.
  symmetry in Hlen. now apply length_zero_iff_nil in Hlen.
Qed.

(** C9, amended: on a table that holds the timestamp, customer, product
    and (numeric) monetary columns, whose dates all parse, one of whose
    rows at least is dated and one at least names a product, a full
    run completes exactly when its four charts are drawn and written;
    it can only be stopped by a chart that the drawing code or the
    image sink refuses; and a run that completes has written exactly
    four image files, each with a fixed name, in this order. *)
Theorem full_run_saves_four_charts
        (parse : date_parser)
        (renders : chart -> string -> bool) (csv : DataFrame)
        (raw customers products : series) (amounts cells : list (option Z))
        (ns : Z) (product : label) :
  get_column "InvoiceDate" csv = Some raw ->
  get_column "CustomerID" csv = Some customers ->
  get_column "Product" csv = Some products ->
  get_column "TotalAmount" csv = Some (Numeric amounts) ->
  result (to_datetime parse raw) = Done cells ->
  length amounts = length cells ->
  length amounts = series_length products ->
  In (Some ns) cells ->
  In (Some product) (keys_of products) ->
  (result (main parse renders csv) = Done tt
   \/ result (main parse renders csv) = Raised RenderError)
  /\ (result (main parse renders csv) = Done tt ->
      saved_files (trace (main parse renders csv))
      = [monthly_chart; spending_chart; products_chart; correlation_chart])
  /\ (result (main parse renders csv) = Done tt
      <-> renders (BarChart (groupby_sum (dt_field Calendar.month_of cells) amounts))
                  monthly_chart = true
          /\ renders (Histogram (values (sort_values_desc
                                           (groupby_sum customers amounts))) 50)
                     spending_chart = true
          /\ renders (BarhChart (head 10 (sort_values_desc
                                            (groupby_sum products amounts))))
                     products_chart = true
          /\ renders (Heatmap (corr (select_numeric (with_calendar cells csv))))
                     correlation_chart = true).
Proof.
  intros Hraw Hc Hp Ha Hcells Hlen Hlenp Hdated Hprod.
  set (df := with_calendar cells csv).
  assert (Hload : load_data parse csv
                  = ([Print (Text "Loading retail data...")], Done df)).
  { rewrite (load_data_with_timestamp _ _ _ Hraw), Hcells. reflexivity. }
  destruct (with_calendar_columns cells csv) as (_ & Hy & Hm & _).
  fold df in Hy, Hm.
  assert (Hother : forall name s,
             ~ In name ("InvoiceDate" :: derived_columns) ->
             get_column name csv = Some s -> get_column name df = Some s).
  { intros name s Hn Hg. unfold df. now rewrite with_calendar_other. }
  assert (Hc' : get_column "CustomerID" df = Some customers).
  { apply Hother; [| assumption]. simpl. intuition discriminate. }
  assert (Hp' : get_column "Product" df = Some products).
  { apply Hother; [| assumption]. simpl. intuition discriminate. }
  assert (Ha' : get_column "TotalAmount" df = Some (Numeric amounts)).
  { apply Hother; [| assumption]. simpl. intuition discriminate. }
  assert (Hne : df <> []).
  { intros Hnil. rewrite Hnil in Ha'. discriminate. }
  assert (Hms : groupby_sum (dt_field Calendar.month_of cells) amounts <> []).
  { apply (groupby_sum_nonempty _ _ (LInt (Calendar.month_of ns))).
    - unfold dt_field. simpl. now rewrite length_map.
    - unfold dt_field. simpl. rewrite map_map.
      apply in_map_iff. exists (Some ns). split; [reflexivity | assumption]. }
  assert (Hrev : sort_values_desc (groupby_sum products amounts) <> []).
  { apply sort_values_desc_rows. now apply (groupby_sum_nonempty _ _ product). }
  assert (Hnum : (1 < length (select_numeric df))%nat).
  { apply (two_numeric_columns df "Year" "Month" _ _ Hy Hm). discriminate. }
  destruct (basic_statistics_run df Hne) as (stats & _ & H1).
  set (b1 := renders (BarChart (groupby_sum (dt_field Calendar.month_of cells) amounts))
                     monthly_chart).
  set (b2 := renders (Histogram (values (sort_values_desc
                                           (groupby_sum customers amounts))) 50)
                     spending_chart).
  set (b3 := renders (BarhChart (head 10 (sort_values_desc
                                            (groupby_sum products amounts))))
                     products_chart).
  set (b4 := renders (Heatmap (corr (select_numeric df))) correlation_chart).
  assert (Hres : result (main parse renders csv)
                 = if b1 && b2 && b3 && b4 then Done tt else Raised RenderError).
  { rewrite main_result, Hload. cbn [result snd].
    rewrite generate_report_result, H1. cbn [result snd].
    destruct b1 eqn:B1.
    - destruct (sales_trends_analysis_run renders df _ _ Hm Ha' B1 Hms)
        as (best & worst & _ & _ & ->). cbn [result snd].
      destruct b2 eqn:B2.
      + rewrite (customer_behavior_analysis_run renders df _ _ Hc' Ha' B2).
        cbn [result snd].
        destruct b3 eqn:B3.
        * rewrite (revenue_driver_analysis_run renders df _ _ Hp' Ha' Hrev B3).
          cbn [result snd].
          destruct b4 eqn:B4.
          -- now rewrite (statistical_analysis_run renders df Hnum B4).
          -- now rewrite (statistical_analysis_refused renders df Hnum B4).
        * now rewrite (revenue_driver_analysis_refused renders df _ _ Hp' Ha' Hrev B3).
      + now rewrite (customer_behavior_analysis_refused renders df _ _ Hc' Ha' B2).
    - now rewrite (sales_trends_analysis_refused renders df _ _ Hm Ha' Hms B1). }
  assert (Hfiles : b1 && b2 && b3 && b4 = true ->
                   saved_files (trace (main parse renders csv))
                   = [monthly_chart; spending_chart; products_chart;
                      correlation_chart]).
  { intros Hb. apply andb_true_iff in Hb. destruct Hb as [Hb B4].
    apply andb_true_iff in Hb. destruct Hb as [Hb B3].
    apply andb_true_iff in Hb. destruct Hb as [B1 B2].
    destruct (sales_trends_analysis_run renders df _ _ Hm Ha' B1 Hms)
      as (best & worst & _ & _ & H2).
    pose proof (customer_behavior_analysis_run renders df _ _ Hc' Ha' B2) as H3.
    pose proof (revenue_driver_analysis_run renders df _ _ Hp' Ha' Hrev B3) as H4.
    pose proof (statistical_analysis_run renders df Hnum B4) as H5.
    pose proof (generate_report_steps _ _ _ _ _ _ _ H1 H2 H3 H4 H5) as Hrep.
    unfold main, banner. rewrite Hload, bind_done, Hrep.
    step_run. reflexivity. }
  split; [| split].
  - rewrite Hres. destruct (b1 && b2 && b3 && b4); [now left | now right].
  - intros Hdone. apply Hfiles.
    rewrite Hres in Hdone. destruct (b1 && b2 && b3 && b4); [reflexivity | discriminate].
  - rewrite Hres. fold df b1 b2 b3 b4. clearbody b1 b2 b3 b4.
    destruct b1, b2, b3, b4; cbn [andb]; split;
      try (intros H; discriminate H);
      try (intros (B1 & B2 & B3 & B4); congruence);
      intros _; repeat split; reflexivity.
Qed.

Lemma full_run_saves_four_charts_witness :
  get_column "InvoiceDate" three_sales_csv
  = Some (Object [Some "2021-03-01"; Some "2021-04-15"; Some "2022-01-10"])
  /\ result (to_datetime parse_sample
                         (Object [Some "2021-03-01"; Some "2021-04-15";
                                  Some "2022-01-10"]))
     = Done [Some 1614556800000000000; Some 1618444800000000000;
             Some 1641772800000000000]
  /\ result (main parse_sample always_renders three_sales_csv) = Done tt
  /\ saved_files (trace (main parse_sample always_renders three_sales_csv))
     = [monthly_chart; spending_chart; products_chart; correlation_chart].
Proof.
  split; [reflexivity |]. split; [reflexivity |].
  destruct (full_run_saves_four_charts parse_sample always_renders three_sales_csv
              (Object [Some "2021-03-01"; Some "2021-04-15"; Some "2022-01-10"])
              (Object [Some "A"; Some "B"; Some "A"])
              (Object [Some "tea"; Some "mug"; Some "tea"])
              [Some 10; Some 6; Some 20]
              [Some 1614556800000000000; Some 1618444800000000000;
               Some 1641772800000000000]
              1614556800000000000 (LStr "tea")
              eq_refl eq_refl eq_refl eq_refl eq_refl eq_refl eq_refl
              ltac:(now left) ltac:(now left))
    as (_ & Hfiles & Hdone).
  assert (Hres : result (main parse_sample always_renders three_sales_csv) = Done tt).
  { apply Hdone. repeat split; reflexivity. }
  split; [exact Hres | exact (Hfiles Hres)].
Defined.

(* ================================================================= *)
(** ** Correlation (C6) *)

Section Welford.

Local Open Scope Q_scope.

Ltac compare_to_prop H :=
  match type of H with
  | _ = Eq => apply Qeq_alt in H
  | _ = Lt => apply Qlt_alt in H
  | _ = Gt => apply Qgt_alt in H
  end.


















#[local] Instance float64_proper : Proper (Qeq ==> Qeq) float64.
Proof. intros x y H. now apply float64_comp. Qed.

#[local] Instance fadd_proper : Proper (Qeq ==> Qeq ==> Qeq) fadd.
Proof. intros x x' Hx y y' Hy. unfold fadd. now rewrite Hx, Hy. Qed.

#[local] Instance fsub_proper : Proper (Qeq ==> Qeq ==> Qeq) fsub.
Proof. intros x x' Hx y y' Hy. unfold fsub. now rewrite Hx, Hy. Qed.

#[local] Instance fmul_proper : Proper (Qeq ==> Qeq ==> Qeq) fmul.
Proof. intros x x' Hx y y' Hy. unfold fmul. now rewrite Hx, Hy. Qed.

#[local] Instance fdiv_proper : Proper (Qeq ==> Qeq ==> Qeq) fdiv.
Proof. intros x x' Hx y y' Hy. unfold fdiv. now rewrite Hx, Hy. Qed.









































End Welford.






(** Two integers too close for float64 read as one value: the column
    varies, and its diagonal entry is NaN all the same. *)
Lemma close_values_collapse :
  to_float (10 ^ 17) = to_float (10 ^ 17 + 1)
  /\ nancorr_pair [Some (10 ^ 17); Some (10 ^ 17 + 1)]
                  [Some (10 ^ 17); Some (10 ^ 17 + 1)] = None.
Proof. split; vm_compute; reflexivity. Qed.



(* ================================================================= *)
(** ** More on loading *)

Lemma parse_cells_raises (parse : string -> error + option Z)
      (xs : list (option string)) (e : error) :
  result (parse_cells parse xs) = Raised e
  <-> exists pre s post,
        xs = pre ++ Some s :: post
        /\ parse s = inl e
        /\ forall s', In (Some s') pre -> exists cell, parse s' = inr cell.
Proof.
  induction xs as [| [s |] xs IH]; cbn [parse_cells].
  - split; [discriminate |].
    intros (pre & s & post & E & _). now destruct pre.
  - destruct (parse s) as [e0 | cell] eqn:Hs.
    + split.
      * intros H. injection H as <-. exists [], s, xs.
        split; [reflexivity |]. split; [assumption | intros s' []].
      * intros (pre & s1 & post & E & Hp & Hpre).
        destruct pre as [| c pre]; cbn [app] in E; injection E as E1 E2.
        -- subst s1. rewrite Hs in Hp. now injection Hp as ->.
        -- subst c. destruct (Hpre s ltac:(now left)) as [cell Hc]. congruence.
    + rewrite result_bind.
      destruct (result (parse_cells parse xs)) as [cells | e'] eqn:Hr.
      * split; [discriminate |].
        intros (pre & s1 & post & E & Hp & Hpre).
        destruct pre as [| c pre]; cbn [app] in E; injection E as E1 E2.
        -- subst s1. congruence.
        -- destruct IH as [_ IH]. exfalso.
           enough (Hno : Done cells = Raised e) by discriminate.
           apply IH.
           exists pre, s1, post. split; [assumption |]. split; [assumption |].
           intros s' Hin. apply Hpre. now right.
      * split.
        -- intros H. injection H as <-. destruct IH as [IH _].
           destruct (IH eq_refl) as (pre & s1 & post & -> & Hp & Hpre).
           exists (Some s :: pre), s1, post. split; [reflexivity |].
           split; [assumption |].
           intros s' [E | Hin]; [injection E as <-; now exists cell | now apply Hpre].
        -- intros (pre & s1 & post & E & Hp & Hpre).
           destruct pre as [| c pre]; cbn [app] in E; injection E as E1 E2.
           ++ subst s1. congruence.
           ++ destruct IH as [_ IH]. apply IH.
              exists pre, s1, post. split; [assumption |]. split; [assumption |].
              intros s' Hin. apply Hpre. now right.
  - rewrite result_bind.
    destruct (result (parse_cells parse xs)) as [cells | e'] eqn:Hr.
    + split; [discriminate |].
      intros (pre & s1 & post & E & Hp & Hpre).
      destruct pre as [| c pre]; cbn [app] in E; [discriminate |].
      injection E as E1 E2.
      destruct IH as [_ IH]. exfalso.
      enough (Hno : Done cells = Raised e) by discriminate.
      apply IH.
      exists pre, s1, post. split; [assumption |]. split; [assumption |].
      intros s' Hin. apply Hpre. now right.
    + split.
      * intros H. injection H as <-. destruct IH as [IH _].
        destruct (IH eq_refl) as (pre & s1 & post & -> & Hp & Hpre).
        exists (None :: pre), s1, post. split; [reflexivity |].
        split; [assumption |].
        intros s' [E | Hin]; [discriminate | now apply Hpre].
      * intros (pre & s1 & post & E & Hp & Hpre).
        destruct pre as [| c pre]; cbn [app] in E; [discriminate |].
        injection E as E1 E2.
        destruct IH as [_ IH]. apply IH.
        exists pre, s1, post. split; [assumption |]. split; [assumption |].
        intros s' Hin. apply Hpre. now right.
Qed.

Lemma cast_ns_cases (z : Z) :
  (cast_ns z = raise OutOfBoundsDatetime /\ (z < - 2 ^ 63 \/ 2 ^ 63 <= z))
  \/ (exists cell, cast_ns z = ret cell /\ - 2 ^ 63 <= z < 2 ^ 63
                   /\ (cell = None <-> z = - 2 ^ 63)
                   /\ (cell = None \/ cell = Some z)).
Proof.
  unfold cast_ns.
  destruct ((z <? - 2 ^ 63) || (2 ^ 63 <=? z))%bool eqn:E.
  - left. split; [reflexivity |].
    apply orb_true_iff in E. destruct E as [E | E]; bool_to_prop; lia.
  - right. apply orb_false_iff in E. destruct E as [E1 E2]. bool_to_prop.
    destruct (z =? - 2 ^ 63) eqn:E3; bool_to_prop.
    + exists None. split; [reflexivity |]. split; [lia |].
      split; [tauto | now left].
    + exists (Some z). split; [reflexivity |]. split; [lia |].
      split; [| now right]. split; [discriminate | contradiction].
Qed.

Lemma cast_cells_raises (xs : list (option Z)) (e : error) :
  result (cast_cells xs) = Raised e
  <-> e = OutOfBoundsDatetime
      /\ exists z, In (Some z) xs /\ (z < - 2 ^ 63 \/ 2 ^ 63 <= z).
Proof.
  induction xs as [| [z |] xs IH]; cbn [cast_cells].
  - split; [discriminate | intros (_ & z & [] & _)].
  - destruct (cast_ns_cases z) as [[-> Hz] | (cell & -> & Hz & _)].
    + split.
      * intros H. injection H as <-. split; [reflexivity |].
        exists z. split; [now left | assumption].
      * intros (-> & _). reflexivity.
    + rewrite bind_ret, result_bind.
      destruct (result (cast_cells xs)) as [cells | e'] eqn:Hr.
      * split; [discriminate |].
        intros (He & z' & [E | Hin] & Hz').
        -- injection E as <-. lia.
        -- destruct IH as [_ IH]. exfalso.
           enough (Hno : Done cells = Raised e) by discriminate.
           apply IH.
           split; [assumption |]. now exists z'.
      * split.
        -- intros H. injection H as <-. destruct IH as [IH _].
           destruct (IH eq_refl) as (He & z' & Hin & Hz').
           split; [assumption |]. exists z'. split; [now right | assumption].
        -- intros (He & z' & [E | Hin] & Hz').
           ++ injection E as <-. lia.
           ++ destruct IH as [_ IH]. apply IH.
              split; [assumption |]. now exists z'.
  - rewrite result_bind.
    destruct (result (cast_cells xs)) as [cells | e'] eqn:Hr.
    + split; [discriminate |].
      intros (He & z' & [E | Hin] & Hz'); [discriminate |].
      destruct IH as [_ IH]. exfalso.
      enough (Hno : Done cells = Raised e) by discriminate.
      apply IH.
      split; [assumption |]. now exists z'.
    + split.
      * intros H. injection H as <-. destruct IH as [IH _].
        destruct (IH eq_refl) as (He & z' & Hin & Hz').
        split; [assumption |]. exists z'. split; [now right | assumption].
      * intros (He & z' & [E | Hin] & Hz'); [discriminate |].
        destruct IH as [_ IH]. apply IH. split; [assumption |]. now exists z'.
Qed.

Lemma count_null_cons {A : Type} (c : option A) (cells : list (option A)) :
  count_null (c :: cells)
  = ((match c with Some _ => 0 | None => 1 end) + count_null cells)%nat.
Proof. unfold count_null. destruct c; reflexivity. Qed.

Lemma parse_cells_length (parse : string -> error + option Z)
      (xs : list (option string)) (cells : list (option Z)) :
  result (parse_cells parse xs) = Done cells ->
  length cells = length xs /\ (count_null xs <= count_null cells)%nat.
Proof.
  revert cells.
  induction xs as [| [s |] xs IH]; intros cells; cbn [parse_cells].
  - intros H. injection H as <-. split; [reflexivity | apply Nat.le_refl].
  - destruct (parse s) as [e | cell]; [discriminate |].
    rewrite result_bind.
    destruct (result (parse_cells parse xs)) as [cells' |]; [| discriminate].
    intros H. injection H as <-. destruct (IH cells' eq_refl) as [H1 H2].
    rewrite !count_null_cons. cbn [length]. destruct cell; lia.
  - rewrite result_bind.
    destruct (result (parse_cells parse xs)) as [cells' |]; [| discriminate].
    intros H. injection H as <-. destruct (IH cells' eq_refl) as [H1 H2].
    rewrite !count_null_cons. cbn [length]. lia.
Qed.

Lemma cast_cells_length (xs cells : list (option Z)) :
  result (cast_cells xs) = Done cells ->
  length cells = length xs /\ (count_null xs <= count_null cells)%nat.
Proof.
  revert cells.
  induction xs as [| [z |] xs IH]; intros cells; cbn [cast_cells].
  - intros H. injection H as <-. split; [reflexivity | apply Nat.le_refl].
  - destruct (cast_ns_cases z) as [[-> _] | (cell & -> & _)]; [discriminate |].
    rewrite bind_ret, result_bind.
    destruct (result (cast_cells xs)) as [cells' |]; [| discriminate].
    intros H. injection H as <-. destruct (IH cells' eq_refl) as [H1 H2].
    rewrite !count_null_cons. cbn [length]. destruct cell; lia.
  - rewrite result_bind.
    destruct (result (cast_cells xs)) as [cells' |]; [| discriminate].
    intros H. injection H as <-. destruct (IH cells' eq_refl) as [H1 H2].
    rewrite !count_null_cons. cbn [length]. lia.
Qed.

Lemma to_datetime_length (parse : date_parser)
      (raw : series) (cells : list (option Z)) :
  result (to_datetime parse raw) = Done cells ->
  length cells = series_length raw /\ (null_count raw <= count_null cells)%nat.
Proof.
  destruct raw as [xs | xs | xs]; cbn [to_datetime series_length null_count].
  - apply cast_cells_length.
  - apply parse_cells_length.
  - intros H. injection H as <-. split; [reflexivity | apply Nat.le_refl].
Qed.

(** X1: once the table is read, loading fails exactly on a timestamp
    column it cannot convert.  The run raises [e] exactly when the
    column is a text column and [e] is the error of its first cell that
    the parser rejects, or the column is a numeric column with a cell
    outside int64 and [e] is [OutOfBoundsDatetime]; only the loading
    message has been printed, and the script stops there. *)
Theorem load_data_failure (parse : date_parser)
        (renders : chart -> string -> bool) (df : DataFrame) (e : error) :
  trace (load_data parse df) = [loading_message]
  /\ (result (load_data parse df) = Raised e
      <-> (exists xs pre s post,
              get_column "InvoiceDate" df = Some (Object xs)
              /\ xs = pre ++ Some s :: post
              /\ parse xs s = inl e
              /\ forall s', In (Some s') pre -> exists cell, parse xs s' = inr cell)
          \/ (e = OutOfBoundsDatetime
              /\ exists xs z,
                  get_column "InvoiceDate" df = Some (Numeric xs)
                  /\ In (Some z) xs /\ (z < - 2 ^ 63 \/ 2 ^ 63 <= z)))
  /\ (result (load_data parse df) = Raised e ->
      main parse renders df = ([loading_message], Raised e)).
Proof.
  assert (Hshape : load_data parse df
                   = ([loading_message], result (load_data parse df))).
  { destruct (has_column "InvoiceDate" df) eqn:Hts.
    - apply has_column_get in Hts. destruct Hts as [raw Hraw].
      now rewrite (load_data_with_timestamp _ _ _ Hraw).
    - now rewrite (load_data_without_timestamp _ _ Hts). }
  split; [now rewrite Hshape |].
  split.
  - destruct (has_column "InvoiceDate" df) eqn:Hts.
    + apply has_column_get in Hts. destruct Hts as [raw Hraw].
      rewrite (load_data_with_timestamp _ _ _ Hraw). cbn [result snd].
      assert (Hconv : result (to_datetime parse raw) = Raised e
                      <-> (exists xs pre s post,
                              raw = Object xs
                              /\ xs = pre ++ Some s :: post
                              /\ parse xs s = inl e
                              /\ forall s', In (Some s') pre ->
                                            exists cell, parse xs s' = inr cell)
                          \/ (e = OutOfBoundsDatetime
                              /\ exists xs z,
                                  raw = Numeric xs
                                  /\ In (Some z) xs
                                  /\ (z < - 2 ^ 63 \/ 2 ^ 63 <= z))).
      { destruct raw as [xs | xs | xs]; cbn [to_datetime].
        - rewrite cast_cells_raises. split.
          + intros (He & z & Hin & Hz). right. split; [assumption |].
            exists xs, z. now repeat split.
          + intros [(xs' & pre & s & post & E & _) | (He & xs' & z & E & Hin & Hz)];
              [discriminate |].
            injection E as <-. split; [assumption |]. now exists z.
        - rewrite parse_cells_raises. split.
          + intros (pre & s & post & E & Hp & Hpre). left.
            exists xs, pre, s, post. now repeat split.
          + intros [(xs' & pre & s & post & E & E' & Hp & Hpre) | (_ & xs' & z & E & _)];
              [| discriminate].
            injection E as <-. exists pre, s, post. now repeat split.
        - split; [discriminate |].
          intros [(xs' & pre & s & post & E & _) | (_ & xs' & z & E & _)];
            discriminate. }
      destruct (result (to_datetime parse raw)) as [cells | e'] eqn:Hr.
      * split; [discriminate |]. intros H.
        assert (Hfalse : Done cells = Raised e); [| discriminate].
        apply Hconv.
        destruct H as [(xs & pre & s & post & Hg & H) | (He & xs & z & Hg & H)];
          rewrite Hraw in Hg; injection Hg as ->; [left | right].
        -- now exists xs, pre, s, post.
        -- split; [assumption |]. now exists xs, z.
      * split.
        -- intros H. injection H as ->.
           destruct Hconv as [Hconv _].
           destruct (Hconv eq_refl)
             as [(xs & pre & s & post & -> & H) | (He & xs & z & -> & H)];
             [left | right].
           ++ now exists xs, pre, s, post.
           ++ split; [assumption |]. now exists xs, z.
        -- intros H. f_equal.
           assert (Hre : Raised e' = Raised e :> outcome (list (option Z)));
             [| now injection Hre].
           apply Hconv.
           destruct H as [(xs & pre & s & post & Hg & H) | (He & xs & z & Hg & H)];
             rewrite Hraw in Hg; injection Hg as ->; [left | right].
           ++ now exists xs, pre, s, post.
           ++ split; [assumption |]. now exists xs, z.
    + rewrite (load_data_without_timestamp _ _ Hts). cbn [result snd].
      split; [discriminate |].
      apply has_column_false in Hts.
      intros [(xs & pre & s & post & Hg & _) | (_ & xs & z & Hg & _)]; congruence.
  - intros Hr. unfold main. rewrite Hshape, Hr. reflexivity.
Qed.

Lemma load_data_failure_witness :
  result (load_data parse_sample bad_date_csv) = Raised ValueError
  /\ main parse_sample always_renders bad_date_csv
     = ([loading_message], Raised ValueError).
Proof.
  split; [reflexivity |].
  destruct (load_data_failure parse_sample always_renders bad_date_csv ValueError)
    as (_ & _ & Hmain).
  apply Hmain. reflexivity.
Defined.

(** A numeric timestamp beyond int64 stops the load as well. *)
Lemma load_data_out_of_bounds :
  result (load_data parse_sample [("InvoiceDate", Numeric [Some 0; Some (2 ^ 63)])])
  = Raised OutOfBoundsDatetime.
Proof. reflexivity. Qed.

Lemma set_column_same (name : string) (s : series) (df : DataFrame) :
  get_column name df = Some s -> set_column name s df = df.
Proof.
  induction df as [| [n s0] df IH]; simpl; [discriminate |].
  destruct (String.eqb name n) eqn:E.
  - intros H. injection H as ->. reflexivity.
  - intros H. now rewrite IH.
Qed.

Lemma with_calendar_again (cells : list (option Z)) (df : DataFrame) :
  with_calendar cells (with_calendar cells df) = with_calendar cells df.
Proof.
  destruct (with_calendar_columns cells df) as (Hc & Hy & Hm & Hd & Hw).
  set (df' := with_calendar cells df) in *.
  unfold with_calendar at 1.
  now rewrite (set_column_same _ _ _ Hc), (set_column_same _ _ _ Hy),
    (set_column_same _ _ _ Hm), (set_column_same _ _ _ Hd),
    (set_column_same _ _ _ Hw).
Qed.

(** X2: loading is idempotent.  A table that [load_data] returned is
    returned unchanged when it is loaded again: the timestamps are
    already converted and the calendar columns are recomputed to the
    same cells. *)
Theorem load_data_idempotent (parse : date_parser) (df df' : DataFrame) :
  result (load_data parse df) = Done df' ->
  load_data parse df' = ([loading_message], Done df').
Proof.
  intros Hload.
  destruct (has_column "InvoiceDate" df) eqn:Hts.
  - apply has_column_get in Hts. destruct Hts as [raw Hraw].
    rewrite (load_data_with_timestamp _ _ _ Hraw) in Hload. cbn [result snd] in Hload.
    destruct (result (to_datetime parse raw)) as [cells | e]; [| discriminate].
    injection Hload as <-.
    destruct (with_calendar_columns cells df) as (Hc & _).
    rewrite (load_data_with_timestamp _ _ _ Hc). cbn [to_datetime result snd ret].
    now rewrite with_calendar_again.
  - rewrite (load_data_without_timestamp _ _ Hts) in Hload.
    injection Hload as <-. now apply load_data_without_timestamp.
Qed.

Lemma load_data_idempotent_witness :
  result (load_data parse_sample three_sales_csv)
  = Done (with_calendar [Some 1614556800000000000; Some 1618444800000000000;
                         Some 1641772800000000000] three_sales_csv)
  /\ load_data parse_sample
       (with_calendar [Some 1614556800000000000; Some 1618444800000000000;
                       Some 1641772800000000000] three_sales_csv)
     = ([loading_message],
        Done (with_calendar [Some 1614556800000000000; Some 1618444800000000000;
                             Some 1641772800000000000] three_sales_csv)).
Proof.
  split; [reflexivity |].
  apply (load_data_idempotent parse_sample three_sales_csv). reflexivity.
Defined.

Lemma set_column_aligned (n : nat) (name : string) (s : series) (df : DataFrame) :
  rows_aligned n df -> series_length s = n -> rows_aligned n (set_column name s df).
Proof.
  unfold rows_aligned. intros Hdf Hs.
  induction df as [| [m s0] df IH]; simpl.
  - constructor; [assumption | constructor].
  - apply Forall_cons_iff in Hdf. destruct Hdf as [H0 Hrest].
    destruct (String.eqb name m); constructor; auto.
Qed.

Lemma rows_aligned_column (n : nat) (df : DataFrame) (name : string) (s : series) :
  rows_aligned n df -> get_column name df = Some s -> series_length s = n.
Proof.
  unfold rows_aligned.
  induction df as [| [m s0] df IH]; intros Hz Hg; simpl in Hg; [discriminate |].
  apply Forall_cons_iff in Hz. destruct Hz as [H0 Hrest].
  destruct (String.eqb name m); [injection Hg as <-; exact H0 | now apply IH].
Qed.

Lemma count_null_map (f : Z -> Z) (cells : list (option Z)) :
  count_null (map (option_map f) cells) = count_null cells.
Proof.
  unfold count_null.
  induction cells as [| [c |] cells IH]; simpl; [reflexivity | assumption |].
  now rewrite IH.
Qed.

(** X3: loading keeps the table rectangular.  When every column of the
    input holds [n] rows, so does every column of the loaded table, the
    four calendar columns included; the converted timestamp column has
    at least as many missing cells as the column that was read (a text
    that stands for a missing date, or the integer that is the bit
    pattern of NaT, becomes missing); each calendar column is numeric
    and is missing exactly on the rows whose converted timestamp is
    missing. *)
Theorem load_data_keeps_rows (parse : date_parser)
        (n : nat) (df df' : DataFrame) (raw : series) :
  rows_aligned n df ->
  get_column "InvoiceDate" df = Some raw ->
  result (load_data parse df) = Done df' ->
  rows_aligned n df'
  /\ exists cells,
      get_column "InvoiceDate" df' = Some (Datetime cells)
      /\ length cells = n
      /\ (null_count raw <= count_null cells)%nat
      /\ forall name,
          In name derived_columns ->
          exists xs,
            get_column name df' = Some (Numeric xs)
            /\ length xs = n
            /\ count_null xs = count_null cells
            /\ forall i, nth i xs None = None <-> nth i cells None = None.
Proof.
  intros Hal Hraw Hload.
  rewrite (load_data_with_timestamp _ _ _ Hraw) in Hload. cbn [result snd] in Hload.
  destruct (result (to_datetime parse raw)) as [cells | e] eqn:Hcells;
    [| discriminate].
  injection Hload as <-.
  destruct (to_datetime_length _ _ _ Hcells) as [Hlen Hnull].
  rewrite (rows_aligned_column _ _ _ _ Hal Hraw) in Hlen.
  split.
  - unfold with_calendar.
    repeat apply set_column_aligned; try assumption;
      unfold dt_field; simpl; now rewrite ?length_map.
  - exists cells.
    destruct (with_calendar_columns cells df) as (Hc & Hy & Hm & Hd & Hw).
    split; [assumption |]. split; [assumption |]. split; [assumption |].
    assert (Hfield : forall f : Z -> Z,
               length (map (option_map f) cells) = n
               /\ count_null (map (option_map f) cells) = count_null cells
               /\ forall i, nth i (map (option_map f) cells) None = None
                            <-> nth i cells None = None).
    { intros f. split; [now rewrite length_map |].
      split; [now rewrite count_null_map |].
      intros i. change None with (option_map f None) at 1.
      rewrite map_nth. destruct (nth i cells None); simpl; split;
        intros H; (discriminate || reflexivity). }
    intros name Hin. unfold derived_columns in Hin. simpl in Hin.
    destruct Hin as [<- | [<- | [<- | [<- | []]]]]; eexists;
      (split; [eassumption | apply Hfield]).
Qed.

Lemma load_data_keeps_rows_witness :
  rows_aligned 3 three_sales_csv
  /\ rows_aligned 3
       (with_calendar [Some 1614556800000000000; Some 1618444800000000000;
                       Some 1641772800000000000] three_sales_csv).
Proof.
  assert (Hal : rows_aligned 3 three_sales_csv) by (repeat constructor).
  split; [exact Hal |].
  apply (load_data_keeps_rows parse_sample 3 three_sales_csv _
           (Object [Some "2021-03-01"; Some "2021-04-15"; Some "2022-01-10"])
           Hal eq_refl eq_refl).
Defined.

(** The text of a missing date is read as a missing timestamp: the
    loaded column has a missing cell where the column read has none. *)
Lemma missing_date_text_is_read :
  result (to_datetime parse_sample (Object [Some "2021-03-01"; Some "NaT"]))
  = Done [Some 1614556800000000000; None]
  /\ null_count (Object [Some "2021-03-01"; Some "NaT"]) = 0%nat.
Proof. split; reflexivity. Qed.

Lemma columns_set_column (name : string) (s : series) (df : DataFrame) :
  columns (set_column name s df)
  = if has_column name df then columns df else columns df ++ [name].
Proof.
  unfold has_column, columns.
  induction df as [| [n s0] df IH]; simpl; [reflexivity |].
  destruct (String.eqb name n) eqn:E; simpl; [reflexivity |].
  rewrite IH. destruct (existsb (String.eqb name) (map fst df)); reflexivity.
Qed.

(** X4: loading keeps the column order.  The columns of the input stay
    where they are (a calendar column the input already had is
    overwritten in place), and the calendar columns the input did not
    have are appended after the last column, in the order year, month,
    day, day of week. *)
Theorem load_data_column_order (parse : date_parser) (df df' : DataFrame) :
  has_column "InvoiceDate" df = true ->
  result (load_data parse df) = Done df' ->
  columns df'
  = columns df ++ filter (fun name => negb (has_column name df)) derived_columns.
Proof.
  intros Hts Hload.
  pose proof Hts as Hts'. apply has_column_get in Hts'. destruct Hts' as [raw Hraw].
  rewrite (load_data_with_timestamp _ _ _ Hraw) in Hload. cbn [result snd] in Hload.
  destruct (result (to_datetime parse raw)) as [cells | e]; [| discriminate].
  injection Hload as <-.
  unfold with_calendar, derived_columns.
  rewrite !columns_set_column, !has_column_set, Hts.
  cbn [String.eqb Ascii.eqb Bool.eqb orb filter].
  destruct (has_column "Year" df), (has_column "Month" df),
    (has_column "Day" df), (has_column "DayOfWeek" df);
    cbn [negb app]; rewrite <- ?app_assoc, ?app_nil_r; reflexivity.
Qed.

Lemma load_data_column_order_witness :
  has_column "InvoiceDate" one_sale_csv = true
  /\ columns (with_calendar [Some 1614556800000000000] one_sale_csv)
     = ["InvoiceDate"; "CustomerID"; "Product"; "TotalAmount";
        "Year"; "Month"; "Day"; "DayOfWeek"].
Proof.
  split; [reflexivity |].
  rewrite (load_data_column_order parse_sample one_sale_csv
             (with_calendar [Some 1614556800000000000] one_sale_csv)
             eq_refl eq_refl).
  reflexivity.
Defined.

(* ================================================================= *)
(** ** Group by group *)

Lemma label_eqb_sym (a b : label) : label_eqb a b = label_eqb b a.
Proof.
  destruct (label_eqb a b) eqn:E1, (label_eqb b a) eqn:E2; try reflexivity.
  - apply label_eqb_eq in E1. subst. now rewrite label_eqb_refl in E2.
  - apply label_eqb_eq in E2. subst. now rewrite label_eqb_refl in E1.
Qed.

Lemma lookup_add_to (k k' : label) (v : Z) (acc : lseries) :
  lookup k (add_to k' v acc)
  = if label_eqb k k'
    then Some (match lookup k acc with Some s => s + v | None => v end)
    else lookup k acc.
Proof.
  induction acc as [| [k0 s0] acc IH]; simpl.
  - destruct (label_eqb k k'); reflexivity.
  - destruct (label_eqb k' k0) eqn:E0; simpl.
    + apply label_eqb_eq in E0. subst k0.
      destruct (label_eqb k k'); reflexivity.
    + rewrite IH.
      destruct (label_eqb k k0) eqn:E1; [| reflexivity].
      apply label_eqb_eq in E1. subst k0.
      rewrite label_eqb_sym, E0. reflexivity.
Qed.

Lemma accumulate_from_lookup (k : label) (keys : list (option label)) (vs : list Z)
      (acc : lseries) :
  length keys = length vs ->
  lookup k (fold_left
              (fun acc row =>
                 match fst row with
                 | Some k => add_to k (snd row) acc
                 | None => acc
                 end)
              (combine keys vs) acc)
  = match lookup k acc with
    | Some s => Some (s + group_total k keys vs)
    | None => if existsb (holds_key k) keys then Some (group_total k keys vs)
              else None
    end.
Proof.
  revert vs acc.
  induction keys as [| cell keys IH]; intros [| v vs] acc Hlen;
    simpl in Hlen; try discriminate.
  - simpl. destruct (lookup k acc); [f_equal; lia | reflexivity].
  - cbn [combine fold_left fst snd group_total existsb].
    rewrite IH by lia.
    destruct cell as [k' |]; cbn [holds_key].
    + rewrite lookup_add_to.
      destruct (label_eqb k k') eqn:E; cbn [orb].
      * destruct (lookup k acc); f_equal; lia.
      * destruct (lookup k acc); [f_equal; lia |].
        destruct (existsb (holds_key k) keys); [f_equal; lia | reflexivity].
    + cbn [orb]. destruct (lookup k acc); [f_equal; lia |].
      destruct (existsb (holds_key k) keys); [f_equal; lia | reflexivity].
Qed.

Lemma existsb_holds_key (k : label) (keys : list (option label)) :
  existsb (holds_key k) keys = true <-> In (Some k) keys.
Proof.
  rewrite existsb_exists. split.
  - intros ([k' |] & Hin & Hk); [| discriminate].
    simpl in Hk. apply label_eqb_eq in Hk. now subst.
  - intros Hin. exists (Some k). split; [assumption | apply label_eqb_refl].
Qed.

Lemma lookup_In (k : label) (v : Z) (s : lseries) :
  NoDup (index s) -> (In (k, v) s <-> lookup k s = Some v).
Proof.
  unfold index.
  induction s as [| [k0 v0] s IH]; intros Hnd; simpl.
  - split; [tauto | discriminate].
  - inversion Hnd as [| ? ? Hnotin Hrest]; subst.
    destruct (label_eqb k k0) eqn:E.
    + apply label_eqb_eq in E. subst k0. split.
      * intros [H | H]; [congruence |].
        exfalso. apply Hnotin. apply in_map_iff. now exists (k, v).
      * intros H. left. congruence.
    + rewrite <- (IH Hrest). split; [| tauto].
      intros [H | H]; [| assumption].
      injection H as -> _. now rewrite label_eqb_refl in E.
Qed.

Lemma accumulate_group (k : label) (v : Z) (keys : list (option label))
      (vs : list Z) :
  length keys = length vs ->
  In (k, v) (accumulate (combine keys vs))
  <-> In (Some k) keys /\ v = group_total k keys vs.
Proof.
  intros Hlen.
  rewrite lookup_In by (apply accumulate_from_NoDup; constructor).
  unfold accumulate. rewrite accumulate_from_lookup by assumption.
  cbn [lookup]. rewrite <- existsb_holds_key.
  destruct (existsb (holds_key k) keys); split.
  - intros H. injection H as <-. now split.
  - intros [_ ->]. reflexivity.
  - discriminate.
  - intros [H _]. discriminate.
Qed.

Lemma groupby_sum_group (by_ : series) (amounts : list (option Z)) (k : label) (v : Z) :
  length amounts = series_length by_ ->
  In (k, v) (groupby_sum by_ amounts)
  <-> In (Some k) (keys_of by_)
      /\ v = group_total k (keys_of by_) (map nan_to_zero amounts).
Proof.
  intros Hlen. unfold groupby_sum.
  rewrite <- accumulate_group by (now rewrite length_map, keys_of_length).
  split; apply Permutation_in;
    [apply Permutation_sym |]; apply sort_index_perm.
Qed.

Lemma group_total_ones (k : label) (keys : list (option label)) :
  group_total k keys (map (fun _ => 1) keys) = Z.of_nat (group_size k keys).
Proof.
  unfold group_size.
  induction keys as [| cell keys IH]; [reflexivity |].
  cbn [map group_total filter]. rewrite IH.
  destruct (holds_key k cell); cbn [length]; lia.
Qed.

Lemma group_size_positive (k : label) (keys : list (option label)) :
  In (Some k) keys -> (1 <= group_size k keys)%nat.
Proof.
  intros Hin. unfold group_size.
  assert (H : In (Some k) (filter (holds_key k) keys)).
  { apply filter_In. split; [assumption | apply label_eqb_refl]. }
  destruct (filter (holds_key k) keys); [destruct H | simpl; lia].
Qed.

Lemma group_total_abs (k : label) (keys : list (option label)) (vs : list Z) :
  Z.abs (group_total k keys vs) <= abs_sum vs.
Proof.
  revert vs. induction keys as [| cell keys IH]; intros [| v vs];
    cbn [group_total]; try apply abs_sum_nonneg.
  specialize (IH vs). unfold abs_sum, zsum in *. cbn [map fold_right].
  destruct (holds_key k cell); lia.
Qed.

(** X5: the monthly series, month by month.  For integer amounts whose
    absolute values add up to at most 2^53 (so that the int64 and
    float64 sums are exact), the series of the trend analysis lists the
    months in ascending order, each month that occurs in the table
    exactly once, and the value of a month is the sum of the monetary
    column over the rows of that month (missing amounts counting for
    nothing). *)
Theorem monthly_sales_by_month (df : DataFrame) (months : series)
        (amounts : list (option Z)) :
  get_column "Month" df = Some months ->
  get_column "TotalAmount" df = Some (Numeric amounts) ->
  length amounts = series_length months ->
  exact_amounts amounts ->
  exists monthly_sales,
    monthly_sales_of df = ([], Done monthly_sales)
    /\ StronglySorted index_le monthly_sales
    /\ NoDup (index monthly_sales)
    /\ (forall k v,
          In (k, v) monthly_sales
          <-> In (Some k) (keys_of months)
              /\ v = group_total k (keys_of months) (map nan_to_zero amounts))
    /\ (forall k v, In (k, v) monthly_sales -> Z.abs v <= 2 ^ 53).
Proof.
  intros Hm Ha Hlen Hex.
  exists (groupby_sum months amounts).
  split; [now apply monthly_sales_of_eq |].
  split; [apply groupby_sum_sorted |].
  split; [apply groupby_sum_NoDup |].
  split; [intros k v; now apply groupby_sum_group |].
  intros k v Hin. apply groupby_sum_group in Hin; [| assumption].
  destruct Hin as [_ ->].
  pose proof (group_total_abs k (keys_of months) (map nan_to_zero amounts)) as H.
  unfold exact_amounts, abs_total in Hex. lia.
Qed.

Lemma monthly_sales_by_month_witness :
  get_column "Month" three_sales = Some (Numeric [Some 3; Some 3; Some 1])
  /\ get_column "TotalAmount" three_sales = Some (Numeric [Some 10; Some 20; Some 5])
  /\ exact_amounts [Some 10; Some 20; Some 5]
  /\ exists monthly_sales,
      monthly_sales_of three_sales = ([], Done monthly_sales)
      /\ (In (LInt 3, 30) monthly_sales
          <-> In (Some (LInt 3)) (keys_of (Numeric [Some 3; Some 3; Some 1]))
              /\ 30 = group_total (LInt 3) (keys_of (Numeric [Some 3; Some 3; Some 1]))
                                  (map nan_to_zero [Some 10; Some 20; Some 5])).
Proof.
  assert (Hex : exact_amounts [Some 10; Some 20; Some 5]) by (vm_compute; discriminate).
  split; [reflexivity |]. split; [reflexivity |]. split; [exact Hex |].
  destruct (monthly_sales_by_month three_sales (Numeric [Some 3; Some 3; Some 1])
              [Some 10; Some 20; Some 5] eq_refl eq_refl eq_refl Hex)
    as (ms & Hrun & _ & _ & Hgroup & _).
  exists ms. split; [exact Hrun | apply Hgroup].
Defined.

Lemma sort_values_desc_NoDup (l : lseries) :
  NoDup (index l) -> NoDup (index (sort_values_desc l)).
Proof.
  intros H. unfold index in *.
  eapply Permutation_NoDup; [| exact H].
  apply Permutation_map, sort_values_desc_perm.
Qed.

Lemma sort_values_desc_In (l : lseries) (x : label * Z) :
  In x (sort_values_desc l) <-> In x l.
Proof.
  split; apply Permutation_in;
    [apply Permutation_sym |]; apply sort_values_desc_perm.
Qed.

Lemma ranking_rows (ranking totals : lseries) (x : label * Z) :
  Permutation ranking totals -> (In x ranking <-> In x totals).
Proof.
  intros Hp. split; apply Permutation_in; [| apply Permutation_sym]; assumption.
Qed.

Lemma ranking_NoDup (ranking totals : lseries) :
  Permutation ranking totals -> NoDup (index totals) -> NoDup (index ranking).
Proof.
  intros Hp H. unfold index in *.
  eapply Permutation_NoDup; [| exact H].
  apply Permutation_map, Permutation_sym, Hp.
Qed.

(** X6: the ranked totals, key by key.  For integer amounts whose
    absolute values add up to at most 2^53, the per-customer spending
    and the per-product revenue are computed without error; the ranking
    is a rearrangement of the totals in descending order; and any such
    rearrangement, whatever the order it leaves equal totals in, has
    the same column of values, lists each key that occurs exactly once,
    and gives a key the sum of the monetary column over the rows of
    that key. *)
Theorem ranked_totals_by_key (df : DataFrame) (by_ : string) (keys : series)
        (amounts : list (option Z)) :
  get_column by_ df = Some keys ->
  get_column "TotalAmount" df = Some (Numeric amounts) ->
  length amounts = series_length keys ->
  exact_amounts amounts ->
  exists totals,
    groupby_column_sum by_ "TotalAmount" df = ([], Done totals)
    /\ Permutation (sort_values_desc totals) totals
    /\ StronglySorted value_ge (sort_values_desc totals)
    /\ forall ranking,
        Permutation ranking totals ->
        StronglySorted value_ge ranking ->
        values ranking = values (sort_values_desc totals)
        /\ NoDup (index ranking)
        /\ (forall k v,
              In (k, v) ranking
              <-> In (Some k) (keys_of keys)
                  /\ v = group_total k (keys_of keys) (map nan_to_zero amounts))
        /\ (forall k v, In (k, v) ranking -> Z.abs v <= 2 ^ 53).
Proof.
  intros Hk Ha Hlen Hex.
  exists (groupby_sum keys amounts).
  split.
  { unfold groupby_column_sum, column. rewrite Hk, Ha. reflexivity. }
  split; [apply Permutation_sym, sort_values_desc_perm |].
  split; [apply sort_values_desc_sorted |].
  intros ranking Hp Hs.
  assert (Hgroup : forall k v,
             In (k, v) ranking
             <-> In (Some k) (keys_of keys)
                 /\ v = group_total k (keys_of keys) (map nan_to_zero amounts)).
  { intros k v. rewrite (ranking_rows _ _ _ Hp). now apply groupby_sum_group. }
  split.
  { apply ranking_values_unique; [| assumption | apply sort_values_desc_sorted].
    eapply perm_trans; [exact Hp | apply sort_values_desc_perm]. }
  split; [apply (ranking_NoDup _ _ Hp), groupby_sum_NoDup |].
  split; [exact Hgroup |].
  intros k v Hin. apply Hgroup in Hin. destruct Hin as [_ ->].
  pose proof (group_total_abs k (keys_of keys) (map nan_to_zero amounts)) as H.
  unfold exact_amounts, abs_total in Hex. lia.
Qed.

Lemma ranked_totals_by_key_witness :
  get_column "Product" star_product
  = Some (Object [Some "tea"; Some "mug"; Some "tea"; Some "pot"])
  /\ get_column "TotalAmount" star_product
     = Some (Numeric [Some 50; Some 6; Some 40; Some 4])
  /\ exact_amounts [Some 50; Some 6; Some 40; Some 4]
  /\ exists totals,
      groupby_column_sum "Product" "TotalAmount" star_product = ([], Done totals)
      /\ In (LStr "tea", 90) (sort_values_desc totals).
Proof.
  assert (Hex : exact_amounts [Some 50; Some 6; Some 40; Some 4])
    by (vm_compute; discriminate).
  split; [reflexivity |]. split; [reflexivity |]. split; [exact Hex |].
  destruct (ranked_totals_by_key star_product "Product"
              (Object [Some "tea"; Some "mug"; Some "tea"; Some "pot"])
              [Some 50; Some 6; Some 40; Some 4] eq_refl eq_refl eq_refl Hex)
    as (totals & Hrun & Hperm & Hsorted & Hrank).
  exists totals. split; [exact Hrun |].
  destruct (Hrank _ Hperm Hsorted) as (_ & _ & Hgroup & _).
  apply Hgroup. split; [simpl; tauto | reflexivity].
Defined.



(** X7: the purchase frequencies, customer by customer.  The frequency
    series lists each customer identifier that occurs exactly once,
    most frequent first; the frequency of a customer is the number of
    rows that carry the identifier, so it is at least 1. *)
Theorem purchase_frequency_by_customer (customers : series) :
  StronglySorted value_ge (value_counts customers)
  /\ NoDup (index (value_counts customers))
  /\ (forall k c,
        In (k, c) (value_counts customers)
        <-> In (Some k) (keys_of customers)
            /\ c = Z.of_nat (group_size k (keys_of customers)))
  /\ (forall k c, In (k, c) (value_counts customers) -> 1 <= c).
Proof.
  assert (Hgroup : forall k c,
             In (k, c) (value_counts customers)
             <-> In (Some k) (keys_of customers)
                 /\ c = Z.of_nat (group_size k (keys_of customers))).
  { intros k c. unfold value_counts.
    rewrite sort_values_desc_In, accumulate_group by (now rewrite length_map).
    now rewrite group_total_ones. }
  split; [apply sort_values_desc_sorted |].
  split.
  { apply sort_values_desc_NoDup. unfold accumulate.
    apply accumulate_from_NoDup. constructor. }
  split; [exact Hgroup |].
  intros k c Hin. apply Hgroup in Hin. destruct Hin as [Hin ->].
  apply group_size_positive in Hin. lia.
Qed.











(* ================================================================= *)
(** ** More on the 80/20 count *)





Lemma zsum_nonneg (l : list Z) : Forall (fun x => 0 <= x) l -> 0 <= zsum l.
Proof. unfold zsum. induction 1; simpl; lia. Qed.

Lemma prefix_sums_nonneg (s : lseries) (c : Z) :
  StronglySorted value_ge s ->
  zsum (values s) = 0 ->
  In c (cumsum (values s)) -> 0 <= c.
Proof.
  intros Hs Ht Hin.
  destruct (cumsum_from_In _ _ _ Hin) as (m1 & m2 & Hl & Hne & ->).
  rewrite Z.add_0_l.
  destruct m2 as [| v m2].
  - rewrite app_nil_r in Hl. rewrite <- Hl, Ht. lia.
  - destruct (sorted_values_split _ _ _ _ Hs Hl) as [H1 H2].
    rewrite Hl, zsum_app in Ht.
    destruct (Z.le_gt_cases 0 v) as [Hv | Hv].
    + apply zsum_nonneg. eapply Forall_impl; [| exact H1].
      intros x Hx. simpl in Hx. lia.
    + assert (zsum m2 <= 0) by (apply (zsum_all_le m2 v); [assumption | lia]).
      change (zsum (v :: m2)) with (v + zsum m2) in Ht. lia.
Qed.

Lemma top_20_pct_values (r r' : lseries) :
  values r = values r' -> top_20_pct r = top_20_pct r'.
Proof. intros E. unfold top_20_pct. now rewrite E. Qed.

(** X10: a zero total revenue is not an error.  When there is a product
    and the revenues, integers whose absolute values add up to at most
    2^53, cancel out, the division by the zero total raises nothing, no
    cumulative percentage passes the test (in whatever order the sort
    leaves equal revenues), and once the chart of the top products is
    drawn the step completes and reports a count of 0. *)
Theorem pareto_count_zero_total (renders : chart -> string -> bool)
        (df : DataFrame) (products : series) (amounts : list (option Z)) :
  get_column "Product" df = Some products ->
  get_column "TotalAmount" df = Some (Numeric amounts) ->
  exact_amounts amounts ->
  sort_values_desc (groupby_sum products amounts) <> [] ->
  zsum (values (sort_values_desc (groupby_sum products amounts))) = 0 ->
  renders (BarhChart (head 10 (sort_values_desc (groupby_sum products amounts))))
          products_chart = true ->
  (forall ranking,
      Permutation ranking (groupby_sum products amounts) ->
      StronglySorted value_ge ranking ->
      zsum (values ranking) = 0 /\ top_20_pct ranking = 0%nat)
  /\ result (revenue_driver_analysis renders df) = Done tt
  /\ In (Print (ParetoRule 0
                  (length (sort_values_desc (groupby_sum products amounts)))))
        (trace (revenue_driver_analysis renders df)).
Proof.
  intros Hp Ha _ Hne Ht Hr.
  assert (H0 : top_20_pct (sort_values_desc (groupby_sum products amounts)) = 0%nat).
  { unfold top_20_pct. rewrite Ht.
    apply length_zero_iff_nil.
    destruct (filter (fun c => pct_le_80 c 0)
                (cumsum (values (sort_values_desc (groupby_sum products amounts)))))
      as [| c rest] eqn:E; [reflexivity | exfalso].
    assert (Hin : In c (filter (fun c => pct_le_80 c 0)
                (cumsum (values (sort_values_desc (groupby_sum products amounts))))))
      by (rewrite E; now left).
    apply filter_In in Hin. destruct Hin as [Hin Hc].
    apply prefix_sums_nonneg in Hin;
      [| apply sort_values_desc_sorted | assumption].
    unfold pct_le_80 in Hc. simpl in Hc. bool_to_prop. lia. }
  split.
  { intros ranking Hperm Hsorted.
    assert (Hv : values ranking = values (sort_values_desc (groupby_sum products amounts))).
    { apply ranking_values_unique; [| assumption | apply sort_values_desc_sorted].
      eapply perm_trans; [exact Hperm | apply sort_values_desc_perm]. }
    split; [now rewrite Hv | now rewrite (top_20_pct_values _ _ Hv)]. }
  rewrite (revenue_driver_analysis_run _ _ _ _ Hp Ha Hne Hr), H0.
  split; [reflexivity | simpl; tauto].
Qed.

Lemma pareto_count_zero_total_witness :
  get_column "Product" refunded_sale = Some (Object [Some "tea"; Some "tea"])
  /\ exact_amounts [Some 10; Some (-10)]
  /\ result (revenue_driver_analysis always_renders refunded_sale) = Done tt
  /\ In (Print (ParetoRule 0 1))
        (trace (revenue_driver_analysis always_renders refunded_sale)).
Proof.
  assert (Hex : exact_amounts [Some 10; Some (-10)]) by (vm_compute; discriminate).
  split; [reflexivity |]. split; [exact Hex |].
  destruct (pareto_count_zero_total always_renders refunded_sale
              (Object [Some "tea"; Some "tea"]) [Some 10; Some (-10)]
              eq_refl eq_refl Hex) as (_ & Hdone & Hin).
  - vm_compute. discriminate.
  - reflexivity.
  - reflexivity.
  - split; assumption.
Defined.

(* ================================================================= *)
(** ** The shape of a report *)

Lemma banners_app (t u : list event) : banners (t ++ u) = banners t ++ banners u.
Proof.
  induction t as [| [[] | f] t IH]; simpl; try assumption; [reflexivity |].
  now rewrite IH.
Qed.

Lemma texts_app (t u : list event) : texts (t ++ u) = texts t ++ texts u.
Proof.
  induction t as [| [[] | f] t IH]; simpl; try assumption; [reflexivity |].
  now rewrite IH.
Qed.

(** Splits a step along its tests until its run is a literal. *)
Ltac split_step :=
  repeat (cbn [bind ret raise print trace result fst snd app
               saved_files banners texts amounts_of plot_bars];
          match goal with
          | |- context [plot_bars ?data] => destruct data eqn:?
          | |- context [match get_column ?n ?df with _ => _ end] =>
              destruct (get_column n df) as [[] |] eqn:?
          | |- context [if ?b then _ else _] => destruct b eqn:?
          | |- context [match idxmax ?s with _ => _ end] => destruct (idxmax s) eqn:?
          | |- context [match idxmin ?s with _ => _ end] => destruct (idxmin s) eqn:?
          end).

Lemma sales_trends_analysis_shape (renders : chart -> string -> bool)
      (df : DataFrame) :
  exists b,
    saved_files (trace (sales_trends_analysis renders df)) = saved_if b monthly_chart
    /\ banners (trace (sales_trends_analysis renders df)) = ["SALES TRENDS ANALYSIS"]
    /\ texts (trace (sales_trends_analysis renders df)) = []
    /\ (b = true -> has_column "TotalAmount" df && has_column "Month" df = true)
    /\ (result (sales_trends_analysis renders df) = Done tt ->
        b = has_column "TotalAmount" df && has_column "Month" df).
Proof.
  unfold sales_trends_analysis, banner, groupby_column_sum, column, savefig.
  split_step;
    first [ exists true; repeat split; (reflexivity || discriminate)
          | exists false; repeat split; (reflexivity || discriminate) ].
Qed.

Lemma customer_behavior_analysis_shape (renders : chart -> string -> bool)
      (df : DataFrame) :
  exists b,
    saved_files (trace (customer_behavior_analysis renders df))
    = saved_if b spending_chart
    /\ banners (trace (customer_behavior_analysis renders df))
       = ["CUSTOMER BEHAVIOR INSIGHTS"]
    /\ texts (trace (customer_behavior_analysis renders df)) = []
    /\ (b = true -> has_column "CustomerID" df && has_column "TotalAmount" df = true)
    /\ (result (customer_behavior_analysis renders df) = Done tt ->
        b = has_column "CustomerID" df && has_column "TotalAmount" df).
Proof.
  unfold customer_behavior_analysis, banner, groupby_column_sum, column, savefig.
  split_step;
    first [ exists true; repeat split; (reflexivity || discriminate)
          | exists false; repeat split; (reflexivity || discriminate) ].
Qed.

Lemma revenue_driver_analysis_shape (renders : chart -> string -> bool)
      (df : DataFrame) :
  exists b,
    saved_files (trace (revenue_driver_analysis renders df))
    = saved_if b products_chart
    /\ banners (trace (revenue_driver_analysis renders df))
       = ["REVENUE DRIVER IDENTIFICATION"]
    /\ texts (trace (revenue_driver_analysis renders df)) = []
    /\ (b = true -> has_column "Product" df && has_column "TotalAmount" df = true)
    /\ (result (revenue_driver_analysis renders df) = Done tt ->
        b = has_column "Product" df && has_column "TotalAmount" df).
Proof.
  unfold revenue_driver_analysis, banner, groupby_column_sum, column, savefig.
  split_step;
    first [ exists true; repeat split; (reflexivity || discriminate)
          | exists false; repeat split; (reflexivity || discriminate) ].
Qed.

Lemma statistical_analysis_shape (renders : chart -> string -> bool)
      (df : DataFrame) :
  exists b,
    saved_files (trace (statistical_analysis renders df))
    = saved_if b correlation_chart
    /\ banners (trace (statistical_analysis renders df)) = ["STATISTICAL ANALYSIS"]
    /\ texts (trace (statistical_analysis renders df)) = []
    /\ (b = true -> (1 <? length (select_numeric df))%nat = true)
    /\ (result (statistical_analysis renders df) = Done tt ->
        b = (1 <? length (select_numeric df))%nat).
Proof.
  unfold statistical_analysis, banner, savefig.
  split_step;
    first [ exists true; repeat split; (reflexivity || discriminate)
          | exists false; repeat split; (reflexivity || discriminate) ].
Qed.

Lemma basic_statistics_shape (df : DataFrame) :
  saved_files (trace (basic_statistics df)) = []
  /\ banners (trace (basic_statistics df)) = ["DATASET OVERVIEW"]
  /\ texts (trace (basic_statistics df)) = []
  /\ (df <> [] -> result (basic_statistics df) = Done tt)
  /\ (df = [] -> result (basic_statistics df) = Raised ValueError).
Proof.
  destruct df as [| c df].
  - repeat split; try reflexivity. congruence.
  - destruct (basic_statistics_run (c :: df)) as (stats & _ & Hrun); [discriminate |].
    rewrite Hrun. repeat split; try reflexivity. discriminate.
Qed.

Lemma generate_report_cases (renders : chart -> string -> bool) (df : DataFrame) :
  let t0 := [Print (Banner "COMPREHENSIVE RETAIL DATA ANALYSIS REPORT")] in
  let t1 := trace (basic_statistics df) in
  let t2 := trace (sales_trends_analysis renders df) in
  let t3 := trace (customer_behavior_analysis renders df) in
  let t4 := trace (revenue_driver_analysis renders df) in
  let t5 := trace (statistical_analysis renders df) in
  (exists e, result (basic_statistics df) = Raised e
             /\ generate_report renders df = (t0 ++ t1, Raised e))
  \/ (exists e, result (basic_statistics df) = Done tt
                /\ result (sales_trends_analysis renders df) = Raised e
                /\ generate_report renders df = (t0 ++ t1 ++ t2, Raised e))
  \/ (exists e, result (basic_statistics df) = Done tt
                /\ result (sales_trends_analysis renders df) = Done tt
                /\ result (customer_behavior_analysis renders df) = Raised e
                /\ generate_report renders df = (t0 ++ t1 ++ t2 ++ t3, Raised e))
  \/ (exists e, result (basic_statistics df) = Done tt
                /\ result (sales_trends_analysis renders df) = Done tt
                /\ result (customer_behavior_analysis renders df) = Done tt
                /\ result (revenue_driver_analysis renders df) = Raised e
                /\ generate_report renders df
                   = (t0 ++ t1 ++ t2 ++ t3 ++ t4, Raised e))
  \/ (exists e, result (basic_statistics df) = Done tt
                /\ result (sales_trends_analysis renders df) = Done tt
                /\ result (customer_behavior_analysis renders df) = Done tt
                /\ result (revenue_driver_analysis renders df) = Done tt
                /\ result (statistical_analysis renders df) = Raised e
                /\ generate_report renders df
                   = (t0 ++ t1 ++ t2 ++ t3 ++ t4 ++ t5, Raised e))
  \/ (result (basic_statistics df) = Done tt
      /\ result (sales_trends_analysis renders df) = Done tt
      /\ result (customer_behavior_analysis renders df) = Done tt
      /\ result (revenue_driver_analysis renders df) = Done tt
      /\ result (statistical_analysis renders df) = Done tt
      /\ generate_report renders df
         = (t0 ++ t1 ++ t2 ++ t3 ++ t4 ++ t5
            ++ [Print (Text "ANALYSIS COMPLETE!");
                Print (Text "Visualizations saved in 'results/' directory")],
            Done tt)).
Proof.
  intros t0 t1 t2 t3 t4 t5. subst t0 t1 t2 t3 t4 t5.
  unfold generate_report, banner.
  destruct (basic_statistics df) as [t1 [[] | e1]];
    [| left; exists e1; split; reflexivity].
  destruct (sales_trends_analysis renders df) as [t2 [[] | e2]];
    [| right; left; exists e2; repeat split; reflexivity].
  destruct (customer_behavior_analysis renders df) as [t3 [[] | e3]];
    [| right; right; left; exists e3; repeat split; step_run;
       cbn [trace result fst snd]; now rewrite <- ?app_assoc].
  destruct (revenue_driver_analysis renders df) as [t4 [[] | e4]];
    [| right; right; right; left; exists e4; repeat split; step_run;
       cbn [trace result fst snd]; now rewrite <- ?app_assoc].
  destruct (statistical_analysis renders df) as [t5 [[] | e5]];
    [| right; right; right; right; left; exists e5; repeat split; step_run;
       cbn [trace result fst snd]; now rewrite <- ?app_assoc].
  right; right; right; right; right. repeat split.
Qed.

(** X11: the files a report writes.  Whatever the table and whether the
    run completes or stops on an error, the report writes no file but
    the four fixed charts, each at most once and in the order of the
    steps; a chart is written only if the columns its step requires are
    present, and a report that completes has written exactly the charts
    of the steps whose columns are present. *)
Theorem report_saved_files (renders : chart -> string -> bool) (df : DataFrame) :
  exists b1 b2 b3 b4,
    saved_files (trace (generate_report renders df))
    = saved_if b1 monthly_chart ++ saved_if b2 spending_chart
      ++ saved_if b3 products_chart ++ saved_if b4 correlation_chart
    /\ (b1 = true -> has_column "TotalAmount" df && has_column "Month" df = true)
    /\ (b2 = true -> has_column "CustomerID" df && has_column "TotalAmount" df = true)
    /\ (b3 = true -> has_column "Product" df && has_column "TotalAmount" df = true)
    /\ (b4 = true -> (1 <? length (select_numeric df))%nat = true)
    /\ (result (generate_report renders df) = Done tt ->
        b1 = has_column "TotalAmount" df && has_column "Month" df
        /\ b2 = has_column "CustomerID" df && has_column "TotalAmount" df
        /\ b3 = has_column "Product" df && has_column "TotalAmount" df
        /\ b4 = (1 <? length (select_numeric df))%nat).
Proof.
  destruct (basic_statistics_shape df) as (Hs1 & _).
  destruct (sales_trends_analysis_shape renders df) as (b1 & Hs2 & _ & _ & Hg2 & Hd2).
  destruct (customer_behavior_analysis_shape renders df)
    as (b2 & Hs3 & _ & _ & Hg3 & Hd3).
  destruct (revenue_driver_analysis_shape renders df)
    as (b3 & Hs4 & _ & _ & Hg4 & Hd4).
  destruct (statistical_analysis_shape renders df) as (b4 & Hs5 & _ & _ & Hg5 & Hd5).
  pose proof (generate_report_cases renders df) as Hcases. cbv zeta in Hcases.
  destruct Hcases
    as [(e & _ & Heq)
       | [(e & _ & _ & Heq)
         | [(e & _ & _ & _ & Heq)
           | [(e & _ & _ & _ & _ & Heq)
             | [(e & _ & _ & _ & _ & _ & Heq)
               | (_ & R2 & R3 & R4 & R5 & Heq)]]]]];
    rewrite Heq; cbn [trace result fst snd];
    rewrite ?saved_files_app, ?Hs1, ?Hs2, ?Hs3, ?Hs4, ?Hs5; cbn [saved_files app].
  - exists false, false, false, false. repeat split; discriminate.
  - exists b1, false, false, false. rewrite ?app_nil_r.
    repeat split; (assumption || discriminate).
  - exists b1, b2, false, false. rewrite ?app_nil_r.
    repeat split; (assumption || discriminate).
  - exists b1, b2, b3, false. rewrite ?app_nil_r.
    repeat split; (assumption || discriminate).
  - exists b1, b2, b3, b4. rewrite ?app_nil_r.
    repeat split; (assumption || discriminate).
  - exists b1, b2, b3, b4. rewrite ?app_nil_r.
    repeat split; auto.
Qed.

Lemma report_saved_files_witness :
  result (generate_report always_renders visits) = Done tt
  /\ saved_files (trace (generate_report always_renders visits)) = [].
Proof.
  split; [reflexivity |].
  destruct (report_saved_files always_renders visits)
    as (b1 & b2 & b3 & b4 & Hfiles & _ & _ & _ & _ & Hdone).
  destruct (Hdone eq_refl) as (-> & -> & -> & ->).
  exact Hfiles.
Defined.

(** X12: the order of a report.  The steps run in their fixed order
    and the report stops at the first one that raises: there is a
    number [n] of steps that complete; when [n] is below five, the next
    step raises and the report raises the same error; when [n] is five
    the report completes.  What the report printed and saved is the
    title banner followed by the traces of the steps up to the one that
    raised, and nothing of the steps after it; the two closing lines
    come last and only in a report that completes.  So the banners are
    the first ones of the fixed list, up to the step that raised. *)
Theorem report_banner_order (renders : chart -> string -> bool) (df : DataFrame) :
  exists n,
    (n <= 5)%nat
    /\ (forall i, (i < n)%nat ->
                  result (nth i (report_steps renders df) (ret tt)) = Done tt)
    /\ ((n < 5)%nat ->
        exists e,
          result (nth n (report_steps renders df) (ret tt)) = Raised e
          /\ result (generate_report renders df) = Raised e)
    /\ (n = 5%nat -> result (generate_report renders df) = Done tt)
    /\ trace (generate_report renders df)
       = Print (Banner "COMPREHENSIVE RETAIL DATA ANALYSIS REPORT")
         :: concat (map trace (firstn (S n) (report_steps renders df)))
         ++ (if (n =? 5)%nat then closing_lines else [])
    /\ banners (trace (generate_report renders df))
       = firstn (Nat.min (n + 2) 6) report_banners
    /\ texts (trace (generate_report renders df))
       = if (n =? 5)%nat
         then ["ANALYSIS COMPLETE!"; "Visualizations saved in 'results/' directory"]
         else [].
Proof.
  destruct (basic_statistics_shape df) as (_ & Hb1 & Ht1 & _).
  destruct (sales_trends_analysis_shape renders df) as (b1 & _ & Hb2 & Ht2 & _).
  destruct (customer_behavior_analysis_shape renders df) as (b2 & _ & Hb3 & Ht3 & _).
  destruct (revenue_driver_analysis_shape renders df) as (b3 & _ & Hb4 & Ht4 & _).
  destruct (statistical_analysis_shape renders df) as (b4 & _ & Hb5 & Ht5 & _).
  pose proof (generate_report_cases renders df) as Hcases. cbv zeta in Hcases.
  destruct Hcases
    as [(e & R1 & Heq)
       | [(e & R1 & R2 & Heq)
         | [(e & R1 & R2 & R3 & Heq)
           | [(e & R1 & R2 & R3 & R4 & Heq)
             | [(e & R1 & R2 & R3 & R4 & R5 & Heq)
               | (R1 & R2 & R3 & R4 & R5 & Heq)]]]]];
    rewrite Heq; cbn [trace result fst snd];
    [exists 0%nat | exists 1%nat | exists 2%nat | exists 3%nat | exists 4%nat
     | exists 5%nat];
    (split; [lia |]);
    (split;
     [intros i Hi;
      do 5 (destruct i as [| i]; [cbn [report_steps nth]; first [assumption | lia] |]);
      lia |]);
    (split;
     [intros Hn; first [lia | exists e; cbn [report_steps nth]; now split] |]);
    (split; [intros Hn; first [reflexivity | discriminate Hn] |]);
    (split;
     [cbn [report_steps firstn map concat Nat.eqb closing_lines];
      rewrite ?app_nil_r, <- ?app_assoc; reflexivity |]);
    rewrite ?banners_app, ?texts_app, ?Hb1, ?Hb2, ?Hb3, ?Hb4, ?Hb5,
      ?Ht1, ?Ht2, ?Ht3, ?Ht4, ?Ht5; cbn [banners texts app];
    split; reflexivity.
Qed.

Lemma report_banner_order_witness :
  result (generate_report always_renders header_only) = Raised IndexError
  /\ result (sales_trends_analysis always_renders header_only) = Raised IndexError
  /\ exists n,
      banners (trace (generate_report always_renders header_only))
      = firstn (Nat.min (n + 2) 6) report_banners
      /\ banners (trace (generate_report always_renders header_only))
         = ["COMPREHENSIVE RETAIL DATA ANALYSIS REPORT"; "DATASET OVERVIEW";
            "SALES TRENDS ANALYSIS"].
Proof.
  split; [reflexivity |]. split; [reflexivity |].
  destruct (report_banner_order always_renders header_only)
    as (n & _ & _ & _ & _ & _ & Hbanners & _).
  exists n. split; [exact Hbanners | reflexivity].
Defined.

(* ================================================================= *)
(** ** More on the steps *)

(** X13: customers without amounts.  When the table has the customer
    column but no monetary column, the customer step still reports the
    unique-customer count, the mean purchases per customer and the
    top-10 frequencies; it computes no spending, saves no chart and
    raises nothing, whatever the renderer. *)
Theorem customer_frequencies_without_amounts (renders : chart -> string -> bool)
        (df : DataFrame) (customers : series) :
  get_column "CustomerID" df = Some customers ->
  has_column "TotalAmount" df = false ->
  customer_behavior_analysis renders df
  = ([Print (Banner "CUSTOMER BEHAVIOR INSIGHTS");
      Print (UniqueCustomers (nunique customers));
      Print (AveragePurchases (zsum (values (value_counts customers)))
                              (length (value_counts customers)));
      Print (TopFrequency (head 10 (value_counts customers)))],
     Done tt)
  /\ saved_files (trace (customer_behavior_analysis renders df)) = []
  /\ zsum (values (value_counts customers))
     = Z.of_nat (series_length customers - null_count customers).
Proof.
  intros Hc Hno.
  rewrite (customer_behavior_analysis_frequencies _ _ _ Hc Hno).
  split; [reflexivity |]. split; [reflexivity |].
  rewrite value_counts_total. f_equal.
  pose proof (count_keyed_null customers). lia.
Qed.

Lemma customer_frequencies_without_amounts_witness :
  get_column "CustomerID" visits = Some (Object [Some "A"; Some "B"])
  /\ has_column "TotalAmount" visits = false
  /\ saved_files (trace (customer_behavior_analysis always_renders visits)) = [].
Proof.
  split; [reflexivity |]. split; [reflexivity |].
  apply (customer_frequencies_without_amounts always_renders visits
           (Object [Some "A"; Some "B"]) eq_refl eq_refl).
Defined.

Lemma groupby_sum_empty_iff (by_ : series) (amounts : list (option Z)) :
  length amounts = series_length by_ ->
  (groupby_sum by_ amounts = [] <-> forall k, ~ In (Some k) (keys_of by_)).
Proof.
  intros Hlen. split.
  - intros Hnil k Hin. exact (groupby_sum_nonempty _ _ _ Hlen Hin Hnil).
  - intros Hnone.
    destruct (groupby_sum by_ amounts) as [| [k v] rest] eqn:E; [reflexivity |].
    exfalso. apply (Hnone k).
    apply (groupby_sum_group by_ amounts k v Hlen). rewrite E. now left.
Qed.

(** X14: when the trend step fails.  With a month column and a numeric
    monetary column, the trend step cannot complete when no row has a
    month (every month is missing, or the table has no rows): the bar
    plot of the empty series raises an [IndexError] right after the
    banner, whatever the renderer, so that nothing is saved and no
    series is printed, and the report stops there.  As soon as one row
    has a month and the chart is rendered, the step completes and has
    saved its chart. *)
Theorem sales_trends_fails_without_months (renders : chart -> string -> bool)
        (df : DataFrame) (months : series) (amounts : list (option Z)) :
  get_column "Month" df = Some months ->
  get_column "TotalAmount" df = Some (Numeric amounts) ->
  length amounts = series_length months ->
  ((forall k, ~ In (Some k) (keys_of months)) ->
   sales_trends_analysis renders df
   = ([Print (Banner "SALES TRENDS ANALYSIS")], Raised IndexError)
   /\ result (generate_report renders df) = Raised IndexError
   /\ saved_files (trace (generate_report renders df)) = [])
  /\ ((exists k, In (Some k) (keys_of months)) ->
      renders (BarChart (groupby_sum months amounts)) monthly_chart = true ->
      result (sales_trends_analysis renders df) = Done tt
      /\ saved_files (trace (sales_trends_analysis renders df)) = [monthly_chart]).
Proof.
  intros Hm Ha Hlen. split.
  - intros Hnone.
    apply (groupby_sum_empty_iff months amounts Hlen) in Hnone.
    assert (Hstep : sales_trends_analysis renders df
                    = ([Print (Banner "SALES TRENDS ANALYSIS")], Raised IndexError)).
    { unfold sales_trends_analysis, banner.
      assert (Hc : has_column "TotalAmount" df && has_column "Month" df = true).
      { apply andb_true_iff; split; apply has_column_get; eauto. }
      rewrite Hc. fold (monthly_sales_of df).
      rewrite (monthly_sales_of_eq _ _ _ Hm Ha), Hnone.
      rewrite bind_print, bind_done. reflexivity. }
    split; [exact Hstep |].
    assert (Hne : df <> []).
    { intros E. rewrite E in Hm. discriminate. }
    destruct (basic_statistics_run df Hne) as (stats & _ & Hstats).
    destruct (basic_statistics_shape df) as (Hfiles & _).
    pose proof (generate_report_cases renders df) as Hcases. cbv zeta in Hcases.
    rewrite Hstep, Hstats in Hcases. cbn [result snd] in Hcases.
    destruct Hcases
      as [(e & R1 & _)
         | [(e & _ & R2 & Heq)
           | [(e & _ & R2 & _)
             | [(e & _ & R2 & _)
               | [(e & _ & R2 & _)
                 | (_ & R2 & _)]]]]]; try discriminate.
    injection R2 as <-. rewrite Heq. cbn [result trace fst snd].
    split; [reflexivity |].
    rewrite Hstats in Hfiles. cbn [trace fst] in Hfiles.
    rewrite !saved_files_app, Hfiles. reflexivity.
  - intros [k Hk] Hr.
    destruct (sales_trends_analysis_run renders df _ _ Hm Ha Hr)
      as (best & worst & _ & _ & Hrun).
    + now apply (groupby_sum_nonempty _ _ k).
    + rewrite Hrun. split; reflexivity.
Qed.

Lemma sales_trends_fails_without_months_witness :
  get_column "Month" undated_sales = Some (Numeric [None; None])
  /\ get_column "TotalAmount" undated_sales = Some (Numeric [Some 10; Some 5])
  /\ (forall k, ~ In (Some k) (keys_of (Numeric [None; None])))
  /\ sales_trends_analysis always_renders undated_sales
     = ([Print (Banner "SALES TRENDS ANALYSIS")], Raised IndexError).
Proof.
  assert (Hnone : forall k, ~ In (Some k) (keys_of (Numeric [None; None]))).
  { intros k [H | [H | []]]; discriminate H. }
  split; [reflexivity |]. split; [reflexivity |]. split; [exact Hnone |].
  destruct (sales_trends_fails_without_months always_renders undated_sales
              (Numeric [None; None]) [Some 10; Some 5]
              eq_refl eq_refl eq_refl) as [Hfail _].
  exact (proj1 (Hfail Hnone)).
Defined.

Lemma accumulate_from_index_incl (rows : list (option label * Z)) (acc : lseries)
      (k : label) :
  In k (index (fold_left
                 (fun acc row =>
                    match fst row with
                    | Some k => add_to k (snd row) acc
                    | None => acc
                    end) rows acc)) ->
  In k (index acc) \/ In (Some k) (map fst rows).
Proof.
  revert acc.
  induction rows as [| [[k' |] v] rows IH]; intros acc Hin; simpl in *;
    [now left | |].
  - apply IH in Hin. destruct Hin as [Hin | Hin]; [| now right; right].
    rewrite add_to_index in Hin.
    destruct (existsb (label_eqb k') (index acc)); [now left |].
    apply in_app_or in Hin. destruct Hin as [Hin | [<- | []]];
      [now left | right; now left].
  - apply IH in Hin. destruct Hin as [Hin | Hin]; [now left | now right; right].
Qed.

Lemma groupby_sum_index_incl (by_ : series) (amounts : list (option Z)) (k : label) :
  In k (index (groupby_sum by_ amounts)) -> In (Some k) (keys_of by_).
Proof.
  unfold groupby_sum, index. intros Hin.
  apply (Permutation_in _ (Permutation_sym
           (Permutation_map fst (sort_index_perm _)))) in Hin.
  apply accumulate_from_index_incl in Hin. destruct Hin as [[] | Hin].
  apply in_map_iff in Hin. destruct Hin as ([c v] & Hc & Hin).
  simpl in Hc. subst c. now apply in_combine_l in Hin.
Qed.

Lemma month_label_In (m : Z) : 1 <= m <= 12 -> In (LInt m) month_labels.
Proof.
  intros H.
  assert (Hcases : m = 1 \/ m = 2 \/ m = 3 \/ m = 4 \/ m = 5 \/ m = 6 \/ m = 7
                   \/ m = 8 \/ m = 9 \/ m = 10 \/ m = 11 \/ m = 12) by lia.
  unfold month_labels. simpl.
  repeat (destruct Hcases as [-> | Hcases]; [tauto |]). subst. tauto.
Qed.

Lemma days_in_month_bound (y m : Z) : 1 <= m <= 12 -> Calendar.days_in_month y m <= 31.
Proof.
  intros H.
  assert (Hcases : m = 1 \/ m = 2 \/ m = 3 \/ m = 4 \/ m = 5 \/ m = 6 \/ m = 7
                   \/ m = 8 \/ m = 9 \/ m = 10 \/ m = 11 \/ m = 12) by lia.
  unfold Calendar.days_in_month.
  repeat (destruct Hcases as [-> | Hcases];
          [destruct (Calendar.is_leap y); vm_compute; discriminate |]).
  subst. destruct (Calendar.is_leap y); vm_compute; discriminate.
Qed.

Lemma derived_cell (f : Z -> Z) (cells : list (option Z)) (i : nat) (v : Z) :
  nth i (map (option_map f) cells) None = Some v ->
  exists ns, In (Some ns) cells /\ v = f ns.
Proof.
  intros H.
  destruct (Nat.lt_ge_cases i (length cells)) as [Hi | Hi].
  - change None with (option_map f None) in H. rewrite map_nth in H.
    destruct (nth i cells None) as [ns |] eqn:E; [| discriminate].
    injection H as <-. exists ns. split; [| reflexivity].
    rewrite <- E. now apply nth_In.
  - rewrite nth_overflow in H by (now rewrite length_map). discriminate.
Qed.

(** X15: the calendar cells and the months of a loaded table.  When the
    timestamps are valid, every month cell is between 1 and 12, every
    day cell between 1 and 31 and every day-of-week cell between 0
    (Monday) and 6; so the monthly series of the trend analysis has at
    most twelve rows, labelled by months between 1 and 12. *)
Theorem loaded_calendar_ranges (parse : date_parser) (df df' : DataFrame)
        (cells amounts : list (option Z)) :
  has_column "InvoiceDate" df = true ->
  result (load_data parse df) = Done df' ->
  get_column "InvoiceDate" df' = Some (Datetime cells) ->
  (forall ns, In (Some ns) cells -> Calendar.valid_timestamp ns) ->
  get_column "TotalAmount" df' = Some (Numeric amounts) ->
  (forall i v, numeric_cell "Month" df' i = Some v -> 1 <= v <= 12)
  /\ (forall i v, numeric_cell "Day" df' i = Some v -> 1 <= v <= 31)
  /\ (forall i v, numeric_cell "DayOfWeek" df' i = Some v -> 0 <= v <= 6)
  /\ exists monthly_sales,
      monthly_sales_of df' = ([], Done monthly_sales)
      /\ incl (index monthly_sales) month_labels
      /\ (length monthly_sales <= 12)%nat.
Proof.
  intros Hts Hload Hcells Hvalid Ha.
  apply has_column_get in Hts. destruct Hts as [raw Hraw].
  rewrite (load_data_with_timestamp _ _ _ Hraw) in Hload. cbn [result snd] in Hload.
  destruct (result (to_datetime parse raw)) as [cells' | e]; [| discriminate].
  injection Hload as <-.
  destruct (with_calendar_columns cells' df) as (Hc & _ & Hm & Hd & Hw).
  rewrite Hc in Hcells. injection Hcells as ->.
  assert (Hfields : forall ns,
             In (Some ns) cells ->
             1 <= Calendar.month_of ns <= 12
             /\ 1 <= Calendar.day_of ns <= 31
             /\ 0 <= Calendar.dayofweek_of ns <= 6).
  { intros ns Hin.
    destruct (timestamp_fields_round_trip ns (Hvalid ns Hin))
      as ((_ & Hmonth & Hday) & _ & Hwd).
    pose proof (days_in_month_bound (Calendar.year_of ns) _ Hmonth).
    split; [assumption |]. split; [lia |].
    rewrite Hwd. unfold Calendar.weekday.
    pose proof (Z.mod_pos_bound
                  (Calendar.toordinal (Calendar.year_of ns) (Calendar.month_of ns)
                                      (Calendar.day_of ns) + 6) 7 eq_refl).
    lia. }
  split; [| split; [| split]].
  - intros i v H. unfold numeric_cell in H. rewrite Hm in H.
    apply derived_cell in H. destruct H as (ns & Hin & ->). now apply Hfields.
  - intros i v H. unfold numeric_cell in H. rewrite Hd in H.
    apply derived_cell in H. destruct H as (ns & Hin & ->). now apply Hfields.
  - intros i v H. unfold numeric_cell in H. rewrite Hw in H.
    apply derived_cell in H. destruct H as (ns & Hin & ->). now apply Hfields.
  - exists (groupby_sum (dt_field Calendar.month_of cells) amounts).
    split; [now apply monthly_sales_of_eq |].
    assert (Hincl : incl (index (groupby_sum (dt_field Calendar.month_of cells)
                                             amounts)) month_labels).
    { intros k Hk. apply groupby_sum_index_incl in Hk.
      unfold dt_field in Hk. simpl in Hk. rewrite map_map in Hk.
      apply in_map_iff in Hk. destruct Hk as ([ns |] & Hk & Hin); [| discriminate].
      injection Hk as <-. apply month_label_In. now apply Hfields. }
    split; [exact Hincl |].
    pose proof (NoDup_incl_length (groupby_sum_NoDup _ amounts) Hincl) as Hle.
    unfold index in Hle. rewrite length_map in Hle. exact Hle.
Qed.

Lemma loaded_calendar_ranges_witness :
  has_column "InvoiceDate" three_sales_csv = true
  /\ exists monthly_sales,
      monthly_sales_of
        (with_calendar [Some 1614556800000000000; Some 1618444800000000000;
                        Some 1641772800000000000] three_sales_csv)
      = ([], Done monthly_sales)
      /\ (length monthly_sales <= 12)%nat.
Proof.
  split; [reflexivity |].
  destruct (loaded_calendar_ranges parse_sample three_sales_csv
              (with_calendar [Some 1614556800000000000; Some 1618444800000000000;
                              Some 1641772800000000000] three_sales_csv)
              [Some 1614556800000000000; Some 1618444800000000000;
               Some 1641772800000000000]
              [Some 10; Some 6; Some 20] eq_refl eq_refl eq_refl)
    as (_ & _ & _ & ms & Hrun & _ & Hlen).
  - intros ns [H | [H | [H | []]]]; injection H as <-;
      unfold Calendar.valid_timestamp; split; reflexivity.
  - reflexivity.
  - exists ms. split; assumption.
Defined.

Lemma four_numeric_columns (df : DataFrame) (xs1 xs2 xs3 xs4 : list (option Z)) :
  get_column "Year" df = Some (Numeric xs1) ->
  get_column "Month" df = Some (Numeric xs2) ->
  get_column "Day" df = Some (Numeric xs3) ->
  get_column "DayOfWeek" df = Some (Numeric xs4) ->
  (4 <= length (select_numeric df))%nat.
Proof.
  intros H1 H2 H3 H4.
  apply select_numeric_In in H1, H2, H3, H4.
  assert (Hnd : NoDup [("Year", xs1); ("Month", xs2); ("Day", xs3); ("DayOfWeek", xs4)]).
  { repeat constructor; simpl; intuition discriminate. }
  apply (NoDup_incl_length Hnd).
  intros c [<- | [<- | [<- | [<- | []]]]]; assumption.
Qed.

(** X16: the correlation step after loading.  A table loaded from one
    that has a timestamp column always has at least four numeric
    columns (the calendar columns), so the correlation step is never
    skipped on it: once the heatmap is rendered it saves the chart and
    prints a matrix of at least four rows. *)
Theorem correlation_runs_after_load (parse : date_parser)
        (renders : chart -> string -> bool) (df df' : DataFrame) :
  has_column "InvoiceDate" df = true ->
  result (load_data parse df) = Done df' ->
  (4 <= length (corr (select_numeric df')))%nat
  /\ (renders (Heatmap (corr (select_numeric df'))) correlation_chart = true ->
      statistical_analysis renders df'
      = ([Print (Banner "STATISTICAL ANALYSIS");
          SaveFig correlation_chart;
          Print (CorrelationMatrix (map fst (select_numeric df'))
                                   (corr (select_numeric df')))],
         Done tt)).
Proof.
  intros Hts Hload.
  apply has_column_get in Hts. destruct Hts as [raw Hraw].
  rewrite (load_data_with_timestamp _ _ _ Hraw) in Hload. cbn [result snd] in Hload.
  destruct (result (to_datetime parse raw)) as [cells | e]; [| discriminate].
  injection Hload as <-.
  destruct (with_calendar_columns cells df) as (_ & Hy & Hm & Hd & Hw).
  pose proof (four_numeric_columns _ _ _ _ _ Hy Hm Hd Hw) as H4.
  split.
  - unfold corr. now rewrite length_map, length_seq.
  - intros Hr. apply statistical_analysis_run; [lia | assumption].
Qed.

Lemma correlation_runs_after_load_witness :
  has_column "InvoiceDate" one_sale_csv = true
  /\ Nat.le 4 (length (corr (select_numeric
                                (with_calendar [Some 1614556800000000000]
                                               one_sale_csv)))).
Proof.
  split; [reflexivity |].
  apply (correlation_runs_after_load parse_sample always_renders one_sale_csv
           (with_calendar [Some 1614556800000000000] one_sale_csv)
           eq_refl eq_refl).
Defined.

Lemma generate_report_texts (renders : chart -> string -> bool) (df : DataFrame) :
  texts (trace (generate_report renders df))
  = (if completes (generate_report renders df)
     then ["ANALYSIS COMPLETE!"; "Visualizations saved in 'results/' directory"]
     else [])
  /\ incl (banners (trace (generate_report renders df))) report_banners.
Proof.
  destruct (basic_statistics_shape df) as (_ & Hb1 & Ht1 & _).
  destruct (sales_trends_analysis_shape renders df) as (b1 & _ & Hb2 & Ht2 & _).
  destruct (customer_behavior_analysis_shape renders df) as (b2 & _ & Hb3 & Ht3 & _).
  destruct (revenue_driver_analysis_shape renders df) as (b3 & _ & Hb4 & Ht4 & _).
  destruct (statistical_analysis_shape renders df) as (b4 & _ & Hb5 & Ht5 & _).
  pose proof (generate_report_cases renders df) as Hcases. cbv zeta in Hcases.
  destruct Hcases
    as [(e & _ & Heq)
       | [(e & _ & _ & Heq)
         | [(e & _ & _ & _ & Heq)
           | [(e & _ & _ & _ & _ & Heq)
             | [(e & _ & _ & _ & _ & _ & Heq)
               | (_ & _ & _ & _ & _ & Heq)]]]]];
    rewrite Heq; unfold completes; cbn [trace result fst snd];
    rewrite ?banners_app, ?texts_app, ?Hb1, ?Hb2, ?Hb3, ?Hb4, ?Hb5,
      ?Ht1, ?Ht2, ?Ht3, ?Ht4, ?Ht5; cbn [banners texts app];
    (split; [reflexivity |]);
    unfold report_banners; intros x Hx; simpl in *; tauto.
Qed.

(** X17: the closing summary.  The script prints the key-insights
    summary only after a report that completed: then the run ends
    normally with the loading message, the two closing lines of the
    report and the five insight lines, in this order.  When the report
    raises, the script raises the same error and prints neither the
    closing lines nor the summary. *)
Theorem main_summary_after_report (parse : date_parser)
        (renders : chart -> string -> bool) (csv df : DataFrame) :
  result (load_data parse csv) = Done df ->
  (result (generate_report renders df) = Done tt ->
   result (main parse renders csv) = Done tt
   /\ texts (trace (main parse renders csv))
      = ["Loading retail data...";
         "ANALYSIS COMPLETE!";
         "Visualizations saved in 'results/' directory";
         "1. Sales trends identified across different time periods";
         "2. Customer behavior patterns and segmentation analyzed";
         "3. Revenue drivers and top-performing products identified";
         "4. Statistical relationships between variables discovered";
         "5. Actionable insights for business decision-making generated"]
   /\ In "KEY INSIGHTS SUMMARY" (banners (trace (main parse renders csv))))
  /\ (forall e,
        result (generate_report renders df) = Raised e ->
        result (main parse renders csv) = Raised e
        /\ texts (trace (main parse renders csv)) = ["Loading retail data..."]
        /\ ~ In "KEY INSIGHTS SUMMARY" (banners (trace (main parse renders csv)))).
Proof.
  intros Hload.
  assert (Hshape : load_data parse csv = ([loading_message], Done df)).
  { destruct (has_column "InvoiceDate" csv) eqn:Hts.
    - apply has_column_get in Hts. destruct Hts as [raw Hraw].
      rewrite (load_data_with_timestamp _ _ _ Hraw) in *. cbn [result snd] in Hload.
      now rewrite Hload.
    - rewrite (load_data_without_timestamp _ _ Hts) in *. cbn [result snd] in Hload.
      now rewrite Hload. }
  destruct (generate_report_texts renders df) as [Htexts Hbanners].
  unfold main, banner. rewrite Hshape, bind_done.
  destruct (generate_report renders df) as [t [[] | e]] eqn:Hrep;
    unfold completes in Htexts; cbn [trace result fst snd] in Htexts, Hbanners.
  - split; [| intros e He; discriminate He]. intros _.
    step_run. cbn [trace result fst snd].
    unfold loading_message.
    rewrite ?banners_app, ?texts_app, Htexts. cbn [texts banners app].
    repeat split. apply in_or_app. right. now left.
  - split; [intros H; discriminate H |].
    intros e' He'. injection He' as <-.
    step_run. cbn [trace result fst snd]. unfold loading_message.
    cbn [texts banners app]. rewrite Htexts.
    repeat split. intros Hin. apply Hbanners in Hin.
    unfold report_banners in Hin. simpl in Hin.
    repeat (destruct Hin as [Hin | Hin]; [discriminate Hin |]). exact Hin.
Qed.

Lemma main_summary_after_report_witness :
  result (load_data parse_sample three_sales_csv)
  = Done (with_calendar [Some 1614556800000000000; Some 1618444800000000000;
                         Some 1641772800000000000] three_sales_csv)
  /\ result (main parse_sample always_renders three_sales_csv) = Done tt
  /\ In "KEY INSIGHTS SUMMARY"
        (banners (trace (main parse_sample always_renders three_sales_csv))).
Proof.
  split; [reflexivity |].
  destruct (main_summary_after_report parse_sample always_renders three_sales_csv
              (with_calendar [Some 1614556800000000000; Some 1618444800000000000;
                              Some 1641772800000000000] three_sales_csv)
              eq_refl) as [Hdone _].
  destruct (Hdone eq_refl) as (Hres & _ & Hin).
  split; assumption.
Defined.

Lemma zsum_at_least_length (l : list Z) :
  Forall (fun c => 1 <= c) l -> Z.of_nat (length l) <= zsum l.
Proof.
  unfold zsum. induction 1 as [| c l Hc Hl IH]; [simpl; lia |].
  cbn [length fold_right]. lia.
Qed.

(** X18: the mean purchases per customer.  The customer step divides
    the number of rows that carry a customer identifier by the number
    of distinct identifiers; the divisor is the unique-customer count
    it prints, it is zero only when no row carries an identifier (the
    mean is then NaN), and otherwise the mean is at least 1. *)
Theorem average_purchases_at_least_one (renders : chart -> string -> bool)
        (df : DataFrame) (customers : series) :
  get_column "CustomerID" df = Some customers ->
  exists purchases unique,
    In (Print (AveragePurchases purchases unique))
       (trace (customer_behavior_analysis renders df))
    /\ In (Print (UniqueCustomers unique))
          (trace (customer_behavior_analysis renders df))
    /\ purchases = Z.of_nat (count_keyed (keys_of customers))
    /\ Z.of_nat unique <= purchases
    /\ (unique = 0%nat <-> purchases = 0).
Proof.
  intros Hc.
  set (freq := value_counts customers).
  assert (Hunique : nunique customers = length freq).
  { unfold nunique, freq.
    rewrite <- (Permutation_length (value_counts_index customers)).
    unfold index. now rewrite length_map. }
  assert (Hones : Forall (fun c => 1 <= c) (values freq)).
  { unfold values. apply Forall_forall. intros c Hin.
    apply in_map_iff in Hin. destruct Hin as ([k c'] & <- & Hin).
    unfold freq, value_counts in Hin.
    rewrite sort_values_desc_In, accumulate_group in Hin by (now rewrite length_map).
    destruct Hin as [Hin ->]. rewrite group_total_ones. simpl.
    apply group_size_positive in Hin. lia. }
  pose proof (zsum_at_least_length _ Hones) as Hle.
  unfold values in Hle at 1. rewrite length_map in Hle.
  exists (zsum (values freq)), (length freq).
  assert (Htrace : exists rest,
             trace (customer_behavior_analysis renders df)
             = Print (Banner "CUSTOMER BEHAVIOR INSIGHTS")
                 :: Print (UniqueCustomers (length freq))
                 :: Print (AveragePurchases (zsum (values freq)) (length freq))
                 :: rest).
  { unfold customer_behavior_analysis, banner, column.
    assert (H1 : has_column "CustomerID" df = true) by (apply has_column_get; eauto).
    rewrite H1, Hc. step_run. cbn [trace fst].
    fold freq. rewrite Hunique. eexists. reflexivity. }
  destruct Htrace as [rest Htrace]. rewrite Htrace.
  split; [simpl; tauto |]. split; [simpl; tauto |].
  split; [apply value_counts_total |].
  split; [exact Hle |].
  split.
  - intros H0. apply length_zero_iff_nil in H0. now rewrite H0.
  - intros H0. lia.
Qed.

Lemma average_purchases_at_least_one_witness :
  get_column "CustomerID" walk_in_sales
  = Some (Object [Some "A"; None; Some "A"; Some "B"])
  /\ In (Print (AveragePurchases 3 2))
        (trace (customer_behavior_analysis always_renders walk_in_sales)).
Proof.
  split; [reflexivity |].
  destruct (average_purchases_at_least_one always_renders walk_in_sales
              (Object [Some "A"; None; Some "A"; Some "B"]) eq_refl)
    as (p & u & _ & _ & _).
  simpl. tauto.
Defined.

Lemma present_length (xs : list (option Z)) :
  (length (present xs) + count_null xs)%nat = length xs.
Proof.
  unfold count_null.
  induction xs as [| [x |] xs IH]; simpl; lia.
Qed.

Lemma describe_numeric_names (df : DataFrame) :
  map fst (describe_numeric df)
  = map fst (filter (fun c => is_described (snd c)) df).
Proof.
  induction df as [| [name [xs | xs | xs]] df IH]; cbn [describe_numeric filter snd
                                                          is_described map fst];
    [reflexivity | | |]; now rewrite ?IH.
Qed.

Lemma describe_numeric_rows (df : DataFrame) (name : string) (sm : summary) :
  In (name, sm) (describe_numeric df) ->
  (exists xs, In (name, Numeric xs) df /\ sm = summarize xs)
  \/ (exists xs, In (name, Datetime xs) df /\ sm = summarize_time xs).
Proof.
  induction df as [| [n [xs | xs | xs]] df IH]; cbn [describe_numeric];
    [intros [] | | |].
  - intros [E | Hin].
    + injection E as -> <-. left. exists xs. split; [now left | reflexivity].
    + destruct (IH Hin) as [(ys & H1 & H2) | (ys & H1 & H2)];
        [left | right]; exists ys; (split; [now right | assumption]).
  - intros Hin.
    destruct (IH Hin) as [(ys & H1 & H2) | (ys & H1 & H2)];
      [left | right]; exists ys; (split; [now right | assumption]).
  - intros [E | Hin].
    + injection E as -> <-. right. exists xs. split; [now left | reflexivity].
    + destruct (IH Hin) as [(ys & H1 & H2) | (ys & H1 & H2)];
        [left | right]; exists ys; (split; [now right | assumption]).
Qed.

Lemma describe_numeric_none (df : DataFrame) :
  describe_numeric df = [] <-> existsb (fun c => is_described (snd c)) df = false.
Proof.
  induction df as [| [name [xs | xs | xs]] df IH];
    cbn [describe_numeric existsb snd is_described orb];
    [tauto | | exact IH |]; split; discriminate.
Qed.

(** X19: the overview of a rectangular table.  On a table with at least
    one column whose columns all hold [n] rows, the overview completes
    and reports [n] rows and the number of columns.  The summary
    statistics have one row per numeric or datetime column, in the
    order of the table, or one row per column when there is no such
    column; the row of a column is computed from that column, and its
    count and the missing-value count of the column add up to [n]. *)
Theorem overview_counts (df : DataFrame) (n : nat) :
  df <> [] ->
  rows_aligned n df ->
  exists stats,
    basic_statistics df
    = ([Print (Banner "DATASET OVERVIEW");
        Print (Shape n (length df));
        Print (Columns (columns df));
        Print (DataTypes (map (fun c => (fst c, dtype_of (snd c))) df));
        Print (MissingValues (map (fun c => (fst c, null_count (snd c))) df));
        Print (BasicStatistics stats)],
       Done tt)
    /\ map fst stats
       = (if existsb (fun c => is_described (snd c)) df
          then map fst (filter (fun c => is_described (snd c)) df)
          else columns df)
    /\ forall name sm,
        In (name, sm) stats ->
        exists s,
          In (name, s) df
          /\ (summary_count sm + null_count s)%nat = n
          /\ match s with
             | Numeric xs => sm = summarize xs
             | Datetime xs => sm = summarize_time xs
             | Object _ => sm = snd (describe_object (name, s))
             end.
Proof.
  intros Hne Hal.
  destruct (basic_statistics_run df Hne) as (stats & Hd & Hrun).
  exists stats. split.
  { rewrite Hrun. unfold shape.
    destruct df as [| [c s] df]; [congruence |].
    unfold rows_aligned in Hal. apply Forall_cons_iff in Hal.
    destruct Hal as [H0 _]. simpl in H0. cbn [fst snd]. now rewrite H0. }
  unfold rows_aligned in Hal. rewrite Forall_forall in Hal.
  unfold describe in Hd.
  destruct df as [| c0 df0] eqn:Edf; [congruence |]. rewrite <- Edf in *.
  destruct (describe_numeric df) as [| row rows] eqn:E.
  - injection Hd as <-.
    apply describe_numeric_none in E. rewrite E. split.
    { unfold columns. rewrite map_map. reflexivity. }
    intros name sm Hin. apply in_map_iff in Hin.
    destruct Hin as ([m s] & Heq & Hin). injection Heq as <- <-.
    exists s. split; [assumption |].
    assert (Hobj : is_described s = false).
    { rewrite <- not_true_iff_false. intros Ht.
      rewrite <- not_true_iff_false in E. apply E.
      apply existsb_exists. exists (m, s). now split. }
    specialize (Hal _ Hin). cbn [snd] in Hal.
    destruct s as [xs | xs | xs]; try discriminate Hobj.
    split; [| reflexivity]. cbn [describe_object summary_count fst snd].
    assert (null_count (Object xs) <= series_length (Object xs))%nat; [| lia].
    simpl. unfold count_null. apply filter_length_le.
  - injection Hd as <-. rewrite <- E.
    assert (Hsome : existsb (fun c => is_described (snd c)) df = true).
    { rewrite <- not_false_iff_true. intros Hf.
      apply describe_numeric_none in Hf. congruence. }
    rewrite Hsome. split; [apply describe_numeric_names |].
    intros name sm Hin.
    destruct (describe_numeric_rows _ _ _ Hin) as [(xs & Hsrc & ->) | (xs & Hsrc & ->)].
    + exists (Numeric xs). split; [assumption |]. split; [| reflexivity].
      specialize (Hal _ Hsrc). simpl in *. pose proof (present_length xs). lia.
    + exists (Datetime xs). split; [assumption |]. split; [| reflexivity].
      specialize (Hal _ Hsrc). simpl in *. pose proof (present_length xs). lia.
Qed.

Lemma overview_counts_witness :
  walk_in_sales <> []
  /\ rows_aligned 4 walk_in_sales
  /\ exists stats,
      In (Print (BasicStatistics stats)) (trace (basic_statistics walk_in_sales))
      /\ map fst stats = ["TotalAmount"]
      /\ forall name sm,
          In (name, sm) stats ->
          exists s,
            In (name, s) walk_in_sales
            /\ (summary_count sm + null_count s)%nat = 4%nat.
Proof.
  assert (Hne : walk_in_sales <> []) by discriminate.
  assert (Hal : rows_aligned 4 walk_in_sales) by (repeat constructor).
  split; [exact Hne |]. split; [exact Hal |].
  destruct (overview_counts walk_in_sales 4 Hne Hal) as (stats & Hrun & Hnames & Hrows).
  exists stats. split; [rewrite Hrun; simpl; tauto |].
  split; [exact Hnames |].
  intros name sm Hin. destruct (Hrows name sm Hin) as (s & H1 & H2 & _).
  exists s. now split.
Defined.
